(** * Fast R-CNN multi-GPU training driver: [lib/fast_rcnn/train.py]

    A shallow embedding of [SolverWrapper] ([__init__], [snapshot],
    [train_model]), [filter_roidb], [train_net] and [train_net_multi_gpus],
    followed by the properties of the training loop, the snapshot transform
    and the process fan-out.

    Conventions.
    - Python integers are [Z]; [%] is [Z.modulo] (both take the sign of the
      divisor) and raises [ZeroDivisionError] on a zero divisor.
    - numpy and Python floating point is kept abstract in the class
      [Numeric]: the development never looks inside a float, so every
      theorem holds for IEEE arithmetic as well as for exact arithmetic.
    - A method that mutates [self], the file system or stderr is a function
      from the state to an [outcome]: a value and the new state, or an
      exception and the state it left.  Loops run on fuel; [train_model]
      is shown never to exhaust it. *)

From Stdlib Require Import ZArith List String Ascii Bool Lia QArith.
From Stdlib Require Import DecimalString DecimalZ DecimalFacts DecimalPos.
From stdpp Require Import base option list gmap strings fin_maps.

Local Open Scope string_scope.
Local Open Scope Z_scope.

(** ** Exceptions and outcomes *)

Inductive exn : Type :=
  | AssertionError (msg : option string)
  | ZeroDivisionError
  | ValueError
  | TypeError
  | IndexError
  | IOError (path : string).

Inductive outcome (St A : Type) : Type :=
  | Ok (a : A) (s : St)
  | Raise (e : exn) (s : St)
  | Diverge (s : St).
Arguments Ok {St A} a s.
Arguments Raise {St A} e s.
Arguments Diverge {St A} s.

(** The state in which a computation has ended. *)
Definition final_state {St A} (o : outcome St A) : St :=
  match o with
  | Ok _ s | Raise _ s | Diverge s => s
  end.

Definition M (St A : Type) : Type := St -> outcome St A.

Definition ret {St A} (a : A) : M St A := fun s => Ok a s.

Definition bind {St A B} (m : M St A) (k : A -> M St B) : M St B :=
  fun s =>
    match m s with
    | Ok a s' => k a s'
    | Raise e s' => Raise e s'
    | Diverge s' => Diverge s'
    end.

Definition raise {St A} (e : exn) : M St A := fun s => Raise e s.
Definition get {St} : M St St := fun s => Ok s s.
Definition modify {St} (f : St -> St) : M St unit := fun s => Ok tt (f s).

Notation "x <- c ;; k" := (bind c (fun x => k))
  (at level 100, c at next level, right associativity).
Notation "c ;;; k" := (bind c (fun _ => k))
  (at level 100, right associativity).

(** [assert cond] and [assert cond, msg]. *)
Definition py_assert {St} (cond : bool) (msg : option string) : M St unit :=
  if cond then ret tt else raise (AssertionError msg).

(** [a % b] on Python integers. *)
Definition py_mod {St} (a b : Z) : M St Z :=
  if b =? 0 then raise ZeroDivisionError else ret (a mod b).

(** [while cond: body], with the loop-carried locals of type [L].
    The guard is tested before the fuel, so that [fuel] iterations of the
    body are available; [Diverge s] is a computation that never returns,
    stuck in state [s]. *)
Fixpoint while_ {St L} (fuel : nat) (cond : L -> St -> bool)
    (body : L -> M St L) (l : L) : M St L :=
  fun s =>
    if cond l s then
      match fuel with
      | O => Diverge s
      | S fuel' =>
          match body l s with
          | Ok l' s' => while_ fuel' cond body l' s'
          | Raise e s' => Raise e s'
          | Diverge s' => Diverge s'
          end
      end
    else Ok l s.

(** ** Strings: ['{:d}'.format], [os.path.join] *)

(** ['{:d}'.format(n)] and ['{}'.format(n)] for an integer [n]. *)
Definition format_d (n : Z) : string := NilZero.string_of_int (Z.to_int n).

Definition startswith_slash (s : string) : bool :=
  match s with
  | String c _ => Ascii.eqb c "/"%char
  | EmptyString => false
  end.

Fixpoint endswith_slash (s : string) : bool :=
  match s with
  | EmptyString => false
  | String c EmptyString => Ascii.eqb c "/"%char
  | String _ rest => endswith_slash rest
  end.

(** [posixpath.join(a, b)]. *)
Definition os_path_join (a b : string) : string :=
  if startswith_slash b then b
  else if String.eqb a "" || endswith_slash a then a +:+ b
  else a +:+ "/" +:+ b.

(** ** Floating point, kept abstract *)

Class Numeric : Type := {
  (** element type of a parameter blob (float32 in Caffe) *)
  blob_t : Type;
  (** element type of the normalization statistics *)
  stat_t : Type;
  (** Python floats: overlaps, thresholds, aspect ratios *)
  real_t : Type;
  (** [w * s], a blob element times a statistic *)
  mul_bs : blob_t -> stat_t -> stat_t;
  (** [x + m] on statistics *)
  add_ss : stat_t -> stat_t -> stat_t;
  (** the cast done by [blob.data[...] = value] *)
  cast_sb : stat_t -> blob_t;
  real_ge : real_t -> real_t -> bool;
  real_lt : real_t -> real_t -> bool;
  real_gt : real_t -> real_t -> bool;
  (** [a / float(b)] for integers [a], [b] with [b <> 0] *)
  real_div : Z -> Z -> real_t
}.

(** Exact arithmetic: integer blobs and statistics, rational reals. *)
Definition exact_numeric : Numeric := {|
  blob_t := Z; stat_t := Z; real_t := Q;
  mul_bs := Z.mul; add_ss := Z.add; cast_sb := fun x => x;
  real_ge := fun x y => Qle_bool y x;
  real_lt := fun x y => Qle_bool x y && negb (Qeq_bool x y);
  real_gt := fun x y => Qle_bool y x && negb (Qeq_bool x y);
  real_div := fun a b => Qdiv (inject_Z a) (inject_Z b)
|}.

(** ** numpy broadcasting on the leading axis *)

Section Broadcast.
Context {A B C : Type}.

(** [xs op ys] for arrays whose leading axes have lengths [length xs] and
    [length ys]: equal lengths pair up, a length-1 axis is stretched, any
    other combination is a [ValueError]. *)
Definition broadcast (f : A -> B -> C) (xs : list A) (ys : list B)
    : option (list C) :=
  if (length xs =? length ys)%nat then Some (zip_with f xs ys)
  else match xs, ys with
       | [x], _ => Some (map (f x) ys)
       | _, [y] => Some (map (fun x => f x y) xs)
       | _, _ => None
       end.

(** [old[...] = new]: [new] must have the length of [old] or length 1. *)
Definition assign (g : C -> A) (old : list A) (new : list C)
    : option (list A) :=
  if (length new =? length old)%nat then Some (map g new)
  else match new with
       | [c] => Some (map (fun _ => g c) old)
       | _ => None
       end.
End Broadcast.

(** ** Data model *)

(** The fields of [cfg.TRAIN] (and [cfg.RNG_SEED]) read by [train.py]. *)
Record Cfg `{Numeric} : Type := {
  TRAIN_BBOX_REG : bool;
  TRAIN_BBOX_NORMALIZE_TARGETS : bool;
  TRAIN_BBOX_NORMALIZE_TARGETS_PRECOMPUTED : bool;
  TRAIN_HAS_RPN : bool;
  TRAIN_SNAPSHOT_INFIX : string;
  TRAIN_SNAPSHOT_ITERS : Z;
  TRAIN_IMS_PER_BATCH : Z;
  TRAIN_REAL_BATCH_SIZE : Z;
  TRAIN_FG_THRESH : real_t;
  TRAIN_BG_THRESH_HI : real_t;
  TRAIN_BG_THRESH_LO : real_t;
  TRAIN_MIN_IM_RATIO : real_t;
  RNG_SEED : Z
}.

(** The fields of the solver prototxt ([caffe_pb2.SolverParameter]) that are
    read: [self.solver_param] and [self.solver.param] come from the same
    file. *)
Record SolverParameter : Type := {
  snapshot_prefix : string;
  display : Z;
  iter_size : Z;
  layer_wise_reduce : bool
}.

(** A parameter group [net.params[name]] of an inner-product layer:
    [[0].data] is the weight matrix, one row per output dimension, and
    [[1].data] the bias vector. *)
Record layer `{Numeric} : Type := {
  weight : list (list blob_t);
  bias : list blob_t
}.

(** What a [SolverWrapper] method can read and write: the attributes of
    [self] (with the solver's iteration counter and parameters), the
    checkpoint files written so far, and the lines sent to stderr
    (rank and iteration; the timing is not modelled). *)
Record session `{Numeric} : Type := {
  output_dir : string;
  rank : Z;
  bbox_means : option (list stat_t);
  bbox_stds : option (list stat_t);
  solver_iter : Z;
  net_params : gmap string layer;
  solver_param : SolverParameter;
  disk : gmap string (gmap string layer);
  fs_writable : string -> bool;
  stderr : list (Z * Z)
}.

Section Setters.
Context `{Numeric}.

Definition set_iter (i : Z) (s : session) : session :=
  {| output_dir := output_dir s; rank := rank s;
     bbox_means := bbox_means s; bbox_stds := bbox_stds s;
     solver_iter := i; net_params := net_params s;
     solver_param := solver_param s; disk := disk s;
     fs_writable := fs_writable s; stderr := stderr s |}.

Definition set_params (p : gmap string layer) (s : session) : session :=
  {| output_dir := output_dir s; rank := rank s;
     bbox_means := bbox_means s; bbox_stds := bbox_stds s;
     solver_iter := solver_iter s; net_params := p;
     solver_param := solver_param s; disk := disk s;
     fs_writable := fs_writable s; stderr := stderr s |}.

Definition set_disk (d : gmap string (gmap string layer)) (s : session)
    : session :=
  {| output_dir := output_dir s; rank := rank s;
     bbox_means := bbox_means s; bbox_stds := bbox_stds s;
     solver_iter := solver_iter s; net_params := net_params s;
     solver_param := solver_param s; disk := d;
     fs_writable := fs_writable s; stderr := stderr s |}.

Definition set_stderr (e : list (Z * Z)) (s : session) : session :=
  {| output_dir := output_dir s; rank := rank s;
     bbox_means := bbox_means s; bbox_stds := bbox_stds s;
     solver_iter := solver_iter s; net_params := net_params s;
     solver_param := solver_param s; disk := disk s;
     fs_writable := fs_writable s; stderr := e |}.
End Setters.

(** The parts of Caffe that [train.py] calls and that compute something the
    model depends on. *)
Record Caffe `{Numeric} : Type := {
  (** the parameter update of [solver.step(1)] at a given iteration *)
  sgd_update : Z -> gmap string layer -> gmap string layer;
  (** the parameters of the net that [caffe.SGDSolver(prototxt)] builds *)
  init_net : string -> gmap string layer;
  (** the solver settings parsed from the prototxt *)
  read_solver_param : string -> SolverParameter;
  (** [net.copy_from(pretrained_model)] *)
  copy_from : string -> gmap string layer -> gmap string layer;
  (** the parameters a rank holds after [nccl.bcast()] *)
  nccl_bcast : Z -> gmap string layer -> gmap string layer
}.

(** ** [SolverWrapper.snapshot] and [SolverWrapper.train_model] *)

Section SolverWrapper.
Context `{Numeric} (cfg : Cfg) (caffe : Caffe).

(** A numpy expression that cannot be broadcast raises [ValueError]. *)
Definition numpy {A} (r : option A) : M session A :=
  match r with
  | Some a => ret a
  | None => raise ValueError
  end.

(** Arithmetic on an attribute that holds [None] raises [TypeError]. *)
Definition ndarray_attr {A} (r : option A) : M session A :=
  match r with
  | Some a => ret a
  | None => raise TypeError
  end.

(** [net.params['bbox_pred'][0].data * self.bbox_stds[:, np.newaxis]] *)
Definition scale_weight (w : list (list blob_t)) (stds : list stat_t)
    : option (list (list stat_t)) :=
  broadcast (fun row s => map (fun x => mul_bs x s) row) w stds.

Definition set_weight (name : string) (w : list (list blob_t))
    : M session unit :=
  modify (fun s =>
    match net_params s !! name with
    | Some l =>
        set_params (<[name := {| weight := w; bias := bias l |}]>
                      (net_params s)) s
    | None => s
    end).

Definition set_bias (name : string) (b : list blob_t) : M session unit :=
  modify (fun s =>
    match net_params s !! name with
    | Some l =>
        set_params (<[name := {| weight := weight l; bias := b |}]>
                      (net_params s)) s
    | None => s
    end).

(** [net.save(str(filename))]: writes the live parameters to the file, and
    raises when the file cannot be written. *)
Definition net_save (filename : string) : M session unit :=
  fun s =>
    if fs_writable s filename
    then Ok tt (set_disk (<[filename := net_params s]> (disk s)) s)
    else Raise (IOError filename) s.

Definition snapshot_infix : string :=
  if negb (String.eqb (TRAIN_SNAPSHOT_INFIX cfg) "")
  then "_" +:+ TRAIN_SNAPSHOT_INFIX cfg else "".

Definition snapshot_filename (s : session) : string :=
  let filename :=
    snapshot_prefix (solver_param s) +:+ snapshot_infix +:+
    "_iter_" +:+ format_d (solver_iter s) +:+ ".caffemodel" in
  os_path_join (output_dir s) filename.

Definition scale_bbox_params (s : session) : bool :=
  TRAIN_BBOX_REG cfg && TRAIN_BBOX_NORMALIZE_TARGETS cfg &&
  bool_decide (is_Some (net_params s !! "bbox_pred")).

Definition snapshot : M session string :=
  s <- get ;;
  py_assert (rank s =? 0) None ;;;
  orig <- (if scale_bbox_params s then
             match net_params s !! "bbox_pred" with
             | Some orig =>
                 stds <- ndarray_attr (bbox_stds s) ;;
                 scaled <- numpy (scale_weight (weight orig) stds) ;;
                 w <- numpy (assign (map cast_sb) (weight orig) scaled) ;;
                 set_weight "bbox_pred" w ;;;
                 prod <- numpy (broadcast mul_bs (bias orig) stds) ;;
                 means <- ndarray_attr (bbox_means s) ;;
                 shifted <- numpy (broadcast add_ss prod means) ;;
                 b <- numpy (assign cast_sb (bias orig) shifted) ;;
                 set_bias "bbox_pred" b ;;;
                 ret (Some orig)
             | None => ret None
             end
           else ret None) ;;
  let filename := snapshot_filename s in
  net_save filename ;;;
  match orig with
  | Some l =>
      set_weight "bbox_pred" (weight l) ;;;
      set_bias "bbox_pred" (bias l)
  | None => ret tt
  end ;;;
  ret filename.

(** [self.solver.step(1)] *)
Definition solver_step : M session unit :=
  modify (fun s =>
    set_iter (solver_iter s + 1)
      (set_params (sgd_update caffe (solver_iter s) (net_params s)) s)).

Definition write_stderr : M session unit :=
  modify (fun s => set_stderr (stderr s ++ [(rank s, solver_iter s)])%list s).

(** The locals carried by the loop:
    [(last_snapshot_iter, model_paths)]. *)
Definition train_body (l : Z * list string) : M session (Z * list string) :=
  solver_step ;;;
  s <- get ;;
  r <- py_mod (solver_iter s) (10 * display (solver_param s)) ;;
  (if r =? 0 then write_stderr else ret tt) ;;;
  if rank s =? 0 then
    q <- py_mod (solver_iter s) (TRAIN_SNAPSHOT_ITERS cfg) ;;
    if q =? 0 then
      path <- snapshot ;;
      ret (solver_iter s, (snd l ++ [path])%list)
    else ret l
  else ret l.

Definition train_model (max_iters : Z) : M session (list string) :=
  s0 <- get ;;
  l <- while_ (Z.to_nat (max_iters - solver_iter s0))
         (fun _ s => solver_iter s <? max_iters)
         train_body (-1, []) ;;
  s <- get ;;
  if (rank s =? 0) && negb (fst l =? solver_iter s) then
    path <- snapshot ;;
    ret (snd l ++ [path])%list
  else ret (snd l).

End SolverWrapper.

(** ** [filter_roidb] *)

(** The keys of a roidb entry that [train.py] reads, and the image path that
    identifies the entry. *)
Record roidb_entry `{Numeric} : Type := {
  image : string;
  max_overlaps : list real_t;
  width : Z;
  height : Z
}.

(** [np.where(mask)[0]]: the indices at which [mask] holds. *)
Fixpoint np_where_from (i : nat) (mask : list bool) : list nat :=
  match mask with
  | [] => []
  | b :: rest =>
      if b then i :: np_where_from (S i) rest else np_where_from (S i) rest
  end.

Definition np_where (mask : list bool) : list nat := np_where_from 0 mask.

(** [[x for x in xs if p(x)]], where [p] may raise. *)
Fixpoint comprehension_if {St A} (p : A -> M St bool) (xs : list A)
    : M St (list A) :=
  match xs with
  | [] => ret []
  | x :: rest =>
      keep <- p x ;;
      tail <- comprehension_if p rest ;;
      ret (if keep then x :: tail else tail)
  end.

Section FilterRoidb.
Context `{Numeric} (cfg : Cfg).

(** [a / float(b)] *)
Definition py_truediv {St} (a b : Z) : M St real_t :=
  if b =? 0 then raise ZeroDivisionError else ret (real_div a b).

Definition is_valid {St} (entry : roidb_entry) : M St bool :=
  let overlaps := max_overlaps entry in
  let fg_inds :=
    np_where (map (fun o => real_ge o (TRAIN_FG_THRESH cfg)) overlaps) in
  let bg_inds :=
    np_where
      (zip_with andb
         (map (fun o => real_lt o (TRAIN_BG_THRESH_HI cfg)) overlaps)
         (map (fun o => real_ge o (TRAIN_BG_THRESH_LO cfg)) overlaps)) in
  let valid := (0 <? length fg_inds)%nat || (0 <? length bg_inds)%nat in
  let w := width entry in
  let h := height entry in
  ratio <- py_truediv (Z.min h w) (Z.max h w) ;;
  ret (real_gt ratio (TRAIN_MIN_IM_RATIO cfg) && valid).

(** The state is stdout: the report line is
    ['Filtered {} roidb entries: {} -> {}']. *)
Definition filter_roidb (roidb : list roidb_entry)
    : M (list string) (list roidb_entry) :=
  let num := Z.of_nat (length roidb) in
  filtered_roidb <- comprehension_if is_valid roidb ;;
  let num_after := Z.of_nat (length filtered_roidb) in
  modify (fun out =>
    out ++ ["Filtered " +:+ format_d (num - num_after) +:+
            " roidb entries: " +:+ format_d num +:+ " -> " +:+
            format_d num_after])%list ;;;
  ret filtered_roidb.

(** The predicate as the specification words it: counts of foreground and
    background overlaps, and the aspect ratio. *)
Definition count {A} (p : A -> bool) (xs : list A) : nat :=
  length (List.filter p xs).

Definition spec_keep (e : roidb_entry) : bool :=
  let fg := count (fun o => real_ge o (TRAIN_FG_THRESH cfg))
              (max_overlaps e) in
  let bg := count (fun o => real_ge o (TRAIN_BG_THRESH_LO cfg) &&
                            real_lt o (TRAIN_BG_THRESH_HI cfg))
              (max_overlaps e) in
  ((0 <? fg)%nat || (0 <? bg)%nat) &&
  real_gt (real_div (Z.min (height e) (width e))
                    (Z.max (height e) (width e)))
          (TRAIN_MIN_IM_RATIO cfg).
End FilterRoidb.

(** ** Worker processes: [SolverWrapper.__init__] and [train_net] *)

(** The calls into Caffe, logged in program order. *)
Inductive caffe_call `{Numeric} : Type :=
  | call_set_mode_gpu
  | call_set_device (id : Z)
  | call_set_solver_count (n : Z)
  | call_set_solver_rank (r : Z)
  | call_set_multiprocess (b : bool)
  | call_set_random_seed (seed : Z)
  | call_SGDSolver (solver_prototxt : string)
  | call_copy_from (pretrained_model : string)
  | call_NCCL (nccl_uid : Z)
  | call_bcast
  | call_add_callback
  | call_after_backward
  | call_set_roidb (roidb : list roidb_entry).

(** The state of one worker process: Caffe's global solver count, the log
    of calls, the values this process has put on the result queue, and the
    file system and stderr as the process sees them. *)
Record process `{Numeric} : Type := {
  caffe_solver_count : Z;
  caffe_calls : list caffe_call;
  queue_puts : list (list string);
  p_disk : gmap string (gmap string layer);
  p_writable : string -> bool;
  p_stderr : list (Z * Z)
}.

Section Worker.
Context `{Numeric} (cfg : Cfg) (caffe : Caffe).

Definition log_call (c : caffe_call) : M process unit :=
  modify (fun p =>
    {| caffe_solver_count := caffe_solver_count p;
       caffe_calls := (caffe_calls p ++ [c])%list;
       queue_puts := queue_puts p;
       p_disk := p_disk p; p_writable := p_writable p;
       p_stderr := p_stderr p |}).

(** [caffe.set_solver_count(n)] *)
Definition set_solver_count (n : Z) : M process unit :=
  log_call (call_set_solver_count n) ;;;
  modify (fun p =>
    {| caffe_solver_count := n;
       caffe_calls := caffe_calls p;
       queue_puts := queue_puts p;
       p_disk := p_disk p; p_writable := p_writable p;
       p_stderr := p_stderr p |}).

(** [queue.put(v)] *)
Definition queue_put (v : list string) : M process unit :=
  modify (fun p =>
    {| caffe_solver_count := caffe_solver_count p;
       caffe_calls := caffe_calls p;
       queue_puts := (queue_puts p ++ [v])%list;
       p_disk := p_disk p; p_writable := p_writable p;
       p_stderr := p_stderr p |}).

(** Writes back the files and stderr lines a method of [sw] produced. *)
Definition sync_out (sw : session) (p : process) : process :=
  {| caffe_solver_count := caffe_solver_count p;
     caffe_calls := caffe_calls p;
     queue_puts := queue_puts p;
     p_disk := disk sw; p_writable := p_writable p;
     p_stderr := stderr sw |}.

(** Runs a method of the [SolverWrapper] object [sw] in the process. *)
Definition call_method {A} (m : M session A) (sw : session)
    : M process (A * session) :=
  fun p =>
    match m (set_stderr (p_stderr p) (set_disk (p_disk p) sw)) with
    | Ok a sw' => Ok (a, sw') (sync_out sw' p)
    | Raise e sw' => Raise e (sync_out sw' p)
    | Diverge sw' => Diverge (sync_out sw' p)
    end.

Definition batch_product (p : process) (param : SolverParameter) : Z :=
  caffe_solver_count p * TRAIN_IMS_PER_BATCH cfg * iter_size param.

Definition batch_message (p : process) (param : SolverParameter) : string :=
  format_d (batch_product p param) +:+ " vs " +:+
  format_d (TRAIN_REAL_BATCH_SIZE cfg).

(** [SolverWrapper.__init__] *)
Definition SolverWrapper_init (solver_prototxt : string)
    (roidb : list roidb_entry) (output_dir : string) (nccl_uid : Z)
    (rank : Z) (bbox_means bbox_stds : option (list stat_t))
    (pretrained_model : option string) : M process session :=
  (if TRAIN_HAS_RPN cfg && TRAIN_BBOX_REG cfg &&
      TRAIN_BBOX_NORMALIZE_TARGETS cfg
   then py_assert (TRAIN_BBOX_NORMALIZE_TARGETS_PRECOMPUTED cfg) None
   else ret tt) ;;;
  log_call (call_SGDSolver solver_prototxt) ;;;
  let param := read_solver_param caffe solver_prototxt in
  p <- get ;;
  py_assert (batch_product p param =? TRAIN_REAL_BATCH_SIZE cfg)
    (Some (batch_message p param)) ;;;
  params <- match pretrained_model with
            | Some m =>
                log_call (call_copy_from m) ;;;
                ret (copy_from caffe m (init_net caffe solver_prototxt))
            | None => ret (init_net caffe solver_prototxt)
            end ;;
  log_call (call_NCCL nccl_uid) ;;;
  log_call call_bcast ;;;
  log_call call_add_callback ;;;
  py_assert (layer_wise_reduce param) None ;;;
  (if layer_wise_reduce param then log_call call_after_backward
   else ret tt) ;;;
  log_call (call_set_roidb roidb) ;;;
  p <- get ;;
  ret {| output_dir := output_dir; rank := rank;
         bbox_means := if TRAIN_BBOX_REG cfg then bbox_means else None;
         bbox_stds := if TRAIN_BBOX_REG cfg then bbox_stds else None;
         solver_iter := 0;
         net_params := nccl_bcast caffe rank params;
         solver_param := param;
         disk := p_disk p; fs_writable := p_writable p;
         stderr := p_stderr p |}.

(** [gpus[rank]] for an index produced by [range(len(gpus))]. *)
Definition getitem {St A} (xs : list A) (i : nat) : M St A :=
  match xs !! i with
  | Some x => ret x
  | None => raise IndexError
  end.

(** [train_net]; [queue] is the process's end of the result queue. *)
Definition train_net (solver_prototxt : string) (roidb : list roidb_entry)
    (output_dir : string) (nccl_uid : Z) (gpus : list Z) (rank : nat)
    (bbox_means bbox_stds : option (list stat_t))
    (pretrained_model : option string) (max_iters : Z) : M process unit :=
  log_call call_set_mode_gpu ;;;
  dev <- getitem gpus rank ;;
  log_call (call_set_device dev) ;;;
  set_solver_count (Z.of_nat (length gpus)) ;;;
  log_call (call_set_solver_rank (Z.of_nat rank)) ;;;
  log_call (call_set_multiprocess true) ;;;
  log_call (call_set_random_seed (RNG_SEED cfg)) ;;;
  sw <- SolverWrapper_init solver_prototxt roidb output_dir nccl_uid
          (Z.of_nat rank) bbox_means bbox_stds pretrained_model ;;
  r <- call_method (train_model cfg caffe max_iters) sw ;;
  let model_paths := fst r in
  if (rank =? 0)%nat then queue_put model_paths else ret tt.
End Worker.

(** ** The orchestrator: [train_net_multi_gpus] *)

(** The argument tuple of one [Process(target=train_net, args=...)]. *)
Record spawn_args `{Numeric} : Type := {
  a_solver_prototxt : string;
  a_roidb : list roidb_entry;
  a_output_dir : string;
  a_nccl_uid : Z;
  a_gpus : list Z;
  a_rank : nat;
  a_bbox_means : option (list stat_t);
  a_bbox_stds : option (list stat_t);
  a_pretrained_model : option string;
  a_max_iters : Z
}.

(** What the parent process does, in program order. *)
Inductive event `{Numeric} : Type :=
  | ev_filter_roidb (roidb : list roidb_entry)
  | ev_new_uid
  | ev_add_bbox_regression_targets (roidb : list roidb_entry)
  | ev_start (args : spawn_args)
  | ev_join (rank : nat)
  | ev_queue_get.

Record parent `{Numeric} : Type := {
  stdout : list string;
  events : list event
}.

Section Orchestrator.
Context `{Numeric} (cfg : Cfg) (caffe : Caffe).

(** [rdl_roidb.add_bbox_regression_targets]: the roidb with its targets
    normalized in place, and [(means, stds)]. *)
Variable add_bbox_regression_targets :
  list roidb_entry -> list roidb_entry * (list stat_t * list stat_t).

(** [caffe.NCCL.new_uid()] *)
Variable new_uid : Z.

(** The process image a child starts from. *)
Variable child0 : process.

Definition emit (e : event) : M parent unit :=
  modify (fun p =>
    {| stdout := stdout p; events := (events p ++ [e])%list |}).

Definition py_print (line : string) : M parent unit :=
  modify (fun p =>
    {| stdout := (stdout p ++ [line])%list; events := events p |}).

(** Runs a computation on stdout in the parent. *)
Definition with_stdout {A} (m : M (list string) A) : M parent A :=
  fun p =>
    match m (stdout p) with
    | Ok a out => Ok a {| stdout := out; events := events p |}
    | Raise e out => Raise e {| stdout := out; events := events p |}
    | Diverge out => Diverge {| stdout := out; events := events p |}
    end.

(** [multiprocessing.Queue]: whether a value that a child has put fits
    in the buffer of the queue's pipe.  A child that is exiting first
    waits for its feeder thread to flush what it has put; while the
    parent is not reading, that ends only if the value fits. *)
Variable pipe_fits : list string -> bool.

(** The worker started with [args], taken alone: what it does when every
    collective it enters completes. *)
Definition run_alone (args : spawn_args) : outcome process unit :=
  train_net cfg caffe (a_solver_prototxt args) (a_roidb args)
    (a_output_dir args) (a_nccl_uid args) (a_gpus args) (a_rank args)
    (a_bbox_means args) (a_bbox_stds args) (a_pretrained_model args)
    (a_max_iters args) child0.

(** The same worker up to the construction of its wrapper: the first
    seven statements of [train_net]. *)
Definition worker_init (args : spawn_args) : outcome process session :=
  (log_call call_set_mode_gpu ;;;
   dev <- getitem (a_gpus args) (a_rank args) ;;
   log_call (call_set_device dev) ;;;
   set_solver_count (Z.of_nat (length (a_gpus args))) ;;;
   log_call (call_set_solver_rank (Z.of_nat (a_rank args))) ;;;
   log_call (call_set_multiprocess true) ;;;
   log_call (call_set_random_seed (RNG_SEED cfg)) ;;;
   SolverWrapper_init cfg caffe (a_solver_prototxt args) (a_roidb args)
     (a_output_dir args) (a_nccl_uid args) (Z.of_nat (a_rank args))
     (a_bbox_means args) (a_bbox_stds args) (a_pretrained_model args))
    child0.

(** The calls of [__init__] in which the whole group takes part. *)
Definition is_collective (c : caffe_call) : bool :=
  match c with
  | call_NCCL _ | call_bcast => true
  | _ => false
  end.

(** The solver steps of a run of [train_model]: the iteration counter
    moves only in [solver.step(1)], by one. *)
Definition steps_taken (max_iters : Z) (s : session) : nat :=
  Z.to_nat
    (solver_iter (final_state (train_model cfg caffe max_iters s)) -
     solver_iter s).

(** Modelled from the spec: the collective group, which is Caffe's NCCL
    binding and not part of this repository's sources ("all ranks block
    until every rank has joined and the broadcast completes", "a rank
    blocks until the whole group has contributed its local gradient", "a
    stalled or crashed rank during gradient synchronization or broadcast
    hangs every other rank indefinitely").  The sync points a worker
    enters when none of them blocks: the creation of the NCCL handle and
    the broadcast, when [__init__] gets that far, then one gradient
    synchronization for every solver step it takes. *)
Definition sync_points (args : spawn_args) : nat :=
  match worker_init args with
  | Ok sw p =>
      (length (List.filter is_collective (caffe_calls p)) +
       steps_taken (a_max_iters args)
         (set_stderr (p_stderr p) (set_disk (p_disk p) sw)))%nat
  | Raise _ p | Diverge p =>
      length (List.filter is_collective (caffe_calls p))
  end.

(** Modelled from the spec: a worker that enters more sync points than
    one of its peers is left waiting in the first one which that peer,
    having ended, does not enter. *)
Definition waits_forever (group : list spawn_args) (args : spawn_args)
    : bool :=
  existsb (fun peer => (sync_points peer <? sync_points args)%nat) group.

(** The values a child of the group has put on the queue: [queue.put] is
    the last statement of [train_net], so a child that waits in a
    collective has put nothing. *)
Definition child_puts (group : list spawn_args) (args : spawn_args)
    : list (list string) :=
  if waits_forever group args then queue_puts child0
  else queue_puts (final_state (run_alone args)).

Definition child_returns (o : outcome process unit) : bool :=
  match o with
  | Diverge _ => false
  | _ => true
  end.

(** Whether a child of the group ever exits: it is not left waiting in
    a collective, [train_net] ends (by returning or raising), and what
    it has put on the queue can be flushed. *)
Definition child_exits (group : list spawn_args) (args : spawn_args)
    : bool :=
  negb (waits_forever group args) && child_returns (run_alone args) &&
  forallb pipe_fits (child_puts group args).

(** [for rank in range(len(gpus))]: build, start and collect the
    processes. *)
Fixpoint start_all (mk : nat -> spawn_args) (ranks : list nat)
    : M parent (list spawn_args) :=
  match ranks with
  | [] => ret []
  | rank :: rest =>
      emit (ev_start (mk rank)) ;;;
      procs <- start_all mk rest ;;
      ret (mk rank :: procs)
  end.

(** [for p in procs: p.join()]; joining a child that never exits never
    returns. *)
Fixpoint join_all (group procs : list spawn_args) : M parent unit :=
  match procs with
  | [] => ret tt
  | p :: rest =>
      emit (ev_join (a_rank p)) ;;;
      if child_exits group p then join_all group rest
      else (fun s => Diverge s)
  end.

(** [mp_queue.get()] once every child has exited: the first value on the
    queue, and a blocked parent when the queue is empty. *)
Definition queue_get (procs : list spawn_args) : M parent (list string) :=
  emit ev_queue_get ;;;
  match concat (map (child_puts procs) procs) with
  | v :: _ => ret v
  | [] => fun s => Diverge s
  end.

Definition train_net_multi_gpus (solver_prototxt : string)
    (roidb : list roidb_entry) (output_dir : string) (gpus : list Z)
    (pretrained_model : option string) (max_iters : Z)
    : M parent (list string) :=
  emit (ev_filter_roidb roidb) ;;;
  roidb <- with_stdout (filter_roidb cfg roidb) ;;
  emit ev_new_uid ;;;
  let nccl_uid := new_uid in
  py_print "Solving..." ;;;
  stats <- (if TRAIN_BBOX_REG cfg then
              py_print "Computing bounding-box regression targets..." ;;;
              emit (ev_add_bbox_regression_targets roidb) ;;;
              let r := add_bbox_regression_targets roidb in
              py_print "done" ;;;
              ret (fst r, Some (fst (snd r)), Some (snd (snd r)))
            else ret (roidb, None, None)) ;;
  let '(roidb, bbox_means, bbox_stds) := stats in
  procs <- start_all
             (fun rank =>
                {| a_solver_prototxt := solver_prototxt;
                   a_roidb := roidb;
                   a_output_dir := output_dir;
                   a_nccl_uid := nccl_uid;
                   a_gpus := gpus;
                   a_rank := rank;
                   a_bbox_means := bbox_means;
                   a_bbox_stds := bbox_stds;
                   a_pretrained_model := pretrained_model;
                   a_max_iters := max_iters |})
             (seq 0 (length gpus)) ;;
  join_all procs procs ;;;
  py_print "done solving" ;;;
  queue_get procs.
End Orchestrator.

(** ** Specification-side definitions *)

Section Specification.
Context `{Numeric} (cfg : Cfg).

(** The un-normalized regression head: what the rescaling of [snapshot]
    computes from the live group [orig], when numpy accepts the shapes. *)
Definition rescaled_layer (orig : layer) (stds means : list stat_t)
    : option layer :=
  scaled ← scale_weight (weight orig) stds;
  w ← assign (map cast_sb) (weight orig) scaled;
  prod ← broadcast mul_bs (bias orig) stds;
  shifted ← broadcast add_ss prod means;
  b ← assign cast_sb (bias orig) shifted;
  Some {| weight := w; bias := b |}.

(** The parameter set that [snapshot] hands to [net.save]. *)
Definition persisted_params (s : session) : option (gmap string layer) :=
  if scale_bbox_params cfg s then
    orig ← net_params s !! "bbox_pred";
    stds ← bbox_stds s;
    means ← bbox_means s;
    r ← rescaled_layer orig stds means;
    Some (<["bbox_pred" := r]> (net_params s))
  else Some (net_params s).

(** The checkpoint path of the session at iteration [i]. *)
Definition checkpoint_path (s : session) (i : Z) : string :=
  snapshot_filename cfg (set_iter i s).

(** The iterations at which a run from iteration [i0] to [max_iters]
    snapshots: every multiple of the interval reached in the loop, then
    the final iteration unless it is one of them. *)
Definition loop_snapshots (i0 max_iters : Z) : list Z :=
  List.filter (fun i => i mod TRAIN_SNAPSHOT_ITERS cfg =? 0)
    (seqZ (i0 + 1) (max_iters - i0)).

Definition snapshot_iters (i0 max_iters : Z) : list Z :=
  let final := Z.max i0 max_iters in
  (loop_snapshots i0 max_iters ++
   (if bool_decide (final ∈ loop_snapshots i0 max_iters) then []
    else [final]))%list.

(** The shape of the regression head: rows of the weight, length of the
    bias. *)
Definition bbox_dims (ps : gmap string layer) : option (nat * nat) :=
  (fun l => (length (weight l), length (bias l))) <$> ps !! "bbox_pred".

(** The attributes of a session that no method assigns. *)
Definition same_config (s s' : session) : Prop :=
  output_dir s' = output_dir s /\ rank s' = rank s /\
  bbox_means s' = bbox_means s /\ bbox_stds s' = bbox_stds s /\
  solver_param s' = solver_param s /\ fs_writable s' = fs_writable s.
End Specification.

(** The state after one pass of the loop body that takes no snapshot: the
    solver has stepped and the diagnostic line, when due, is on stderr. *)
Definition after_step `{Numeric} (caffe : Caffe) (s : session) : session :=
  let s1 := set_iter (solver_iter s + 1)
              (set_params (sgd_update caffe (solver_iter s) (net_params s))
                 s) in
  if solver_iter s1 mod (10 * display (solver_param s1)) =? 0
  then set_stderr (stderr s1 ++ [(rank s1, solver_iter s1)])%list s1
  else s1.

(** The live parameters after stepping the solver from its current
    iteration up to [max_iters], one iteration at a time. *)
Definition params_after `{Numeric} (caffe : Caffe) (s : session)
    (max_iters : Z) : gmap string layer :=
  foldl (fun ps i => sgd_update caffe i ps) (net_params s)
    (seqZ (solver_iter s) (max_iters - solver_iter s)).

(** A session on which every snapshot succeeds: root rank, a display
    interval, a writable file system, and a regression head whose shape
    numpy can rescale. *)
Definition clean `{Numeric} (cfg : Cfg) (s : session) : Prop :=
  rank s = 0 /\ display (solver_param s) <> 0 /\
  (forall p, fs_writable s p = true) /\
  is_Some (persisted_params cfg s).

(** A computation that returns or raises from every state. *)
Definition no_diverge {St A} (m : M St A) : Prop :=
  forall s s', m s <> Diverge s'.

(** The session that [SolverWrapper.__init__] builds in process [p] when
    its assertions pass. *)
Definition initial_session `{Numeric} (cfg : Cfg) (caffe : Caffe)
    (solver_prototxt output_dir : string) (rank : Z)
    (bbox_means bbox_stds : option (list stat_t))
    (pretrained_model : option string) (p : process) : session :=
  {| output_dir := output_dir; rank := rank;
     bbox_means := if TRAIN_BBOX_REG cfg then bbox_means else None;
     bbox_stds := if TRAIN_BBOX_REG cfg then bbox_stds else None;
     solver_iter := 0;
     net_params :=
       nccl_bcast caffe rank
         match pretrained_model with
         | Some m => copy_from caffe m (init_net caffe solver_prototxt)
         | None => init_net caffe solver_prototxt
         end;
     solver_param := read_solver_param caffe solver_prototxt;
     disk := p_disk p; fs_writable := p_writable p;
     stderr := p_stderr p |}.

(** A computation that leaves the observation [f] of the state alone,
    whether it returns or raises. *)
Definition preserves {St A X} (f : St -> X) (m : M St A) : Prop :=
  forall s,
    match m s with
    | Ok _ s' | Raise _ s' | Diverge s' => f s' = f s
    end.

(** What the parent hands to its children, given the filtered roidb, and
    the events of a complete run. *)
Section OrchestratorSpec.
Context `{Numeric} (cfg : Cfg).
Variable add_bbox_regression_targets :
  list roidb_entry -> list roidb_entry * (list stat_t * list stat_t).
Variable new_uid : Z.

Definition handed_roidb (roidb_f : list roidb_entry) : list roidb_entry :=
  if TRAIN_BBOX_REG cfg then fst (add_bbox_regression_targets roidb_f)
  else roidb_f.

Definition handed_means (roidb_f : list roidb_entry)
    : option (list stat_t) :=
  if TRAIN_BBOX_REG cfg
  then Some (fst (snd (add_bbox_regression_targets roidb_f)))
  else None.

Definition handed_stds (roidb_f : list roidb_entry)
    : option (list stat_t) :=
  if TRAIN_BBOX_REG cfg
  then Some (snd (snd (add_bbox_regression_targets roidb_f)))
  else None.

Definition worker_args (solver_prototxt : string)
    (roidb_f : list roidb_entry) (output_dir : string) (gpus : list Z)
    (pretrained_model : option string) (max_iters : Z) (rank : nat)
    : spawn_args :=
  {| a_solver_prototxt := solver_prototxt;
     a_roidb := handed_roidb roidb_f;
     a_output_dir := output_dir;
     a_nccl_uid := new_uid;
     a_gpus := gpus;
     a_rank := rank;
     a_bbox_means := handed_means roidb_f;
     a_bbox_stds := handed_stds roidb_f;
     a_pretrained_model := pretrained_model;
     a_max_iters := max_iters |}.

(** The events of the parent up to the last start of a child. *)
Definition fan_out (roidb roidb_f : list roidb_entry)
    (mk : nat -> spawn_args) (n : nat) : list event :=
  ([ev_filter_roidb roidb; ev_new_uid] ++
   (if TRAIN_BBOX_REG cfg
    then [ev_add_bbox_regression_targets roidb_f] else []) ++
   map (fun rank => ev_start (mk rank)) (seq 0 n))%list.

(** The joins the parent enters: one child after the other, up to the
    first one that never exits. *)
Fixpoint join_trace (exits : spawn_args -> bool)
    (procs : list spawn_args) : list event :=
  match procs with
  | [] => []
  | p :: rest =>
      ev_join (a_rank p) :: if exits p then join_trace exits rest else []
  end.

(** The events of a run in which filtering returns: the fan-out, the
    joins, and the read of the queue if every child has exited. *)
Definition orchestration (roidb roidb_f : list roidb_entry)
    (mk : nat -> spawn_args) (n : nat) (exits : spawn_args -> bool)
    : list event :=
  (fan_out roidb roidb_f mk n ++
   join_trace exits (map mk (seq 0 n)) ++
   (if forallb exits (map mk (seq 0 n)) then [ev_queue_get] else []))%list.
End OrchestratorSpec.

(** Decimal notation, as the specification reads a file name. *)
Definition digit_value (c : ascii) : option Z :=
  let n := Z.of_nat (nat_of_ascii c) in
  if (48 <=? n) && (n <=? 57) then Some (n - 48) else None.

Fixpoint decimal_value_acc (acc : Z) (s : string) : option Z :=
  match s with
  | EmptyString => Some acc
  | String c rest =>
      d ← digit_value c; decimal_value_acc (10 * acc + d) rest
  end.

(** [N] is [n] in plain decimal: digits only, at least one, of value [n],
    and no leading zero. *)
Definition plain_decimal (n : Z) (N : string) : Prop :=
  N <> "" /\ decimal_value_acc 0 N = Some n /\
  (forall rest, N = String "0" rest -> rest = "").

(** How often the parent computes the normalization statistics. *)
Definition stats_computations `{Numeric} (tr : list event) : nat :=
  length (List.filter
            (fun e => match e with
                      | ev_add_bbox_regression_targets _ => true
                      | _ => false
                      end) tr).

(** ** Concrete instances, in exact arithmetic *)

Module Examples.
#[local] Existing Instance exact_numeric.

(** A regression head with two output dimensions and two inputs. *)
Definition head : layer := {| weight := [[1; 2]; [3; 4]]; bias := [5; 6] |}.

(** The same head un-normalized with stds [2; 3] and means [10; 20]. *)
Definition head_unnormalized : layer :=
  {| weight := [[2; 4]; [9; 12]]; bias := [20; 38] |}.

Definition fc : layer := {| weight := [[7; 8]]; bias := [9] |}.

Definition net : gmap string layer :=
  <["bbox_pred" := head]> (<["fc6" := fc]> ∅).

Definition cfg : Cfg := {|
  TRAIN_BBOX_REG := true;
  TRAIN_BBOX_NORMALIZE_TARGETS := true;
  TRAIN_BBOX_NORMALIZE_TARGETS_PRECOMPUTED := true;
  TRAIN_HAS_RPN := true;
  TRAIN_SNAPSHOT_INFIX := "";
  TRAIN_SNAPSHOT_ITERS := 4;
  TRAIN_IMS_PER_BATCH := 1;
  TRAIN_REAL_BATCH_SIZE := 3;
  TRAIN_FG_THRESH := 1 # 2;
  TRAIN_BG_THRESH_HI := 1 # 2;
  TRAIN_BG_THRESH_LO := 1 # 10;
  TRAIN_MIN_IM_RATIO := 1 # 10;
  RNG_SEED := 3
|}.

(** The same configuration with the run tag [stage2]. *)
Definition cfg_tagged : Cfg := {|
  TRAIN_BBOX_REG := true;
  TRAIN_BBOX_NORMALIZE_TARGETS := true;
  TRAIN_BBOX_NORMALIZE_TARGETS_PRECOMPUTED := true;
  TRAIN_HAS_RPN := true;
  TRAIN_SNAPSHOT_INFIX := "stage2";
  TRAIN_SNAPSHOT_ITERS := 4;
  TRAIN_IMS_PER_BATCH := 1;
  TRAIN_REAL_BATCH_SIZE := 3;
  TRAIN_FG_THRESH := 1 # 2;
  TRAIN_BG_THRESH_HI := 1 # 2;
  TRAIN_BG_THRESH_LO := 1 # 10;
  TRAIN_MIN_IM_RATIO := 1 # 10;
  RNG_SEED := 3
|}.

(** The same configuration with bounding-box regression switched off. *)
Definition cfg_noreg : Cfg := {|
  TRAIN_BBOX_REG := false;
  TRAIN_BBOX_NORMALIZE_TARGETS := true;
  TRAIN_BBOX_NORMALIZE_TARGETS_PRECOMPUTED := true;
  TRAIN_HAS_RPN := true;
  TRAIN_SNAPSHOT_INFIX := "";
  TRAIN_SNAPSHOT_ITERS := 4;
  TRAIN_IMS_PER_BATCH := 1;
  TRAIN_REAL_BATCH_SIZE := 3;
  TRAIN_FG_THRESH := 1 # 2;
  TRAIN_BG_THRESH_HI := 1 # 2;
  TRAIN_BG_THRESH_LO := 1 # 10;
  TRAIN_MIN_IM_RATIO := 1 # 10;
  RNG_SEED := 3
|}.

Definition solver_settings : SolverParameter :=
  {| snapshot_prefix := "model"; display := 20; iter_size := 1;
     layer_wise_reduce := true |}.

(** Every step adds the iteration number to each bias of every group. *)
Definition caffe : Caffe := {|
  sgd_update := fun i ps =>
    (fun l => {| weight := weight l; bias := map (Z.add i) (bias l) |})
      <$> ps;
  init_net := fun _ => net;
  read_solver_param := fun _ => solver_settings;
  copy_from := fun _ ps => ps;
  nccl_bcast := fun _ ps => ps
|}.

Definition fresh (rk : Z) (writable : bool) : session := {|
  output_dir := "out"; rank := rk;
  bbox_means := Some [10; 20]; bbox_stds := Some [2; 3];
  solver_iter := 0; net_params := net;
  solver_param := solver_settings;
  disk := ∅; fs_writable := fun _ => writable; stderr := []
|}.

Definition at_iter (i : Z) : session := set_iter i (fresh 0 true).

(** Caffe's default display interval, 0. *)
Definition quiet_settings : SolverParameter :=
  {| snapshot_prefix := "model"; display := 0; iter_size := 1;
     layer_wise_reduce := true |}.

Definition caffe_quiet : Caffe := {|
  sgd_update := fun _ ps => ps;
  init_net := fun _ => net;
  read_solver_param := fun _ => quiet_settings;
  copy_from := fun _ ps => ps;
  nccl_bcast := fun _ ps => ps
|}.

Definition quiet (rk : Z) : session := {|
  output_dir := "out"; rank := rk;
  bbox_means := Some [10; 20]; bbox_stds := Some [2; 3];
  solver_iter := 0; net_params := net;
  solver_param := quiet_settings;
  disk := ∅; fs_writable := fun _ => true; stderr := []
|}.

Definition child_image : process := {|
  caffe_solver_count := 1; caffe_calls := []; queue_puts := [];
  p_disk := ∅; p_writable := fun _ => true; p_stderr := []
|}.

Definition entry (name : string) (ov : list Q) (w h : Z) : roidb_entry :=
  {| image := name; max_overlaps := ov; width := w; height := h |}.

(** Five entries: two usable, two without a usable region, one too
    elongated. *)
Definition roidb : list roidb_entry :=
  [ entry "a" [7 # 10; 0 # 1] 640 480;
    entry "b" [3 # 10] 500 500;
    entry "c" [0 # 1; 1 # 100] 640 480;
    entry "d" [] 640 480;
    entry "e" [9 # 10] 2000 100 ].

Definition targets (r : list roidb_entry)
    : list roidb_entry * (list Z * list Z) :=
  (r, ([10; 20], [2; 3])).

Definition parent0 : parent := {| stdout := []; events := [] |}.
End Examples.

(** ** Further specification-side definitions *)

(** The state right after [solver.step(1)], before the diagnostic line. *)
Definition stepped `{Numeric} (caffe : Caffe) (s : session) : session :=
  set_iter (solver_iter s + 1)
    (set_params (sgd_update caffe (solver_iter s) (net_params s)) s).

(** The iterations at which a run from [i0] to [max_iters] writes its
    diagnostic line, for a display interval [d]. *)
Definition diagnostic_iters (d i0 max_iters : Z) : list Z :=
  List.filter (fun i => i mod (10 * d) =? 0)
    (seqZ (i0 + 1) (max_iters - i0)).

(** The regression head with its weight un-normalized and its bias still
    as trained. *)
Definition weight_rescaled `{Numeric} (l : layer) (stds : list stat_t)
    : layer :=
  {| weight :=
       zip_with (fun row sd => map (fun x => cast_sb (mul_bs x sd)) row)
         (weight l) stds;
     bias := bias l |}.

(** What [SolverWrapper.__init__] asserts before the batch-size check. *)
Definition rpn_assertion_fails `{Numeric} (cfg : Cfg) : bool :=
  TRAIN_HAS_RPN cfg && TRAIN_BBOX_REG cfg &&
  TRAIN_BBOX_NORMALIZE_TARGETS cfg &&
  negb (TRAIN_BBOX_NORMALIZE_TARGETS_PRECOMPUTED cfg).

Module MoreExamples.
#[local] Existing Instance exact_numeric.

(** A head whose bias has three entries for two rows of weights. *)
Definition lopsided : layer :=
  {| weight := [[1; 2]; [3; 4]]; bias := [5; 6; 7] |}.

Definition lopsided_session : session := {|
  output_dir := "out"; rank := 0;
  bbox_means := Some [10; 20]; bbox_stds := Some [2; 3];
  solver_iter := 0; net_params := <["bbox_pred" := lopsided]> ∅;
  solver_param := Examples.solver_settings;
  disk := ∅; fs_writable := fun _ => true; stderr := []
|}.

(** A session that was constructed without statistics. *)
Definition no_stats : session := {|
  output_dir := "out"; rank := 0;
  bbox_means := None; bbox_stds := None;
  solver_iter := 0; net_params := Examples.net;
  solver_param := Examples.solver_settings;
  disk := ∅; fs_writable := fun _ => true; stderr := []
|}.

(** A net without a 'bbox_pred' group. *)
Definition headless : session := {|
  output_dir := "out"; rank := 0;
  bbox_means := Some [10; 20]; bbox_stds := Some [2; 3];
  solver_iter := 0; net_params := <["fc6" := Examples.fc]> ∅;
  solver_param := Examples.solver_settings;
  disk := ∅; fs_writable := fun _ => true; stderr := []
|}.

(** A snapshot interval of 0. *)
Definition cfg_no_interval : Cfg := {|
  TRAIN_BBOX_REG := true;
  TRAIN_BBOX_NORMALIZE_TARGETS := true;
  TRAIN_BBOX_NORMALIZE_TARGETS_PRECOMPUTED := true;
  TRAIN_HAS_RPN := true;
  TRAIN_SNAPSHOT_INFIX := "";
  TRAIN_SNAPSHOT_ITERS := 0;
  TRAIN_IMS_PER_BATCH := 1;
  TRAIN_REAL_BATCH_SIZE := 3;
  TRAIN_FG_THRESH := 1 # 2;
  TRAIN_BG_THRESH_HI := 1 # 2;
  TRAIN_BG_THRESH_LO := 1 # 10;
  TRAIN_MIN_IM_RATIO := 1 # 10;
  RNG_SEED := 3
|}.

(** RPN training with target normalization that is not precomputed. *)
Definition cfg_rpn_unprepared : Cfg := {|
  TRAIN_BBOX_REG := true;
  TRAIN_BBOX_NORMALIZE_TARGETS := true;
  TRAIN_BBOX_NORMALIZE_TARGETS_PRECOMPUTED := false;
  TRAIN_HAS_RPN := true;
  TRAIN_SNAPSHOT_INFIX := "";
  TRAIN_SNAPSHOT_ITERS := 4;
  TRAIN_IMS_PER_BATCH := 1;
  TRAIN_REAL_BATCH_SIZE := 3;
  TRAIN_FG_THRESH := 1 # 2;
  TRAIN_BG_THRESH_HI := 1 # 2;
  TRAIN_BG_THRESH_LO := 1 # 10;
  TRAIN_MIN_IM_RATIO := 1 # 10;
  RNG_SEED := 3
|}.

(** Solver settings without layer-wise reduce. *)
Definition caffe_no_reduce : Caffe := {|
  sgd_update := fun _ ps => ps;
  init_net := fun _ => Examples.net;
  read_solver_param := fun _ =>
    {| snapshot_prefix := "model"; display := 20; iter_size := 1;
       layer_wise_reduce := false |};
  copy_from := fun _ ps => ps;
  nccl_bcast := fun _ ps => ps
|}.

(** Solver settings with an absolute snapshot prefix. *)
Definition absolute_prefix : session := {|
  output_dir := "out"; rank := 0;
  bbox_means := Some [10; 20]; bbox_stds := Some [2; 3];
  solver_iter := 7; net_params := Examples.net;
  solver_param :=
    {| snapshot_prefix := "/data/model"; display := 20; iter_size := 1;
       layer_wise_reduce := true |};
  disk := ∅; fs_writable := fun _ => true; stderr := []
|}.

(** A process in which [caffe.set_solver_count(3)] has run. *)
Definition three_solvers : process := {|
  caffe_solver_count := 3; caffe_calls := []; queue_puts := [];
  p_disk := ∅; p_writable := fun _ => true; p_stderr := []
|}.

(** A pipe whose buffer holds [capacity] bytes, counting the characters of
    the paths. *)
Definition pipe_of (capacity : Z) (v : list string) : bool :=
  Z.of_nat (list_sum (map String.length v)) <=? capacity.

(** Solver settings that write a diagnostic line every ten iterations. *)
Definition verbose_settings : SolverParameter :=
  {| snapshot_prefix := "model"; display := 1; iter_size := 1;
     layer_wise_reduce := true |}.

Definition caffe_verbose : Caffe := {|
  sgd_update := sgd_update Examples.caffe;
  init_net := fun _ => Examples.net;
  read_solver_param := fun _ => verbose_settings;
  copy_from := fun _ ps => ps;
  nccl_bcast := fun _ ps => ps
|}.

Definition verbose : session := {|
  output_dir := "out"; rank := 0;
  bbox_means := Some [10; 20]; bbox_stds := Some [2; 3];
  solver_iter := 0; net_params := Examples.net;
  solver_param := verbose_settings;
  disk := ∅; fs_writable := fun _ => true; stderr := []
|}.
End MoreExamples.

(** * Properties *)

(** ** Facts about the monad, strings and paths *)

Lemma bind_ok_inv {St A B} (m : M St A) (k : A -> M St B) s b s2 :
  bind m k s = Ok b s2 ->
  exists a s1, m s = Ok a s1 /\ k a s1 = Ok b s2.
Proof. unfold bind. destruct (m s); try discriminate. eauto. Qed.

Lemma format_d_inj a b : format_d a = format_d b -> a = b.
Proof.
  unfold format_d. intros E.
  assert (Hnn : forall n, Z.to_int n <> Decimal.Pos Decimal.Nil /\
                          Z.to_int n <> Decimal.Neg Decimal.Nil).
  { intros [|p|p]; cbn [Z.to_int]; split; try done;
      intros [= Hp]; by apply (Unsigned.to_uint_nonnil p). }
  assert (Hi : Some (Z.to_int a) = Some (Z.to_int b)).
  { rewrite <- (NilZero.isi (Z.to_int a)) by apply Hnn.
    rewrite <- (NilZero.isi (Z.to_int b)) by apply Hnn.
    by rewrite E. }
  injection Hi as Hi. by rewrite <- (of_to a), <- (of_to b), Hi.
Qed.

Lemma string_length_app (a b : string) :
  String.length (a +:+ b) = (String.length a + String.length b)%nat.
Proof. induction a as [|c a IH]; [done|]. simpl. by f_equal. Qed.

Lemma string_app_inv_tail (a b t : string) : a +:+ t = b +:+ t -> a = b.
Proof.
  revert b. induction a as [|c a IH]; intros [|d b] E.
  - done.
  - apply (f_equal String.length) in E.
    change (String.length t = S (String.length (b +:+ t))) in E.
    rewrite string_length_app in E. lia.
  - apply (f_equal String.length) in E.
    change (S (String.length (a +:+ t)) = String.length t) in E.
    rewrite string_length_app in E. lia.
  - simpl in E. injection E as -> E. f_equal. by apply IH.
Qed.

Lemma startswith_slash_app (a b : string) :
  startswith_slash (a +:+ b) =
  match a with
  | EmptyString => startswith_slash b
  | _ => startswith_slash a
  end.
Proof. by destruct a. Qed.

Lemma os_path_join_inj a b1 b2 :
  startswith_slash b1 = startswith_slash b2 ->
  os_path_join a b1 = os_path_join a b2 -> b1 = b2.
Proof.
  unfold os_path_join. intros ->.
  destruct (startswith_slash b2); [done|].
  destruct (_ || _); intros E.
  - by apply String.app_inj in E.
  - by do 2 apply String.app_inj in E.
Qed.

Ltac sess :=
  cbn [output_dir rank bbox_means bbox_stds solver_iter net_params
       solver_param disk fs_writable stderr
       set_iter set_params set_disk set_stderr ret fst snd].

(** ** The snapshot transform *)

Section SnapshotFacts.
Context `{Numeric} (cfg : Cfg).

Lemma set_params_id (s : session) : set_params (net_params s) s = s.
Proof. by destruct s. Qed.

Lemma set_weight_some name w s l :
  net_params s !! name = Some l ->
  set_weight name w s =
    Ok tt (set_params (<[name := {| weight := w; bias := bias l |}]>
                         (net_params s)) s).
Proof. intros E. unfold set_weight, modify. by rewrite E. Qed.

Lemma set_bias_some name b s l :
  net_params s !! name = Some l ->
  set_bias name b s =
    Ok tt (set_params (<[name := {| weight := weight l; bias := b |}]>
                         (net_params s)) s).
Proof. intros E. unfold set_bias, modify. by rewrite E. Qed.

Lemma scale_bbox_params_has_key s :
  scale_bbox_params cfg s = true ->
  is_Some (net_params s !! "bbox_pred").
Proof.
  unfold scale_bbox_params. rewrite !andb_true_iff.
  intros [_ Hk]. by apply bool_decide_eq_true in Hk.
Qed.

(** On rank 0, with shapes that numpy accepts, [snapshot] either writes
    the persisted view and restores the live parameters, or fails in
    [net.save] with the persisted view still live. *)
Lemma snapshot_run s saved :
  rank s = 0 ->
  persisted_params cfg s = Some saved ->
  snapshot cfg s =
    if fs_writable s (snapshot_filename cfg s)
    then Ok (snapshot_filename cfg s)
            (set_disk (<[snapshot_filename cfg s := saved]> (disk s)) s)
    else Raise (IOError (snapshot_filename cfg s)) (set_params saved s).
Proof.
  intros Hr Hp. unfold snapshot, bind, get, py_assert.
  rewrite Hr. cbn [Z.eqb ret]. unfold persisted_params in Hp.
  destruct (scale_bbox_params cfg s) eqn:Hsc.
  - destruct (net_params s !! "bbox_pred") as [orig|] eqn:Ho;
      [|discriminate].
    destruct (bbox_stds s) as [stds|]; [|discriminate].
    destruct (bbox_means s) as [means|]; [|discriminate].
    cbn [mbind option_bind] in Hp. unfold rescaled_layer in Hp.
    unfold ndarray_attr, numpy. cbn [ret].
    destruct (scale_weight (weight orig) stds) as [sc|];
      [|discriminate]. cbn [mbind option_bind ret] in Hp |- *.
    destruct (assign (map cast_sb) (weight orig) sc) as [w|];
      [|discriminate]. cbn [mbind option_bind ret] in Hp |- *.
    rewrite (set_weight_some _ _ _ _ Ho).
    destruct (broadcast mul_bs (bias orig) stds) as [pr|];
      [|discriminate]. cbn [mbind option_bind ret] in Hp |- *.
    destruct (broadcast add_ss pr means) as [sh|];
      [|discriminate]. cbn [mbind option_bind ret] in Hp |- *.
    destruct (assign cast_sb (bias orig) sh) as [b|];
      [|discriminate]. cbn [mbind option_bind ret] in Hp |- *.
    injection Hp as <-.
    erewrite set_bias_some by (sess; apply lookup_insert_eq).
    unfold net_save. sess. rewrite insert_insert_eq.
    destruct (fs_writable s (snapshot_filename cfg s)); [|done].
    erewrite set_weight_some by (sess; apply lookup_insert_eq).
    erewrite set_bias_some by (sess; apply lookup_insert_eq).
    sess. f_equal. unfold set_disk, set_params. sess.
    rewrite !insert_insert_eq. f_equal.
    rewrite insert_id; [done|]. rewrite Ho. by destruct orig.
  - injection Hp as <-. cbn [ret]. unfold net_save.
    destruct (fs_writable s (snapshot_filename cfg s)); [done|].
    by rewrite set_params_id.
Qed.

(** A snapshot that returns ran on rank 0 with shapes numpy accepts. *)
Lemma snapshot_ok_inv s p s' :
  snapshot cfg s = Ok p s' ->
  rank s = 0 /\ exists saved, persisted_params cfg s = Some saved.
Proof.
  unfold snapshot, bind, get, py_assert.
  destruct (rank s =? 0) eqn:Hr; [|discriminate].
  apply Z.eqb_eq in Hr. cbn [ret]. intros Hs. split; [done|].
  unfold persisted_params.
  destruct (scale_bbox_params cfg s) eqn:Hsc; [|eauto].
  destruct (net_params s !! "bbox_pred") as [orig|] eqn:Ho.
  2:{ apply scale_bbox_params_has_key in Hsc. rewrite Ho in Hsc.
      by destruct Hsc. }
  unfold ndarray_attr, numpy, rescaled_layer in *.
  destruct (bbox_stds s) as [stds|]; [|discriminate].
  cbn [mbind option_bind ret] in Hs |- *.
  destruct (scale_weight (weight orig) stds) as [sc|]; [|discriminate].
  cbn [mbind option_bind ret] in Hs |- *.
  destruct (assign (map cast_sb) (weight orig) sc) as [w|];
    [|discriminate].
  cbn [mbind option_bind ret] in Hs |- *.
  rewrite (set_weight_some _ _ _ _ Ho) in Hs.
  destruct (broadcast mul_bs (bias orig) stds) as [pr|]; [|discriminate].
  cbn [mbind option_bind ret] in Hs |- *.
  destruct (bbox_means s) as [means|]; [|discriminate].
  cbn [mbind option_bind ret] in Hs |- *.
  destruct (broadcast add_ss pr means) as [sh|]; [|discriminate].
  cbn [mbind option_bind ret] in Hs |- *.
  destruct (assign cast_sb (bias orig) sh) as [b|]; [|discriminate].
  cbn [mbind option_bind ret] in Hs |- *. eauto.
Qed.

(** The two facts combined: what a returning snapshot returns and
    leaves. *)
Lemma snapshot_ok_spec s p s' :
  snapshot cfg s = Ok p s' ->
  rank s = 0 /\ p = snapshot_filename cfg s /\ fs_writable s p = true /\
  exists saved,
    persisted_params cfg s = Some saved /\
    s' = set_disk (<[p := saved]> (disk s)) s.
Proof.
  intros Hs. destruct (snapshot_ok_inv _ _ _ Hs) as [Hr [saved Hp]].
  rewrite (snapshot_run _ _ Hr Hp) in Hs.
  destruct (fs_writable s (snapshot_filename cfg s)) eqn:Hw;
    [|discriminate].
  injection Hs as <- <-. eauto 10.
Qed.
End SnapshotFacts.

(** ** Decimal notation of [format_d] *)

Ltac eval_digit :=
  match goal with
  | |- context [digit_value ?c] =>
      let v := eval vm_compute in (digit_value c) in
      change (digit_value c) with v; cbn [mbind option_bind option_ret]
  end.

Lemma decimal_value_acc_pos u (acc : positive) :
  decimal_value_acc (Z.pos acc) (NilEmpty.string_of_uint u) =
  Some (Z.pos (Pos.of_uint_acc u acc)).
Proof.
  revert acc. induction u; intros acc;
    cbn [decimal_value_acc NilEmpty.string_of_uint Pos.of_uint_acc];
    try done; eval_digit; rewrite <- IHu; f_equal; lia.
Qed.

Lemma decimal_value_acc_zero u :
  decimal_value_acc 0 (NilEmpty.string_of_uint u) =
  Some (Z.of_N (Pos.of_uint u)).
Proof.
  induction u;
    cbn [decimal_value_acc NilEmpty.string_of_uint Pos.of_uint Z.of_N];
    try done; eval_digit; try done;
    rewrite <- decimal_value_acc_pos; f_equal.
Qed.

Lemma unorm_fixed_no_leading_zero u :
  Decimal.unorm u = u ->
  forall rest, u = Decimal.D0 rest -> rest = Decimal.Nil.
Proof.
  intros Hn rest ->. rewrite unorm_D0 in Hn.
  destruct (Decimal.uint_eq_dec rest Decimal.Nil) as [|Hne]; [done|].
  pose proof (nb_digits_unorm rest Hne) as Hle.
  rewrite Hn in Hle. cbn in Hle. lia.
Qed.

Lemma string_of_uint_inj_nil u : NilEmpty.string_of_uint u = "" -> u = Decimal.Nil.
Proof. by destruct u. Qed.

Lemma format_d_plain n : 0 <= n -> plain_decimal n (format_d n).
Proof.
  intros Hn. destruct n as [|p|p]; [|clear Hn|lia].
  { repeat split; [done|]. intros rest [= <-]. done. }
  unfold format_d, plain_decimal. cbn [Z.to_int NilZero.string_of_int].
  pose proof (Unsigned.to_uint_nonnil p) as Hnil.
  assert (Hs : NilZero.string_of_uint (Pos.to_uint p) =
               NilEmpty.string_of_uint (Pos.to_uint p)).
  { unfold NilZero.string_of_uint. by destruct (Pos.to_uint p). }
  rewrite Hs. split; [|split].
  - intros E. by apply string_of_uint_inj_nil in E.
  - rewrite decimal_value_acc_zero, Unsigned.of_to. done.
  - intros rest E.
    assert (Hfix : Decimal.unorm (Pos.to_uint p) = Pos.to_uint p).
    { rewrite <- (Unsigned.to_of (Pos.to_uint p)), Unsigned.of_to. done. }
    destruct (Pos.to_uint p) as [|u|u|u|u|u|u|u|u|u|u] eqn:Eu;
      try discriminate E.
    injection E as <-.
    by rewrite (unorm_fixed_no_leading_zero _ Hfix u eq_refl).
Qed.

(** ** Broadcasting with matching shapes *)

Section BroadcastFacts.
Context {A B C : Type}.

Lemma broadcast_same_length (f : A -> B -> C) xs ys :
  length xs = length ys -> broadcast f xs ys = Some (zip_with f xs ys).
Proof.
  intros E. unfold broadcast. by rewrite E, Nat.eqb_refl.
Qed.

Lemma assign_same_length (g : C -> A) old new :
  length new = length old -> assign g old new = Some (map g new).
Proof.
  intros E. unfold assign. by rewrite E, Nat.eqb_refl.
Qed.

Lemma map_zip_with {D} (g : C -> D) (f : A -> B -> C) xs ys :
  map g (zip_with f xs ys) = zip_with (fun x y => g (f x y)) xs ys.
Proof.
  revert ys. induction xs as [|x xs IH]; intros [|y ys]; cbn; try done.
  by rewrite IH.
Qed.
End BroadcastFacts.

(** ** Claims about [snapshot] *)

Section SnapshotClaims.
Context `{Numeric} (cfg : Cfg).

(** C2. Every call of [snapshot] that returns leaves the live parameters
    as they were before the call: the regression head 'bbox_pred' holds
    its pre-call weight and bias again, and so does every other group;
    the iteration counter is untouched. *)
Theorem snapshot_restores_live_params s p s' :
  snapshot cfg s = Ok p s' ->
  net_params s' !! "bbox_pred" = net_params s !! "bbox_pred" /\
  net_params s' = net_params s /\
  solver_iter s' = solver_iter s.
Proof.
  intros Hs.
  destruct (snapshot_ok_spec _ _ _ _ Hs) as (_ & _ & _ & saved & _ & ->).
  done.
Qed.

(** With statistics of the regression head's size, the persisted view
    is the live parameter set with 'bbox_pred' un-normalized row by
    row. *)
Lemma persisted_params_matching s l stds means :
  TRAIN_BBOX_REG cfg = true ->
  TRAIN_BBOX_NORMALIZE_TARGETS cfg = true ->
  net_params s !! "bbox_pred" = Some l ->
  bbox_stds s = Some stds ->
  bbox_means s = Some means ->
  length stds = length (weight l) ->
  length stds = length (bias l) ->
  length means = length (bias l) ->
  persisted_params cfg s =
    Some (<["bbox_pred" :=
             {| weight :=
                  zip_with
                    (fun row sd =>
                       map (fun x => cast_sb (mul_bs x sd)) row)
                    (weight l) stds;
                bias :=
                  zip_with (fun bs m => cast_sb (add_ss bs m))
                    (zip_with mul_bs (bias l) stds) means |}]>
            (net_params s)).
Proof.
  intros Hreg Hnorm Hl Hstds Hmeans Hw Hb Hm.
  unfold persisted_params, scale_bbox_params.
  rewrite Hreg, Hnorm, Hl, Hstds, Hmeans.
  rewrite bool_decide_eq_true_2 by eauto.
  cbn [andb mbind option_bind].
  unfold rescaled_layer, scale_weight.
  rewrite (broadcast_same_length _ (weight l) stds) by done.
  cbn [mbind option_bind].
  rewrite (assign_same_length _ (weight l))
    by (rewrite length_zip_with; lia).
  cbn [mbind option_bind].
  rewrite (broadcast_same_length _ (bias l) stds) by done.
  cbn [mbind option_bind].
  rewrite (broadcast_same_length _ _ means)
    by (rewrite length_zip_with; lia).
  cbn [mbind option_bind].
  rewrite (assign_same_length _ (bias l))
    by (rewrite !length_zip_with; lia).
  cbn [mbind option_bind]. do 3 f_equal.
  - rewrite map_zip_with. apply zip_with_ext; [|done..].
    intros row sd. by rewrite map_map.
  - by rewrite map_zip_with.
Qed.

(** Without the rescaling, the persisted view is the live parameter
    set. *)
Lemma persisted_params_unscaled s :
  scale_bbox_params cfg s = false ->
  persisted_params cfg s = Some (net_params s).
Proof. intros E. unfold persisted_params. by rewrite E. Qed.

(** C3. With bounding-box regression and target normalization enabled, a
    'bbox_pred' group present and statistics of the head's size, the
    file written by [snapshot] holds weight row [i] times [stds[i]] and
    bias [i] times [stds[i]] plus [means[i]] for 'bbox_pred', and the
    live values for every other group. *)
Theorem snapshot_persists_unnormalized s l stds means :
  TRAIN_BBOX_REG cfg = true ->
  TRAIN_BBOX_NORMALIZE_TARGETS cfg = true ->
  net_params s !! "bbox_pred" = Some l ->
  bbox_stds s = Some stds ->
  bbox_means s = Some means ->
  length stds = length (weight l) ->
  length stds = length (bias l) ->
  length means = length (bias l) ->
  rank s = 0 ->
  fs_writable s (snapshot_filename cfg s) = true ->
  exists s' saved,
    snapshot cfg s = Ok (snapshot_filename cfg s) s' /\
    disk s' !! snapshot_filename cfg s = Some saved /\
    saved !! "bbox_pred" =
      Some {| weight :=
                zip_with
                  (fun row sd => map (fun x => cast_sb (mul_bs x sd)) row)
                  (weight l) stds;
              bias :=
                zip_with (fun bs m => cast_sb (add_ss bs m))
                  (zip_with mul_bs (bias l) stds) means |} /\
    forall name, name <> "bbox_pred" ->
      saved !! name = net_params s !! name.
Proof.
  intros Hreg Hnorm Hl Hstds Hmeans Hw Hb Hm Hr Hwr.
  pose proof (persisted_params_matching s l stds means Hreg Hnorm Hl
                Hstds Hmeans Hw Hb Hm) as Hp.
  rewrite (snapshot_run _ _ _ Hr Hp), Hwr.
  eexists _, _. split; [done|]. sess.
  rewrite lookup_insert_eq. split; [done|].
  rewrite lookup_insert_eq. split; [done|].
  intros name Hne. by rewrite lookup_insert_ne.
Qed.

(** C4, as the code has it. [snapshot] restores the live parameters when
    it returns; when [net.save] raises, the exception leaves
    [snapshot] with the un-normalized view still in the live
    parameters. *)
Theorem snapshot_restores_only_on_return s saved :
  rank s = 0 ->
  persisted_params cfg s = Some saved ->
  (fs_writable s (snapshot_filename cfg s) = true ->
   exists s', snapshot cfg s = Ok (snapshot_filename cfg s) s' /\
              net_params s' = net_params s) /\
  (fs_writable s (snapshot_filename cfg s) = false ->
   exists s', snapshot cfg s =
                Raise (IOError (snapshot_filename cfg s)) s' /\
              net_params s' = saved).
Proof.
  intros Hr Hp. rewrite (snapshot_run _ _ _ Hr Hp).
  split; intros ->; eexists; (split; [done|]); done.
Qed.

(** C8. The path returned by [snapshot] is the output directory joined
    with the file name: the name alone when the prefix starts with '/',
    else the directory followed by the name, with a '/' between them
    unless the directory is empty or ends in one.  The file name is the
    prefix, then '_' and the tag exactly when the tag is not empty, then
    '_iter_', the iteration count in plain decimal, and '.caffemodel'. *)
Theorem snapshot_path_form s p s' :
  snapshot cfg s = Ok p s' ->
  0 <= solver_iter s ->
  exists infix N name,
    infix = snapshot_infix cfg /\
    (TRAIN_SNAPSHOT_INFIX cfg = "" -> infix = "") /\
    (TRAIN_SNAPSHOT_INFIX cfg <> "" ->
     infix = "_" +:+ TRAIN_SNAPSHOT_INFIX cfg) /\
    N = format_d (solver_iter s) /\
    plain_decimal (solver_iter s) N /\
    name = snapshot_prefix (solver_param s) +:+ infix +:+ "_iter_" +:+
           N +:+ ".caffemodel" /\
    p = if startswith_slash (snapshot_prefix (solver_param s)) then name
        else if String.eqb (output_dir s) "" ||
                endswith_slash (output_dir s)
             then output_dir s +:+ name
             else output_dir s +:+ "/" +:+ name.
Proof.
  intros Hs Hi.
  destruct (snapshot_ok_spec _ _ _ _ Hs) as (_ & -> & _).
  eexists (snapshot_infix cfg), (format_d (solver_iter s)), _.
  split; [done|].
  assert (Hinfix :
    (TRAIN_SNAPSHOT_INFIX cfg = "" -> snapshot_infix cfg = "") /\
    (TRAIN_SNAPSHOT_INFIX cfg <> "" ->
     snapshot_infix cfg = "_" +:+ TRAIN_SNAPSHOT_INFIX cfg)).
  { unfold snapshot_infix.
    destruct (String.eqb_spec (TRAIN_SNAPSHOT_INFIX cfg) "") as [E|E];
      cbn [negb]; by split. }
  destruct Hinfix as [Hi0 Hi1].
  split; [done|]. split; [done|]. split; [done|].
  split; [by apply format_d_plain|]. split; [reflexivity|].
  unfold snapshot_filename, os_path_join.
  rewrite startswith_slash_app.
  destruct (snapshot_prefix (solver_param s)) as [|c rest]; [|done].
  cbv beta iota. rewrite startswith_slash_app.
  unfold snapshot_infix.
  by destruct (negb (String.eqb (TRAIN_SNAPSHOT_INFIX cfg) "")).
Qed.
End SnapshotClaims.

(** ** Shapes decide whether the rescaling succeeds *)

Section ShapeFacts.
Context {A B C A' B' C' : Type}.

Lemma broadcast_shape (f : A -> B -> C) (f' : A' -> B' -> C')
    xs ys xs' ys' zs :
  length xs = length xs' -> length ys = length ys' ->
  broadcast f xs ys = Some zs ->
  exists zs', broadcast f' xs' ys' = Some zs' /\ length zs' = length zs.
Proof.
  intros Ex Ey. unfold broadcast. rewrite <- Ex, <- Ey.
  destruct (length xs =? length ys)%nat eqn:E.
  - intros [= <-]. eexists; split; [done|].
    rewrite !length_zip_with. lia.
  - destruct xs as [|x [|x2 xs]], xs' as [|x' [|x2' xs']];
      try discriminate Ex.
    + destruct ys as [|y [|y2 ys]], ys' as [|y' [|y2' ys']];
        try discriminate Ey; try discriminate.
      intros [= <-]. eexists; split; [done|]. done.
    + intros [= <-]. eexists; split; [done|].
      rewrite !length_map. lia.
    + destruct ys as [|y [|y2 ys]], ys' as [|y' [|y2' ys']];
        try discriminate Ey; try discriminate.
      intros [= <-]. eexists; split; [done|].
      cbn in Ex |- *. rewrite !length_map. lia.
Qed.

Lemma assign_shape (g : C -> A) (g' : C' -> A') old new old' new' r :
  length old = length old' -> length new = length new' ->
  assign g old new = Some r ->
  exists r', assign g' old' new' = Some r'.
Proof.
  intros Eo En. unfold assign. rewrite <- Eo, <- En.
  destruct (length new =? length old)%nat; [eauto|].
  destruct new as [|c [|c2 new]], new' as [|c' [|c2' new']];
    try discriminate En; try discriminate. eauto.
Qed.
End ShapeFacts.

Section RescaleShape.
Context `{Numeric} (cfg : Cfg).

Lemma rescaled_layer_shape l l' stds means :
  length (weight l) = length (weight l') ->
  length (bias l) = length (bias l') ->
  is_Some (rescaled_layer l stds means) ->
  is_Some (rescaled_layer l' stds means).
Proof.
  intros Ew Eb [r Hr]. unfold rescaled_layer, scale_weight in *.
  destruct (broadcast _ (weight l) stds) as [sc|] eqn:E1; [|done].
  cbn [mbind option_bind] in Hr.
  destruct (assign _ (weight l) sc) as [w|] eqn:E2; [|done].
  cbn [mbind option_bind] in Hr.
  destruct (broadcast mul_bs (bias l) stds) as [pr|] eqn:E3; [|done].
  cbn [mbind option_bind] in Hr.
  destruct (broadcast add_ss pr means) as [sh|] eqn:E4; [|done].
  cbn [mbind option_bind] in Hr.
  destruct (assign cast_sb (bias l) sh) as [b|] eqn:E5; [|done].
  eapply (broadcast_shape _
            (fun row s => map (fun x => mul_bs x s) row)
            _ _ (weight l') stds) in E1 as (sc' & -> & Lsc); [|done..].
  cbn [mbind option_bind].
  eapply (assign_shape _ (map cast_sb) _ _ (weight l') sc')
    in E2 as (w' & ->); [|done..].
  cbn [mbind option_bind].
  eapply (broadcast_shape _ mul_bs _ _ (bias l') stds)
    in E3 as (pr' & -> & Lpr); [|done..].
  cbn [mbind option_bind].
  eapply (broadcast_shape _ add_ss _ _ pr' means)
    in E4 as (sh' & -> & Lsh); [|done..].
  cbn [mbind option_bind].
  eapply (assign_shape _ cast_sb _ _ (bias l') sh')
    in E5 as (b' & ->); [|done..].
  cbn [mbind option_bind]. eauto.
Qed.

(** Whether a snapshot can be taken depends on the session only through
    the shape of the regression head and the statistics. *)
Lemma persisted_params_shape s s' :
  bbox_dims (net_params s') = bbox_dims (net_params s) ->
  bbox_stds s' = bbox_stds s -> bbox_means s' = bbox_means s ->
  is_Some (persisted_params cfg s) ->
  is_Some (persisted_params cfg s').
Proof.
  unfold bbox_dims, persisted_params, scale_bbox_params.
  intros Ed -> ->.
  destruct (net_params s !! "bbox_pred") as [l|] eqn:El,
           (net_params s' !! "bbox_pred") as [l'|] eqn:El';
    try discriminate Ed.
  - injection Ed as Ew Eb.
    rewrite !bool_decide_eq_true_2 by eauto.
    destruct (TRAIN_BBOX_REG cfg && TRAIN_BBOX_NORMALIZE_TARGETS cfg);
      cbn [andb]; [|eauto].
    cbn [mbind option_bind].
    destruct (bbox_stds s) as [stds|]; [|by intros [? ?]].
    destruct (bbox_means s) as [means|]; [|by intros [? ?]].
    cbn [mbind option_bind]. intros [saved Hs].
    destruct (rescaled_layer l stds means) as [r|] eqn:Er; [|done].
    destruct (rescaled_layer_shape l l' stds means) as [r' ->];
      [done|done|eauto|]. cbn. eauto.
  - rewrite !bool_decide_eq_false_2 by (by intros [? ?]).
    rewrite !andb_false_r. eauto.
Qed.
End RescaleShape.

(** ** The training loop *)

Section TrainFacts.
Context `{Numeric} (cfg : Cfg) (caffe : Caffe).

Lemma same_config_refl s : same_config s s.
Proof. by repeat split. Qed.

Lemma same_config_trans s1 s2 s3 :
  same_config s1 s2 -> same_config s2 s3 -> same_config s1 s3.
Proof.
  intros (?&?&?&?&?&?) (?&?&?&?&?&?). repeat split; congruence.
Qed.

Lemma checkpoint_path_config s s' i :
  same_config s s' -> checkpoint_path cfg s' i = checkpoint_path cfg s i.
Proof.
  intros (Ho&_&_&_&Hp&_). unfold checkpoint_path, snapshot_filename.
  sess. by rewrite Ho, Hp.
Qed.

Lemma checkpoint_path_here s :
  checkpoint_path cfg s (solver_iter s) = snapshot_filename cfg s.
Proof. done. Qed.

Lemma after_step_config s : same_config s (after_step caffe s).
Proof.
  unfold after_step. sess.
  destruct (_ =? 0); by repeat split.
Qed.

Lemma after_step_iter s :
  solver_iter (after_step caffe s) = solver_iter s + 1.
Proof. unfold after_step. sess. by destruct (_ =? 0). Qed.

Lemma after_step_params s :
  net_params (after_step caffe s) =
  sgd_update caffe (solver_iter s) (net_params s).
Proof. unfold after_step. sess. by destruct (_ =? 0). Qed.

Lemma params_after_step s s2 max_iters :
  solver_iter s < max_iters ->
  solver_iter s2 = solver_iter s + 1 ->
  net_params s2 = net_params (after_step caffe s) ->
  params_after caffe s2 max_iters = params_after caffe s max_iters.
Proof.
  intros Hlt Hi Hp. unfold params_after.
  rewrite (seqZ_cons (solver_iter s)) by lia. cbn [foldl].
  rewrite Hp, after_step_params, Hi. do 2 f_equal; lia.
Qed.

(** One pass of the loop body, when the display interval is not zero. *)
Lemma train_body_eq l s :
  display (solver_param s) <> 0 ->
  train_body cfg caffe l s =
    if rank s =? 0 then
      (q <- py_mod (solver_iter s + 1) (TRAIN_SNAPSHOT_ITERS cfg) ;;
       if q =? 0 then
         path <- snapshot cfg ;;
         ret (solver_iter s + 1, (snd l ++ [path])%list)
       else ret l) (after_step caffe s)
    else Ok l (after_step caffe s).
Proof.
  intros Hd. unfold train_body, solver_step, bind, modify, get, py_mod.
  sess. destruct (10 * display (solver_param s) =? 0) eqn:E;
    [apply Z.eqb_eq in E; lia|]. cbn [ret].
  unfold after_step. sess.
  destruct (_ mod _ =? 0); unfold write_stderr, modify; sess;
    by destruct (rank s =? 0).
Qed.

Section CleanRun.
Hypothesis interval : TRAIN_SNAPSHOT_ITERS cfg <> 0.
Hypothesis update_keeps_shape :
  forall i ps, bbox_dims (sgd_update caffe i ps) = bbox_dims ps.

Lemma clean_after_step s : clean cfg s -> clean cfg (after_step caffe s).
Proof.
  intros (Hr & Hd & Hw & Hp).
  destruct (after_step_config s) as (Ho&Hr'&Hm&Hs&Hpar&Hfw).
  repeat split.
  - congruence.
  - by rewrite Hpar.
  - intros p. by rewrite Hfw.
  - eapply persisted_params_shape; [| | |exact Hp]; try done.
    by rewrite after_step_params.
Qed.

Lemma clean_set_disk d s : clean cfg s -> clean cfg (set_disk d s).
Proof. done. Qed.

Lemma snapshot_clean s :
  clean cfg s ->
  exists saved,
    snapshot cfg s =
      Ok (snapshot_filename cfg s)
         (set_disk (<[snapshot_filename cfg s := saved]> (disk s)) s).
Proof.
  intros (Hr & _ & Hw & saved & Hp). exists saved.
  by rewrite (snapshot_run _ _ _ Hr Hp), Hw.
Qed.

(** The loop on a clean session: it stops at [max_iters], having taken
    a snapshot at every multiple of the interval on the way. *)
Lemma while_clean max_iters n : forall s last paths,
  clean cfg s ->
  n = Z.to_nat (max_iters - solver_iter s) ->
  exists s',
    while_ n (fun _ s => solver_iter s <? max_iters)
      (train_body cfg caffe) (last, paths) s =
    Ok (default last
          (list.last (loop_snapshots cfg (solver_iter s) max_iters)),
        (paths ++ map (checkpoint_path cfg s)
                    (loop_snapshots cfg (solver_iter s) max_iters))%list)
       s' /\
    clean cfg s' /\ same_config s s' /\
    solver_iter s' = Z.max (solver_iter s) max_iters /\
    net_params s' = params_after caffe s max_iters.
Proof.
  induction n as [|n IH]; intros s last paths Hc Hn.
  - exists s. cbn [while_].
    assert (Hle : max_iters <= solver_iter s) by lia.
    destruct (solver_iter s <? max_iters) eqn:E;
      [apply Z.ltb_lt in E; lia|].
    unfold loop_snapshots. rewrite seqZ_nil by lia. cbn.
    rewrite app_nil_r.
    split; [done|]. split; [done|].
    split; [apply same_config_refl|]. split; [lia|].
    unfold params_after. by rewrite seqZ_nil by lia.
  - assert (Hlt : solver_iter s < max_iters) by lia.
    cbn [while_]. rewrite (proj2 (Z.ltb_lt _ _) Hlt).
    pose proof (clean_after_step s Hc) as Hc1.
    pose proof (after_step_config s) as Hcfg1.
    pose proof (after_step_iter s) as Hi1.
    destruct Hc as (Hr & Hd & Hw & Hp).
    rewrite (train_body_eq _ _ Hd), Hr. cbn [Z.eqb].
    unfold bind at 1, py_mod.
    rewrite (proj2 (Z.eqb_neq _ _) interval). cbn [ret].
    unfold loop_snapshots.
    rewrite (seqZ_cons (solver_iter s + 1)) by lia.
    cbn [List.filter].
    replace (Z.succ (solver_iter s + 1))
      with (solver_iter (after_step caffe s) + 1) by lia.
    replace (Z.pred (max_iters - solver_iter s))
      with (max_iters - solver_iter (after_step caffe s)) by lia.
    destruct ((solver_iter s + 1) mod TRAIN_SNAPSHOT_ITERS cfg =? 0).
    + destruct (snapshot_clean _ Hc1) as [saved Hsnap].
      unfold bind. rewrite Hsnap. cbn [ret snd].
      set (s2 := set_disk _ (after_step caffe s)).
      destruct (IH s2 (solver_iter s + 1)
                  (paths ++ [snapshot_filename cfg (after_step caffe s)])%list)
        as (s' & Hrun & Hc' & Hcfg' & Hi' & Hps');
        [by apply clean_set_disk | subst s2; sess; lia |].
      exists s'. subst s2. sess. rewrite Hrun.
      fold (loop_snapshots cfg (solver_iter (after_step caffe s)) max_iters).
      split; [|split; [done|split; [|split]]].
      * f_equal. f_equal.
        -- rewrite last_cons.
           by destruct (list.last _).
        -- rewrite <- app_assoc. f_equal. cbn [map app]. f_equal.
           ++ rewrite <- checkpoint_path_here.
              rewrite (checkpoint_path_config s) by done.
              by rewrite Hi1.
           ++ apply map_ext. intros i.
              by rewrite (checkpoint_path_config s).
      * eapply same_config_trans; [exact Hcfg1|]. exact Hcfg'.
      * rewrite Hi'. sess. lia.
      * rewrite Hps'. by apply params_after_step.
    + destruct (IH (after_step caffe s) last paths)
        as (s' & Hrun & Hc' & Hcfg' & Hi' & Hps'); [done | lia |].
      exists s'. cbn [ret]. rewrite Hrun.
      fold (loop_snapshots cfg (solver_iter (after_step caffe s)) max_iters).
      split; [|split; [done|split; [|split]]].
      * f_equal. f_equal. f_equal. apply map_ext. intros i.
        by rewrite (checkpoint_path_config s).
      * eapply same_config_trans; [exact Hcfg1|]. exact Hcfg'.
      * rewrite Hi'. lia.
      * rewrite Hps'. by apply params_after_step.
Qed.

Lemma loop_snapshots_range i0 max_iters x :
  x ∈ loop_snapshots cfg i0 max_iters -> i0 < x <= max_iters.
Proof.
  unfold loop_snapshots. rewrite list_elem_of_In, filter_In.
  rewrite <- list_elem_of_In, elem_of_seqZ. lia.
Qed.

(** The test after the loop: the last snapshotted iteration is the
    final iteration exactly when the final iteration is among the
    loop's snapshots. *)
Lemma final_snapshot_test i0 max_iters :
  0 <= i0 ->
  (default (-1) (list.last (loop_snapshots cfg i0 max_iters)) =?
     Z.max i0 max_iters) =
  bool_decide (Z.max i0 max_iters ∈ loop_snapshots cfg i0 max_iters).
Proof.
  intros Hi. destruct (Z.le_gt_cases max_iters i0) as [Hle|Hlt].
  - unfold loop_snapshots. rewrite seqZ_nil by lia.
    cbn [List.filter list.last default from_option id].
    rewrite bool_decide_eq_false_2 by (apply not_elem_of_nil).
    apply Z.eqb_neq. lia.
  - rewrite Z.max_r by lia.
    destruct (decide (max_iters ∈ loop_snapshots cfg i0 max_iters))
      as [Hin|Hnin].
    + rewrite bool_decide_eq_true_2 by done. apply Z.eqb_eq.
      revert Hin. unfold loop_snapshots.
      replace (max_iters - i0) with ((max_iters - i0 - 1) + 1) by lia.
      rewrite seqZ_app by lia. rewrite List.filter_app.
      replace (i0 + 1 + (max_iters - i0 - 1)) with max_iters by lia.
      change (seqZ max_iters 1) with [max_iters]. cbn [List.filter].
      destruct (max_iters mod TRAIN_SNAPSHOT_ITERS cfg =? 0).
      * intros _. by rewrite last_snoc.
      * rewrite app_nil_r, list_elem_of_In, filter_In.
        rewrite <- list_elem_of_In, elem_of_seqZ. lia.
    + rewrite bool_decide_eq_false_2 by done. apply Z.eqb_neq.
      destruct (list.last (loop_snapshots cfg i0 max_iters))
        as [x|] eqn:El; cbn [default from_option id]; [|lia].
      intros ->. apply Hnin. by eapply last_Some_elem_of.
Qed.

(** A clean run of [train_model] on the root rank. *)
Lemma train_model_clean max_iters s :
  clean cfg s -> 0 <= solver_iter s ->
  exists s',
    train_model cfg caffe max_iters s =
      Ok (map (checkpoint_path cfg s)
            (snapshot_iters cfg (solver_iter s) max_iters)) s' /\
    same_config s s' /\
    solver_iter s' = Z.max (solver_iter s) max_iters /\
    net_params s' = params_after caffe s max_iters.
Proof.
  intros Hc Hi. unfold train_model, bind at 1, get.
  destruct (while_clean max_iters _ s (-1) [] Hc eq_refl)
    as (s1 & Hrun & Hc1 & Hcfg1 & Hi1 & Hps1).
  unfold bind at 1. rewrite Hrun. unfold bind at 1, get. cbn [fst snd].
  rewrite Hi1, (final_snapshot_test _ _ Hi).
  destruct Hc1 as (Hr1 & Hd1 & Hw1 & Hp1). rewrite Hr1. cbn [Z.eqb andb].
  unfold snapshot_iters.
  destruct (bool_decide _); cbn [negb].
  - exists s1. cbn [ret app]. by rewrite app_nil_r.
  - destruct (snapshot_clean s1) as [saved Hsnap]; [done|].
    unfold bind. rewrite Hsnap. cbn [ret]. eexists.
    split; [|split; [|split]].
    + f_equal. rewrite map_app. cbn [map app]. do 2 f_equal.
      rewrite <- checkpoint_path_here, Hi1.
      by apply checkpoint_path_config.
    + destruct Hcfg1 as (?&?&?&?&?&?). by repeat split.
    + done.
    + done.
Qed.
End CleanRun.

(** The loop on a rank other than the root: it steps to [max_iters] and
    leaves the locals and the file system alone. *)
Lemma while_nonroot max_iters n : forall s l,
  rank s <> 0 -> display (solver_param s) <> 0 ->
  n = Z.to_nat (max_iters - solver_iter s) ->
  exists s',
    while_ n (fun _ s => solver_iter s <? max_iters)
      (train_body cfg caffe) l s = Ok l s' /\
    same_config s s' /\
    solver_iter s' = Z.max (solver_iter s) max_iters /\
    net_params s' = params_after caffe s max_iters /\
    disk s' = disk s.
Proof.
  induction n as [|n IH]; intros s l Hr Hd Hn.
  - exists s. cbn [while_].
    destruct (solver_iter s <? max_iters) eqn:E;
      [apply Z.ltb_lt in E; lia|].
    split; [done|]. split; [apply same_config_refl|]. split; [lia|].
    split; [|done]. unfold params_after. by rewrite seqZ_nil by lia.
  - assert (Hlt : solver_iter s < max_iters) by lia.
    cbn [while_]. rewrite (proj2 (Z.ltb_lt _ _) Hlt).
    rewrite (train_body_eq _ _ Hd), (proj2 (Z.eqb_neq _ _) Hr).
    pose proof (after_step_config s) as Hcfg1.
    pose proof (after_step_iter s) as Hi1.
    destruct (IH (after_step caffe s) l)
      as (s' & Hrun & Hcfg' & Hi' & Hps' & Hdk').
    { destruct Hcfg1 as (_&->&_). done. }
    { destruct Hcfg1 as (_&_&_&_&->&_). done. }
    { lia. }
    exists s'. split; [done|].
    split; [by eapply same_config_trans|]. split; [lia|].
    split.
    + rewrite Hps'. by apply params_after_step.
    + rewrite Hdk'. unfold after_step. sess. by destruct (_ =? 0).
Qed.

Lemma train_model_nonroot max_iters s :
  rank s <> 0 -> display (solver_param s) <> 0 ->
  exists s',
    train_model cfg caffe max_iters s = Ok [] s' /\
    same_config s s' /\
    solver_iter s' = Z.max (solver_iter s) max_iters /\
    net_params s' = params_after caffe s max_iters /\
    disk s' = disk s.
Proof.
  intros Hr Hd. unfold train_model, bind at 1, get.
  destruct (while_nonroot max_iters _ s (-1, []) Hr Hd eq_refl)
    as (s' & Hrun & Hcfg & Hrest).
  exists s'. unfold bind at 1. rewrite Hrun. unfold bind, get.
  pose proof Hcfg as (_ & Hr' & _). rewrite Hr'.
  rewrite (proj2 (Z.eqb_neq _ _) Hr). cbn [andb ret snd].
  split; [done|]. split; [exact Hcfg|done].
Qed.

(** What a pass of the loop body that returns has done. *)
Lemma train_body_ok_inv l s l' s' :
  train_body cfg caffe l s = Ok l' s' ->
  rank s' = rank s /\ solver_iter s' = solver_iter s + 1 /\
  (l' = l \/
   rank s = 0 /\ exists p, l' = (solver_iter s', (snd l ++ [p])%list)).
Proof.
  destruct (decide (display (solver_param s) = 0)) as [Hd|Hd].
  { unfold train_body, solver_step, bind, modify, get, py_mod. sess.
    rewrite Hd. cbn [Z.mul Z.eqb]. discriminate. }
  rewrite (train_body_eq _ _ Hd).
  pose proof (after_step_config s) as (_&Hr&_).
  pose proof (after_step_iter s) as Hi.
  destruct (rank s =? 0) eqn:Er.
  - apply Z.eqb_eq in Er. unfold bind at 1, py_mod.
    destruct (TRAIN_SNAPSHOT_ITERS cfg =? 0); [discriminate|].
    cbn [ret].
    destruct (_ mod _ =? 0).
    + unfold bind.
      destruct (snapshot cfg (after_step caffe s)) as [p s2| |] eqn:Es;
        try discriminate.
      cbn [ret]. intros [= <- <-].
      destruct (snapshot_ok_spec _ _ _ _ Es) as (_&_&_&saved&_&->).
      sess. split; [done|]. split; [done|]. right. split; [done|].
      exists p. by rewrite Hi.
    + cbn [ret]. intros [= <- <-]. auto.
  - intros [= <- <-]. auto.
Qed.
End TrainFacts.

(** A loop invariant that every returning pass of the body preserves holds
    when the loop returns, and the guard is then false. *)
Lemma while_invariant {St L} (I : L -> St -> Prop)
    (cond : L -> St -> bool) (body : L -> M St L) :
  (forall l s l' s',
     I l s -> cond l s = true -> body l s = Ok l' s' -> I l' s') ->
  forall n l s l' s',
    I l s -> while_ n cond body l s = Ok l' s' ->
    I l' s' /\ cond l' s' = false.
Proof.
  intros Hstep. induction n as [|n IH]; intros l s l' s' HI; cbn [while_].
  - destruct (cond l s) eqn:E; [discriminate|]. by intros [= <- <-].
  - destruct (cond l s) eqn:E; [|by intros [= <- <-]].
    destruct (body l s) as [l1 s1| |] eqn:Eb; try discriminate.
    apply IH. by eapply Hstep.
Qed.

(** *** The fuel is enough *)

Lemma nd_ret {St A} (a : A) : no_diverge (@ret St A a).
Proof. done. Qed.

Lemma nd_raise {St A} e : no_diverge (@raise St A e).
Proof. done. Qed.

Lemma nd_get {St} : no_diverge (@get St).
Proof. done. Qed.

Lemma nd_modify {St} (f : St -> St) : no_diverge (modify f).
Proof. done. Qed.

Lemma nd_bind {St A B} (m : M St A) (k : A -> M St B) :
  no_diverge m -> (forall a, no_diverge (k a)) -> no_diverge (bind m k).
Proof.
  intros Hm Hk s s'. unfold bind. specialize (Hm s).
  destruct (m s) as [a s1|e s1|s1]; [apply Hk|done|by destruct (Hm s1)].
Qed.

Lemma nd_net_save `{Numeric} f : no_diverge (net_save f).
Proof. intros s s'. unfold net_save. by destruct (fs_writable s f). Qed.

Ltac nd_step :=
  first
    [ apply nd_ret | apply nd_raise | apply nd_get | apply nd_modify
    | apply nd_net_save | apply nd_bind
    | match goal with
      | |- no_diverge (if ?c then _ else _) => destruct c
      | |- no_diverge (match ?x with _ => _ end) => destruct x
      end
    | intro ].

Lemma nd_snapshot `{Numeric} (cfg : Cfg) : no_diverge (snapshot cfg).
Proof.
  unfold snapshot, py_assert, ndarray_attr, numpy, set_weight, set_bias.
  repeat nd_step.
Qed.

Lemma nd_train_body `{Numeric} (cfg : Cfg) (caffe : Caffe) l :
  no_diverge (train_body cfg caffe l).
Proof.
  unfold train_body, solver_step, py_mod, write_stderr.
  repeat first [apply nd_snapshot | nd_step].
Qed.

(** The loop never runs out of fuel: a session that is [n] steps short of
    [max_iters] needs at most [n] passes, whatever they do. *)
Lemma while_terminates `{Numeric} (cfg : Cfg) (caffe : Caffe) max_iters n :
  forall l s s',
    (Z.to_nat (max_iters - solver_iter s) <= n)%nat ->
    while_ n (fun _ s => solver_iter s <? max_iters)
      (train_body cfg caffe) l s <> Diverge s'.
Proof.
  induction n as [|n IH]; intros l s s' Hn; cbn [while_].
  - destruct (solver_iter s <? max_iters) eqn:E; [|done].
    apply Z.ltb_lt in E. lia.
  - destruct (solver_iter s <? max_iters) eqn:E; [|done].
    destruct (train_body cfg caffe l s) as [l1 s1|e s1|s1] eqn:Eb; [|done|].
    + apply IH. apply train_body_ok_inv in Eb as (_ & Hi & _). lia.
    + by apply nd_train_body in Eb.
Qed.

Lemma train_model_terminates `{Numeric} (cfg : Cfg) (caffe : Caffe)
    max_iters :
  no_diverge (train_model cfg caffe max_iters).
Proof.
  intros s s'. unfold train_model, bind at 1, get.
  unfold bind at 1.
  pose proof (fun s' => while_terminates cfg caffe max_iters _ (-1, []) s s'
                          (Nat.le_refl _)) as Hw.
  destruct (while_ _ _ _ _ s) as [l s1|e s1|s1];
    [|done|by destruct (Hw s1)].
  clear Hw. revert s1 s'. change (no_diverge
    (s <- get ;;
     if (rank s =? 0) && negb (fst l =? solver_iter s)
     then path <- snapshot cfg ;; ret (snd l ++ [path])%list
     else ret (snd l))).
  repeat first [apply nd_snapshot | nd_step].
Qed.

(** ** More on the loop body and on what a run writes *)

Section TrainHelpers.
Context `{Numeric} (cfg : Cfg) (caffe : Caffe).

Lemma after_step_disk s : disk (after_step caffe s) = disk s.
Proof. unfold after_step. sess. by destruct (_ =? 0). Qed.

Lemma after_step_stderr s :
  stderr (after_step caffe s) =
  (stderr s ++
   if (solver_iter s + 1) mod (10 * display (solver_param s)) =? 0
   then [(rank s, solver_iter s + 1)] else [])%list.
Proof.
  unfold after_step. sess. destruct (_ =? 0); sess; [done|].
  by rewrite app_nil_r.
Qed.

(** With a display interval of 0 the body stops at the modulo, right after
    the solver step. *)
Lemma train_body_zero_display l s :
  display (solver_param s) = 0 ->
  train_body cfg caffe l s = Raise ZeroDivisionError (stepped caffe s).
Proof.
  intros Hd. unfold train_body, solver_step, bind, modify, get, py_mod.
  sess. by rewrite Hd.
Qed.

(** What a pass of the body that returns has done. *)
Lemma train_body_ok_state l s l' s' :
  train_body cfg caffe l s = Ok l' s' ->
  display (solver_param s) <> 0 /\
  (l' = l /\ s' = after_step caffe s \/
   rank s = 0 /\
   exists saved,
     persisted_params cfg (after_step caffe s) = Some saved /\
     l' = (solver_iter s + 1,
           (snd l ++ [snapshot_filename cfg (after_step caffe s)])%list) /\
     s' = set_disk
            (<[snapshot_filename cfg (after_step caffe s) := saved]>
               (disk (after_step caffe s)))
            (after_step caffe s)).
Proof.
  destruct (decide (display (solver_param s) = 0)) as [Hd|Hd].
  { by rewrite (train_body_zero_display _ _ Hd). }
  rewrite (train_body_eq _ _ _ _ Hd). split; [done|].
  destruct (rank s =? 0) eqn:Er; [|left; by simplify_eq].
  apply Z.eqb_eq in Er. revert H0. unfold bind at 1, py_mod.
  destruct (TRAIN_SNAPSHOT_ITERS cfg =? 0); [done|]. cbn [ret].
  destruct (_ =? 0); [|intros [= <- <-]; by left].
  unfold bind. destruct (snapshot cfg _) as [p s1| |] eqn:Es; try done.
  intros [= <- <-]. right. split; [done|].
  destruct (snapshot_ok_spec _ _ _ _ Es)
    as (_ & -> & _ & saved & Hp & ->).
  by exists saved.
Qed.

(** What [train_model] does after the loop. *)
Lemma train_model_ok_inv max_iters s paths s' :
  train_model cfg caffe max_iters s = Ok paths s' ->
  exists l s1,
    while_ (Z.to_nat (max_iters - solver_iter s))
      (fun _ s => solver_iter s <? max_iters) (train_body cfg caffe)
      (-1, []) s = Ok l s1 /\
    (paths = snd l /\ s' = s1 /\
     ((rank s1 =? 0) && negb (fst l =? solver_iter s1) = false) \/
     rank s1 = 0 /\ fst l <> solver_iter s1 /\
     exists saved,
       persisted_params cfg s1 = Some saved /\
       paths = (snd l ++ [snapshot_filename cfg s1])%list /\
       s' = set_disk (<[snapshot_filename cfg s1 := saved]> (disk s1)) s1).
Proof.
  unfold train_model, bind at 1, get. intros Hm.
  apply bind_ok_inv in Hm as (l & s1 & Hw & Hm). exists l, s1.
  split; [done|]. revert Hm. unfold bind at 1, get.
  destruct (_ && _) eqn:E.
  - unfold bind. destruct (snapshot cfg s1) as [p s2| |] eqn:Es; try done.
    intros [= <- <-]. right.
    apply andb_true_iff in E as [Er E]. apply Z.eqb_eq in Er.
    apply negb_true_iff, Z.eqb_neq in E.
    destruct (snapshot_ok_spec _ _ _ _ Es)
      as (_ & -> & _ & saved & Hp & ->).
    repeat split; [done..|]. by exists saved.
  - intros [= <- <-]. by left.
Qed.

(** The same, with the test that decided it. *)
Lemma train_body_ok_cases l s l' s' :
  train_body cfg caffe l s = Ok l' s' ->
  (rank s <> 0 \/
   (solver_iter s + 1) mod TRAIN_SNAPSHOT_ITERS cfg <> 0) /\
  l' = l /\ s' = after_step caffe s \/
  rank s = 0 /\ TRAIN_SNAPSHOT_ITERS cfg <> 0 /\
  (solver_iter s + 1) mod TRAIN_SNAPSHOT_ITERS cfg = 0 /\
  exists saved,
    persisted_params cfg (after_step caffe s) = Some saved /\
    l' = (solver_iter s + 1,
          (snd l ++ [snapshot_filename cfg (after_step caffe s)])%list) /\
    s' = set_disk
           (<[snapshot_filename cfg (after_step caffe s) := saved]>
              (disk (after_step caffe s)))
           (after_step caffe s).
Proof.
  destruct (decide (display (solver_param s) = 0)) as [Hd|Hd].
  { by rewrite (train_body_zero_display _ _ Hd). }
  rewrite (train_body_eq _ _ _ _ Hd).
  destruct (rank s =? 0) eqn:Er.
  2:{ apply Z.eqb_neq in Er. intros [= <- <-]. left. auto. }
  apply Z.eqb_eq in Er. unfold bind at 1, py_mod.
  destruct (TRAIN_SNAPSHOT_ITERS cfg =? 0) eqn:E0; [done|].
  apply Z.eqb_neq in E0. cbn [ret].
  destruct (_ mod _ =? 0) eqn:Em.
  2:{ apply Z.eqb_neq in Em. intros [= <- <-]. left. auto. }
  apply Z.eqb_eq in Em.
  unfold bind. destruct (snapshot cfg _) as [p s1| |] eqn:Es; try done.
  intros [= <- <-]. right. repeat split; [done..|].
  destruct (snapshot_ok_spec _ _ _ _ Es)
    as (_ & -> & _ & saved & Hp & ->).
  by exists saved.
Qed.

(** The persisted view depends on the live parameters and the statistics
    only. *)
Lemma persisted_params_ext a b :
  net_params a = net_params b -> bbox_stds a = bbox_stds b ->
  bbox_means a = bbox_means b ->
  persisted_params cfg a = persisted_params cfg b.
Proof.
  unfold persisted_params, scale_bbox_params. by intros -> -> ->.
Qed.

Lemma params_after_here s : params_after caffe s (solver_iter s) = net_params s.
Proof. unfold params_after. by rewrite seqZ_nil by lia. Qed.

Lemma params_after_snoc s i :
  solver_iter s <= i ->
  params_after caffe s (i + 1) = sgd_update caffe i (params_after caffe s i).
Proof.
  intros Hi. unfold params_after.
  replace (i + 1 - solver_iter s) with ((i - solver_iter s) + 1) by lia.
  rewrite seqZ_app by lia. rewrite foldl_app.
  rewrite (seqZ_cons (solver_iter s + (i - solver_iter s))) by lia.
  rewrite (seqZ_nil _ (Z.pred 1)) by lia. cbn [foldl]. f_equal. lia.
Qed.

Lemma elem_of_loop_snapshots i0 max_iters x :
  x ∈ loop_snapshots cfg i0 max_iters <->
  i0 < x <= max_iters /\ x mod TRAIN_SNAPSHOT_ITERS cfg = 0.
Proof.
  unfold loop_snapshots. rewrite list_elem_of_In, filter_In.
  rewrite <- list_elem_of_In, elem_of_seqZ, Z.eqb_eq.
  split; intros [? ?]; (split; [lia|done]).
Qed.

Lemma checkpoint_path_inj s i j :
  checkpoint_path cfg s i = checkpoint_path cfg s j -> i = j.
Proof.
  unfold checkpoint_path, snapshot_filename. sess. intros E.
  apply os_path_join_inj in E.
  - do 3 apply String.app_inj in E.
    by apply string_app_inv_tail, format_d_inj in E.
  - rewrite !startswith_slash_app.
    destruct (snapshot_prefix (solver_param s)); [|done]. cbv beta iota.
    by destruct (snapshot_infix cfg).
Qed.

(** The last snapshot of a run is the one of its final iteration. *)
Lemma snapshot_iters_last i0 max_iters :
  0 <= i0 ->
  list.last (snapshot_iters cfg i0 max_iters) = Some (Z.max i0 max_iters).
Proof.
  intros Hi. unfold snapshot_iters. cbv zeta.
  pose proof (final_snapshot_test cfg i0 max_iters Hi) as Ht.
  destruct (bool_decide _) eqn:Eb.
  - rewrite app_nil_r. apply Z.eqb_eq in Ht.
    destruct (list.last (loop_snapshots cfg i0 max_iters)) as [x|];
      cbn [default from_option id] in Ht; [by subst|lia].
  - apply last_snoc.
Qed.

Lemma snapshot_iters_nonempty i0 max_iters :
  snapshot_iters cfg i0 max_iters <> [].
Proof.
  unfold snapshot_iters. cbv zeta. destruct (bool_decide _) eqn:Eb.
  - apply bool_decide_eq_true in Eb. rewrite app_nil_r.
    intros E. rewrite E in Eb. by apply elem_of_nil in Eb.
  - by destruct (loop_snapshots cfg i0 max_iters).
Qed.

(** On the root, a run that returns has written, for every iteration of
    its schedule, the persisted view of the parameters which the solver
    had reached at that iteration, and no later snapshot has replaced
    it. *)
Lemma train_model_checkpoints max_iters s paths s' :
  rank s = 0 -> 0 <= solver_iter s ->
  train_model cfg caffe max_iters s = Ok paths s' ->
  forall i,
    i ∈ snapshot_iters cfg (solver_iter s) max_iters ->
    exists saved,
      persisted_params cfg (set_params (params_after caffe s i) s) =
        Some saved /\
      disk s' !! checkpoint_path cfg s i = Some saved.
Proof.
  intros Hr Hpos Hm.
  apply train_model_ok_inv in Hm as (l & s1 & Hw & Hend).
  pose (W := fun (st : session) (i : Z) =>
    exists saved,
      persisted_params cfg (set_params (params_after caffe s i) s) =
        Some saved /\
      disk st !! checkpoint_path cfg s i = Some saved).
  pose (I := fun (l : Z * list string) (st : session) =>
    same_config s st /\
    solver_iter s <= solver_iter st <= Z.max (solver_iter s) max_iters /\
    net_params st = params_after caffe s (solver_iter st) /\
    (fst l = -1 \/
     solver_iter s < fst l <= solver_iter st /\
     fst l mod TRAIN_SNAPSHOT_ITERS cfg = 0) /\
    (solver_iter s < solver_iter st ->
     solver_iter st mod TRAIN_SNAPSHOT_ITERS cfg = 0 ->
     fst l = solver_iter st) /\
    (forall i, solver_iter s < i <= solver_iter st ->
               i mod TRAIN_SNAPSHOT_ITERS cfg = 0 -> W st i)).
  assert (Hview : forall st saved,
    same_config s st ->
    net_params st = params_after caffe s (solver_iter st) ->
    persisted_params cfg st = Some saved ->
    persisted_params cfg
      (set_params (params_after caffe s (solver_iter st)) s) = Some saved).
  { intros st saved (_ & _ & Hm & Hs & _) Hp <-.
    apply persisted_params_ext; sess; congruence. }
  assert (HI : I l s1 /\ (solver_iter s1 <? max_iters) = false).
  { refine (while_invariant I (fun _ s => solver_iter s <? max_iters)
              (train_body cfg caffe) _ _ _ _ _ _ _ Hw).
    - clear l s1 Hw Hend.
      intros l0 st l' st' (Hc & Hi & Hp & Hl & Hcur & Hdisk) Hcond Hb.
      apply Z.ltb_lt in Hcond.
      pose proof (after_step_config caffe st) as Hc'.
      pose proof (after_step_iter caffe st) as Hi'.
      pose proof (after_step_disk st) as Hd'.
      assert (Hp' : net_params (after_step caffe st) =
                    params_after caffe s (solver_iter st + 1)).
      { rewrite after_step_params, Hp, params_after_snoc; [done|lia]. }
      assert (Hcs : same_config s (after_step caffe st))
        by (by eapply same_config_trans).
      apply train_body_ok_cases in Hb as
        [(Hno & -> & ->)|(_ & Hs0 & Hmod & saved & Hsv & -> & ->)].
      + destruct Hno as [Hno|Hno];
          [destruct Hc as (_ & Hrk & _); congruence|].
        unfold I, W in *. rewrite Hi'.
        split_and!; [done|lia|lia|done| | |].
        * destruct Hl as [Hl|Hl]; [by left|right; lia].
        * intros _ Hm0. done.
        * intros i Hi0 Hm0.
          assert (i <> solver_iter st + 1) by (by intros ->).
          destruct (Hdisk i ltac:(lia) Hm0) as (sv & Hv & Hlk).
          exists sv. by rewrite Hd'.
      + unfold I, W in *. sess. rewrite Hi'.
        split_and!; [| lia | lia | done | | |].
        * destruct Hcs as (?&?&?&?&?&?). by repeat split.
        * right. cbn [fst]. lia.
        * done.
        * intros i Hi0 Hm0.
          assert (Hfn : snapshot_filename cfg (after_step caffe st) =
                        checkpoint_path cfg s (solver_iter st + 1)).
          { rewrite <- checkpoint_path_here, Hi'.
            by apply checkpoint_path_config. }
          rewrite Hfn.
          destruct (decide (i = solver_iter st + 1)) as [->|Hne].
          -- exists saved. rewrite lookup_insert_eq. split; [|done].
             rewrite <- Hi'. apply Hview; [done| |done].
             by rewrite Hi'.
          -- destruct (Hdisk i ltac:(lia) Hm0) as (sv & Hv & Hlk).
             exists sv. split; [done|].
             rewrite lookup_insert_ne, Hd'; [done|].
             intros E. by apply checkpoint_path_inj in E.
    - unfold I, W. cbn [fst snd].
      split_and!; [apply same_config_refl|lia|lia| |by left|lia|].
      + by rewrite params_after_here.
      + intros i Hi0. lia. }
  destruct HI as [(Hc & Hi & Hp & Hl & Hcur & Hdisk) Hcond].
  unfold W in *. clear I. apply Z.ltb_ge in Hcond.
  assert (Hfin : solver_iter s1 = Z.max (solver_iter s) max_iters) by lia.
  assert (Hrs1 : rank s1 = 0) by (destruct Hc as (_ & -> & _); done).
  intros i Hin. unfold snapshot_iters in Hin. cbv zeta in Hin.
  rewrite <- Hfin in Hin.
  apply elem_of_app in Hin as [Hin|Hin].
  - pose proof Hin as Hin'.
    apply elem_of_loop_snapshots in Hin' as [Hrange Hmod].
    destruct (Hdisk i ltac:(lia) Hmod) as (sv & Hv & Hlk).
    destruct Hend as [(_ & -> & _)|(_ & Hne & saved & _ & _ & ->)];
      [by exists sv|].
    exists sv. split; [done|]. sess.
    rewrite lookup_insert_ne; [done|].
    rewrite <- checkpoint_path_here, (checkpoint_path_config _ _ _ _ Hc).
    intros E. apply checkpoint_path_inj in E. subst i.
    apply Hne, Hcur; [lia|done].
  - destruct (bool_decide _) eqn:Eb; [by apply elem_of_nil in Hin|].
    apply bool_decide_eq_false in Eb.
    apply list_elem_of_singleton in Hin. subst i.
    destruct Hend as [(_ & -> & E)|(_ & Hne & saved & Hsv & _ & ->)].
    + exfalso. rewrite Hrs1 in E. change (0 =? 0) with true in E.
      cbn [andb] in E. apply negb_false_iff, Z.eqb_eq in E.
      destruct Hl as [Hl|[Hl Hm0]]; [lia|].
      apply Eb, elem_of_loop_snapshots. rewrite <- E. split; [lia|done].
    + exists saved. split; [by apply Hview|]. sess.
      rewrite <- checkpoint_path_here, (checkpoint_path_config _ _ _ _ Hc).
      by rewrite lookup_insert_eq.
Qed.

(** A run that returns has written a file at every path it returns and
    has left every other file as it was. *)
Lemma train_model_disk_frame max_iters s paths s' :
  train_model cfg caffe max_iters s = Ok paths s' ->
  (forall p, p ∈ paths -> is_Some (disk s' !! p)) /\
  (forall q, q ∉ paths -> disk s' !! q = disk s !! q).
Proof.
  intros Hm. apply train_model_ok_inv in Hm as (l & s1 & Hw & Hend).
  pose (I := fun (l : Z * list string) (st : session) =>
    (forall p, p ∈ snd l -> is_Some (disk st !! p)) /\
    (forall q, q ∉ snd l -> disk st !! q = disk s !! q)).
  assert (HI : I l s1 /\ (solver_iter s1 <? max_iters) = false).
  { refine (while_invariant I (fun _ s => solver_iter s <? max_iters)
              (train_body cfg caffe) _ _ _ _ _ _ _ Hw).
    - clear -s. intros l0 st l' st' [Hin Hout] _ Hb.
      apply train_body_ok_state in Hb as
        (_ & [[-> ->]|(_ & saved & _ & -> & ->)]).
      + split; intros p Hp; rewrite after_step_disk; auto.
      + split; sess; rewrite after_step_disk.
        * intros p [Hp| ->%list_elem_of_singleton]%elem_of_app.
          -- destruct (decide (p = snapshot_filename cfg (after_step caffe st)))
               as [->|Hne].
             ++ by rewrite lookup_insert_eq.
             ++ rewrite lookup_insert_ne by done. auto.
          -- by rewrite lookup_insert_eq.
        * intros q Hq. rewrite not_elem_of_app in Hq. destruct Hq as [Hq Hq'].
          rewrite lookup_insert_ne; [auto|].
          intros <-. apply Hq', list_elem_of_singleton. done.
    - split; [by intros p ?%elem_of_nil|done]. }
  destruct HI as [[Hin Hout] _].
  destruct Hend as [(-> & -> & _)|(_ & _ & saved & _ & -> & ->)];
    [done|]. sess. split.
  - intros p [Hp| ->%list_elem_of_singleton]%elem_of_app.
    + destruct (decide (p = snapshot_filename cfg s1)) as [->|Hne].
      * by rewrite lookup_insert_eq.
      * rewrite lookup_insert_ne by done. auto.
    + by rewrite lookup_insert_eq.
  - intros q Hq. rewrite not_elem_of_app in Hq. destruct Hq as [Hq Hq'].
    rewrite lookup_insert_ne; [auto|].
    intros <-. apply Hq', list_elem_of_singleton. done.
Qed.
End TrainHelpers.

(** ** Claims about [train_model] *)

Section TrainClaims.
Context `{Numeric} (cfg : Cfg) (caffe : Caffe).

(** C1. On the root rank, with a display interval and a snapshot interval
    that are not zero, a writable file system and a regression head that
    keeps its shape, [train_model] steps the solver one iteration at a
    time up to [max_iters] and takes a snapshot at every iteration reached
    in the loop that is a multiple of the snapshot interval, then at the
    final iteration unless it is one of those.  It returns the paths of
    these checkpoints in this order; when it returns, the file at each of
    them holds the persisted view of the parameters which the solver had
    reached at that iteration, and every file that is not among them is
    as before.  From iteration 0 with [max_iters] 10 and interval 4 the
    snapshots are those of iterations 4, 8 and 10. *)
Theorem train_model_snapshot_schedule max_iters s :
  rank s = 0 ->
  0 <= solver_iter s ->
  display (solver_param s) <> 0 ->
  TRAIN_SNAPSHOT_ITERS cfg <> 0 ->
  (forall p, fs_writable s p = true) ->
  is_Some (persisted_params cfg s) ->
  (forall i ps, bbox_dims (sgd_update caffe i ps) = bbox_dims ps) ->
  exists paths s',
    train_model cfg caffe max_iters s = Ok paths s' /\
    paths = map (checkpoint_path cfg s)
              (snapshot_iters cfg (solver_iter s) max_iters) /\
    solver_iter s' = Z.max (solver_iter s) max_iters /\
    net_params s' = params_after caffe s max_iters /\
    (forall i,
       i ∈ snapshot_iters cfg (solver_iter s) max_iters ->
       exists saved,
         persisted_params cfg (set_params (params_after caffe s i) s) =
           Some saved /\
         disk s' !! checkpoint_path cfg s i = Some saved) /\
    (forall q, q ∉ paths -> disk s' !! q = disk s !! q) /\
    (solver_iter s = 0 -> max_iters = 10 ->
     TRAIN_SNAPSHOT_ITERS cfg = 4 ->
     paths = [checkpoint_path cfg s 4; checkpoint_path cfg s 8;
              checkpoint_path cfg s 10] /\
     is_Some (disk s' !! checkpoint_path cfg s 4) /\
     is_Some (disk s' !! checkpoint_path cfg s 8) /\
     is_Some (disk s' !! checkpoint_path cfg s 10)).
Proof.
  intros Hr Hi Hd Hint Hw Hp Hupd.
  destruct (train_model_clean cfg caffe Hint Hupd max_iters s)
    as (s' & Hrun & _ & Hi' & Hps'); [by repeat split | done |].
  pose proof (train_model_checkpoints cfg caffe max_iters s _ s' Hr Hi Hrun)
    as Hfiles.
  pose proof (train_model_disk_frame cfg caffe max_iters s _ s' Hrun)
    as [_ Hframe].
  eexists _, s'. split; [exact Hrun|]. split; [done|].
  split; [done|]. split; [done|]. split; [exact Hfiles|].
  split; [exact Hframe|].
  intros E0 -> E4.
  assert (Hsched : snapshot_iters cfg (solver_iter s) 10 = [4; 8; 10]).
  { rewrite E0. unfold snapshot_iters, loop_snapshots. rewrite E4.
    reflexivity. }
  rewrite Hsched in Hfiles |- *. split; [reflexivity|].
  split_and!.
  - destruct (Hfiles 4) as (sv & _ & ->); [set_solver|done].
  - destruct (Hfiles 8) as (sv & _ & ->); [set_solver|done].
  - destruct (Hfiles 10) as (sv & _ & ->); [set_solver|done].
Qed.

(** C10. On the root rank, with an iteration counter that is not
    negative: every list that [train_model] returns is non-empty; when
    [max_iters] is not above the current iteration, so that no step is
    taken, it returns the one checkpoint of the current iteration, which
    is then on disk; and with a display interval and a snapshot interval
    that are not zero, a writable file system and a regression head that
    keeps its shape, it does return, whether or not steps are taken: the
    solver is then at the later of the starting iteration and
    [max_iters], the list is non-empty, and its last path is the
    checkpoint of that iteration, which is on disk. *)
Theorem train_model_root_nonempty max_iters s :
  rank s = 0 ->
  0 <= solver_iter s ->
  (forall paths s',
     train_model cfg caffe max_iters s = Ok paths s' -> paths <> []) /\
  (max_iters <= solver_iter s ->
   fs_writable s (snapshot_filename cfg s) = true ->
   is_Some (persisted_params cfg s) ->
   exists s',
     train_model cfg caffe max_iters s =
       Ok [snapshot_filename cfg s] s' /\
     is_Some (disk s' !! snapshot_filename cfg s)) /\
  (display (solver_param s) <> 0 ->
   TRAIN_SNAPSHOT_ITERS cfg <> 0 ->
   (forall p, fs_writable s p = true) ->
   is_Some (persisted_params cfg s) ->
   (forall i ps, bbox_dims (sgd_update caffe i ps) = bbox_dims ps) ->
   exists paths s',
     train_model cfg caffe max_iters s = Ok paths s' /\
     paths <> [] /\
     solver_iter s' = Z.max (solver_iter s) max_iters /\
     list.last paths =
       Some (checkpoint_path cfg s (Z.max (solver_iter s) max_iters)) /\
     is_Some
       (disk s' !!
          checkpoint_path cfg s (Z.max (solver_iter s) max_iters))).
Proof.
  intros Hr Hi. split; [|split].
  - intros paths s'. unfold train_model, bind at 1, get. unfold bind at 1.
    destruct (while_ _ _ _ _ s) as [[last ps] s1|e s1|] eqn:Ew;
      try discriminate.
    apply (while_invariant
             (fun l s => rank s = 0 /\ 0 <= solver_iter s /\
                         (fst l = -1 \/ snd l <> []))) in Ew.
    + destruct Ew as [(Hr1 & Hi1 & Hl) _]. cbn [fst snd] in *.
      unfold bind at 1, get. rewrite Hr1.
      change (0 =? 0) with true. cbn [andb].
      destruct (last =? solver_iter s1) eqn:El; cbn [negb].
      * apply Z.eqb_eq in El. intros [= <- <-].
        destruct Hl as [Hl|Hl]; [lia|done].
      * unfold bind. destruct (snapshot cfg s1); try discriminate.
        cbn [ret]. intros [= <- <-]. by destruct ps.
    + intros l s2 l' s2' (Hr2 & Hi2 & Hl) _ Hb.
      apply train_body_ok_inv in Hb as (Hr' & Hi' & Hl').
      split; [congruence|]. split; [lia|].
      destruct Hl' as [->|(_ & p & ->)]; [done|].
      right. cbn [snd]. by destruct (snd l).
    + cbn [fst]. auto.
  - intros Hle Hw [saved Hp]. unfold train_model, bind at 1, get.
    replace (Z.to_nat (max_iters - solver_iter s)) with 0%nat by lia.
    unfold bind at 1. cbn [while_].
    destruct (solver_iter s <? max_iters) eqn:E;
      [apply Z.ltb_lt in E; lia|].
    unfold bind at 1, get. cbn [fst snd]. rewrite Hr.
    change (0 =? 0) with true. cbn [andb].
    destruct (-1 =? solver_iter s) eqn:E1;
      [apply Z.eqb_eq in E1; lia|]. cbn [negb].
    unfold bind. rewrite (snapshot_run _ _ _ Hr Hp), Hw. cbn [ret app].
    eexists. split; [done|]. sess. rewrite lookup_insert_eq. eauto.
  - intros Hd Hint Hw Hp Hupd.
    destruct (train_model_clean cfg caffe Hint Hupd max_iters s)
      as (s' & Hrun & _ & Hi' & _); [by repeat split | done |].
    pose proof (snapshot_iters_last cfg (solver_iter s) max_iters Hi)
      as Hlast.
    eexists _, s'. split; [exact Hrun|]. split_and!.
    + intros E. apply map_eq_nil in E.
      by apply snapshot_iters_nonempty in E.
    + done.
    + change (map ?f ?l) with (f <$> l). by rewrite fmap_last, Hlast.
    + destruct (train_model_checkpoints cfg caffe max_iters s _ s' Hr Hi
                  Hrun (Z.max (solver_iter s) max_iters))
        as (sv & _ & ->); [|done].
      by eapply last_Some_elem_of.
Qed.
End TrainClaims.

(** ** [filter_roidb] *)

Section FilterFacts.
Context `{Numeric} (cfg : Cfg).

Lemma np_where_from_length {A} (p : A -> bool) xs i :
  length (np_where_from i (map p xs)) = count p xs.
Proof.
  revert i. unfold count.
  induction xs as [|x xs IH]; intros i; cbn [map np_where_from List.filter];
    [done|].
  destruct (p x); cbn [length]; by rewrite IH.
Qed.

Lemma zip_with_andb_map {A} (p q : A -> bool) xs :
  zip_with andb (map p xs) (map q xs) = map (fun x => p x && q x) xs.
Proof. induction xs as [|x xs IH]; cbn; [done|]. by rewrite IH. Qed.

Lemma count_ext {A} (p q : A -> bool) xs :
  (forall x, p x = q x) -> count p xs = count q xs.
Proof.
  intros E. unfold count. f_equal. by apply filter_ext.
Qed.

(** On an entry with a non-zero side, [is_valid] computes the predicate
    of the specification. *)
Lemma is_valid_spec {St} (e : roidb_entry) (st : St) :
  Z.max (height e) (width e) <> 0 ->
  is_valid cfg e st = Ok (spec_keep cfg e) st.
Proof.
  intros Hnz. unfold is_valid, py_truediv, bind.
  rewrite (proj2 (Z.eqb_neq _ _) Hnz). cbn [ret]. unfold ret, spec_keep.
  f_equal. unfold np_where.
  rewrite zip_with_andb_map, !np_where_from_length.
  rewrite andb_comm. do 3 f_equal.
  apply count_ext. intros o. apply andb_comm.
Qed.

(** An entry of size 0 x 0 makes [is_valid] raise. *)
Lemma is_valid_zero_size {St} (e : roidb_entry) (st : St) :
  Z.max (height e) (width e) = 0 ->
  is_valid cfg e st = Raise ZeroDivisionError st.
Proof.
  intros Hz. unfold is_valid, py_truediv, bind. by rewrite Hz.
Qed.

Lemma comprehension_is_valid {St} roidb (st : St) :
  Forall (fun e => Z.max (height e) (width e) <> 0) roidb ->
  comprehension_if (is_valid cfg) roidb st =
  Ok (List.filter (spec_keep cfg) roidb) st.
Proof.
  induction 1 as [|e roidb He _ IH]; [done|].
  cbn [comprehension_if List.filter]. unfold bind at 1.
  rewrite (is_valid_spec _ _ He). unfold bind. rewrite IH. cbn [ret].
  by destruct (spec_keep cfg e).
Qed.

(** C5. On a roidb whose entries have a non-zero side, [filter_roidb]
    returns the entries, in their order, for which the count of overlaps
    at or above FG_THRESH is positive or the count of overlaps in
    [BG_THRESH_LO, BG_THRESH_HI) is positive, and
    min(height, width) / max(height, width) exceeds MIN_IM_RATIO: an
    entry is retained if and only if it is in the input and satisfies
    this predicate. *)
Theorem filter_roidb_keeps roidb out :
  Forall (fun e => Z.max (height e) (width e) <> 0) roidb ->
  exists out',
    filter_roidb cfg roidb out =
      Ok (List.filter (spec_keep cfg) roidb) out' /\
    forall e,
      In e (List.filter (spec_keep cfg) roidb) <->
      In e roidb /\ spec_keep cfg e = true.
Proof.
  intros Hnz. unfold filter_roidb, bind at 1.
  rewrite (comprehension_is_valid _ _ Hnz). unfold bind, modify.
  eexists. split; [done|]. intros e. apply filter_In.
Qed.
End FilterFacts.

(** ** Worker processes *)

Section Preserves.
Context {St X : Type} (f : St -> X).

Lemma preserves_ret {A} (a : A) : preserves f (ret a).
Proof. done. Qed.

Lemma preserves_raise {A} e : preserves f (@raise St A e).
Proof. done. Qed.

Lemma preserves_get : preserves f get.
Proof. done. Qed.

Lemma preserves_modify (g : St -> St) :
  (forall s, f (g s) = f s) -> preserves f (modify g).
Proof. intros Hg s. apply Hg. Qed.

Lemma preserves_bind {A B} (m : M St A) (k : A -> M St B) :
  preserves f m -> (forall a, preserves f (k a)) ->
  preserves f (bind m k).
Proof.
  intros Hm Hk s. unfold bind. specialize (Hm s).
  destruct (m s) as [a s1|e s1|s1]; [|done|done].
  specialize (Hk a s1). destruct (k a s1); congruence.
Qed.
End Preserves.


Ltac preserves_step :=
  first
    [ apply preserves_ret | apply preserves_raise | apply preserves_get
    | apply preserves_modify; intro; reflexivity
    | apply preserves_bind
    | match goal with
      | |- preserves _ (if ?c then _ else _) => destruct c
      | |- preserves _ (match ?x with _ => _ end) => destruct x
      end
    | intro ].

(** Runs the straight-line part of [__init__]. *)
Ltac run_init :=
  cbv [bind log_call modify py_assert ret get raise batch_product
       batch_message];
  cbn [caffe_calls caffe_solver_count queue_puts p_disk p_writable
       p_stderr].

Section WorkerFacts.
Context `{Numeric} (cfg : Cfg) (caffe : Caffe).

Lemma preserves_call_method {A} (m : M session A) sw :
  preserves queue_puts (call_method m sw).
Proof. intros p. unfold call_method. by destruct (m _). Qed.

Lemma nd_call_method {A} (m : M session A) sw :
  no_diverge m -> no_diverge (call_method m sw).
Proof.
  intros Hm p p'. unfold call_method.
  pose proof (Hm (set_stderr (p_stderr p) (set_disk (p_disk p) sw)))
    as Hm'.
  destruct (m _) as [a s|e s|s]; [done|done|by destruct (Hm' s)].
Qed.

Lemma preserves_init prototxt roidb outdir uid rk means stds pre :
  preserves queue_puts
    (SolverWrapper_init cfg caffe prototxt roidb outdir uid rk means stds
       pre).
Proof.
  unfold SolverWrapper_init, py_assert, log_call. repeat preserves_step.
Qed.

Lemma nd_init prototxt roidb outdir uid rk means stds pre :
  no_diverge
    (SolverWrapper_init cfg caffe prototxt roidb outdir uid rk means stds
       pre).
Proof.
  unfold SolverWrapper_init, py_assert, log_call. repeat nd_step.
Qed.

(** The session that [__init__] builds has the rank and the statistics
    it was given. *)
Lemma init_ok_inv prototxt roidb outdir uid rk means stds pre p sw p' :
  SolverWrapper_init cfg caffe prototxt roidb outdir uid rk means stds pre
    p = Ok sw p' ->
  rank sw = rk /\ solver_iter sw = 0 /\
  solver_param sw = read_solver_param caffe prototxt /\
  bbox_means sw = (if TRAIN_BBOX_REG cfg then means else None) /\
  bbox_stds sw = (if TRAIN_BBOX_REG cfg then stds else None).
Proof.
  unfold SolverWrapper_init. intros Hi.
  repeat (apply bind_ok_inv in Hi as (? & ? & _ & Hi)).
  unfold ret in Hi. by injection Hi as <- <-.
Qed.

Lemma nd_train_net prototxt roidb outdir uid gpus rk means stds pre mx :
  no_diverge
    (train_net cfg caffe prototxt roidb outdir uid gpus rk means stds pre
       mx).
Proof.
  unfold train_net, set_solver_count, log_call, getitem, queue_put.
  repeat first
    [ apply nd_init
    | apply nd_call_method, train_model_terminates
    | nd_step ].
Qed.

(** A worker of rank other than 0 leaves the result queue alone, however
    it ends. *)
Lemma train_net_nonroot_queue prototxt roidb outdir uid gpus rk means
    stds pre mx :
  rk <> 0%nat ->
  preserves queue_puts
    (train_net cfg caffe prototxt roidb outdir uid gpus rk means stds pre
       mx).
Proof.
  intros Hrk. unfold train_net, set_solver_count, log_call, getitem.
  rewrite (proj2 (Nat.eqb_neq _ _) Hrk).
  repeat first
    [ apply preserves_init | apply preserves_call_method
    | preserves_step ].
Qed.


(** When its assertions pass, [__init__] returns the initial session and
    leaves the queue, the files and stderr alone. *)
Lemma init_ok_run prototxt roidb outdir uid rk means stds pre p :
  (TRAIN_HAS_RPN cfg && TRAIN_BBOX_REG cfg &&
     TRAIN_BBOX_NORMALIZE_TARGETS cfg = true ->
   TRAIN_BBOX_NORMALIZE_TARGETS_PRECOMPUTED cfg = true) ->
  caffe_solver_count p * TRAIN_IMS_PER_BATCH cfg *
    iter_size (read_solver_param caffe prototxt) =
    TRAIN_REAL_BATCH_SIZE cfg ->
  layer_wise_reduce (read_solver_param caffe prototxt) = true ->
  exists p',
    SolverWrapper_init cfg caffe prototxt roidb outdir uid rk means stds
      pre p =
    Ok (initial_session cfg caffe prototxt outdir rk means stds pre p) p' /\
    queue_puts p' = queue_puts p /\ p_disk p' = p_disk p /\
    p_stderr p' = p_stderr p.
Proof.
  intros Hrpn Hprod Hlwr. unfold SolverWrapper_init.
  destruct (TRAIN_HAS_RPN cfg && TRAIN_BBOX_REG cfg &&
            TRAIN_BBOX_NORMALIZE_TARGETS cfg);
    [rewrite (Hrpn eq_refl)|];
    destruct pre; run_init;
    rewrite (proj2 (Z.eqb_eq _ _) Hprod), Hlwr;
    eexists; (split; [reflexivity|]); done.
Qed.

(** The root worker on a clean initial session: it returns, having put
    the checkpoint paths of the whole run on the queue. *)
Lemma train_net_root_runs prototxt roidb outdir uid gpus means stds pre
    mx p :
  gpus <> [] ->
  (TRAIN_HAS_RPN cfg && TRAIN_BBOX_REG cfg &&
     TRAIN_BBOX_NORMALIZE_TARGETS cfg = true ->
   TRAIN_BBOX_NORMALIZE_TARGETS_PRECOMPUTED cfg = true) ->
  Z.of_nat (length gpus) * TRAIN_IMS_PER_BATCH cfg *
    iter_size (read_solver_param caffe prototxt) =
    TRAIN_REAL_BATCH_SIZE cfg ->
  layer_wise_reduce (read_solver_param caffe prototxt) = true ->
  TRAIN_SNAPSHOT_ITERS cfg <> 0 ->
  (forall i ps, bbox_dims (sgd_update caffe i ps) = bbox_dims ps) ->
  clean cfg (initial_session cfg caffe prototxt outdir 0 means stds pre p)
  ->
  exists p',
    train_net cfg caffe prototxt roidb outdir uid gpus 0 means stds pre mx
      p = Ok tt p' /\
    queue_puts p' =
      (queue_puts p ++
       [map (checkpoint_path cfg
               (initial_session cfg caffe prototxt outdir 0 means stds
                  pre p))
          (snapshot_iters cfg 0 mx)])%list.
Proof.
  intros Hg Hrpn Hprod Hlwr Hint Hupd Hclean.
  destruct gpus as [|dev gpus']; [done|].
  unfold train_net.
  cbv [bind log_call set_solver_count modify ret getitem lookup
       list_lookup].
  cbn [caffe_calls caffe_solver_count queue_puts p_disk p_writable
       p_stderr].
  match goal with
  | |- context [SolverWrapper_init _ _ _ _ _ _ _ _ _ _ ?q] =>
      destruct (init_ok_run prototxt roidb outdir uid (Z.of_nat 0) means
                  stds pre q Hrpn Hprod Hlwr)
        as (p1 & -> & Hq1 & Hd1 & He1)
  end.
  unfold call_method. rewrite Hd1, He1.
  cbn [p_disk p_stderr p_writable].
  change (set_stderr _ (set_disk _ (initial_session _ _ _ _ _ _ _ _ _)))
    with (initial_session cfg caffe prototxt outdir 0 means stds pre p).
  destruct (train_model_clean cfg caffe Hint Hupd mx _ Hclean)
    as (s' & -> & _); [done|].
  cbn [fst Nat.eqb]. unfold queue_put, modify.
  eexists. split; [reflexivity|].
  cbn [queue_puts sync_out]. by rewrite Hq1.
Qed.
End WorkerFacts.

(** ** Claim about [SolverWrapper.__init__] *)

Section InitClaims.
Context `{Numeric} (cfg : Cfg) (caffe : Caffe).

(** C9. When construction reaches the batch-size check (the assertion on
    precomputed RPN statistics before it passes), [__init__] raises the
    AssertionError with the message '<product> vs <configured>' if and
    only if solver count * images per batch * iter_size differs from the
    configured real batch size; it does so right after building the
    solver, before any weights are loaded or the NCCL group is joined.
    When the two are equal, construction goes on to load pretrained
    weights, create the NCCL handle and broadcast. *)
Theorem init_batch_size_check prototxt roidb outdir uid rk means stds pre
    p :
  let product :=
    caffe_solver_count p * TRAIN_IMS_PER_BATCH cfg *
    iter_size (read_solver_param caffe prototxt) in
  let r :=
    SolverWrapper_init cfg caffe prototxt roidb outdir uid rk means stds
      pre p in
  (TRAIN_HAS_RPN cfg && TRAIN_BBOX_REG cfg &&
     TRAIN_BBOX_NORMALIZE_TARGETS cfg = true ->
   TRAIN_BBOX_NORMALIZE_TARGETS_PRECOMPUTED cfg = true) ->
  (product <> TRAIN_REAL_BATCH_SIZE cfg <->
   exists msg p', r = Raise (AssertionError (Some msg)) p') /\
  (product <> TRAIN_REAL_BATCH_SIZE cfg ->
   exists p',
     r = Raise (AssertionError
                  (Some (format_d product +:+ " vs " +:+
                         format_d (TRAIN_REAL_BATCH_SIZE cfg)))) p' /\
     caffe_calls p' = (caffe_calls p ++ [call_SGDSolver prototxt])%list) /\
  (product = TRAIN_REAL_BATCH_SIZE cfg ->
   exists p' rest,
     final_state r = p' /\
     caffe_calls p' =
       (caffe_calls p ++ [call_SGDSolver prototxt] ++
        match pre with Some m => [call_copy_from m] | None => [] end ++
        [call_NCCL uid; call_bcast; call_add_callback] ++ rest)%list).
Proof.
  intros product r Hrpn.
  destruct (product =? TRAIN_REAL_BATCH_SIZE cfg) eqn:E.
  - apply Z.eqb_eq in E.
    assert (Hr : exists p' rest o,
      r = o /\
      (forall msg q, o <> Raise (AssertionError (Some msg)) q) /\
      final_state o = p' /\
      caffe_calls p' =
        (caffe_calls p ++ [call_SGDSolver prototxt] ++
         match pre with Some m => [call_copy_from m] | None => [] end ++
         [call_NCCL uid; call_bcast; call_add_callback] ++ rest)%list).
    { subst r product. unfold SolverWrapper_init.
      destruct (TRAIN_HAS_RPN cfg && TRAIN_BBOX_REG cfg &&
                TRAIN_BBOX_NORMALIZE_TARGETS cfg);
        [rewrite (Hrpn eq_refl)|];
        destruct pre,
          (layer_wise_reduce (read_solver_param caffe prototxt)) eqn:El;
        run_init; rewrite (proj2 (Z.eqb_eq _ _) E), ?El;
        eexists _, _, _; (split; [reflexivity|]);
        cbn [final_state caffe_calls];
        (split; [discriminate|]); (split; [reflexivity|]);
        rewrite <- ?app_assoc; cbn [app]; reflexivity. }
    destruct Hr as (p' & rest & o & -> & Hno & Hfin & Hcalls).
    split; [|split]; [| done | by eauto].
    split; [done|]. intros (msg & q & Hr). by apply Hno in Hr.
  - apply Z.eqb_neq in E.
    assert (Hr : exists p',
      r = Raise (AssertionError
                   (Some (format_d product +:+ " vs " +:+
                          format_d (TRAIN_REAL_BATCH_SIZE cfg)))) p' /\
      caffe_calls p' = (caffe_calls p ++ [call_SGDSolver prototxt])%list).
    { subst r product. unfold SolverWrapper_init.
      destruct (TRAIN_HAS_RPN cfg && TRAIN_BBOX_REG cfg &&
                TRAIN_BBOX_NORMALIZE_TARGETS cfg);
        [rewrite (Hrpn eq_refl)|];
        run_init; rewrite (proj2 (Z.eqb_neq _ _) E);
        eexists; (split; [reflexivity|]); reflexivity. }
    destruct Hr as (p' & -> & Hcalls).
    split; [|split]; [| | done].
    + split; [eauto|done].
    + intros _. eauto.
Qed.
End InitClaims.

(** ** More on the workers *)

(** A step that keeps [f], followed by steps that keep [f] when they
    raise, keeps [f] when the sequence raises. *)
Lemma bind_raise_keeps {St A B X} (f : St -> X) (m : M St A)
    (k : A -> M St B) :
  preserves f m ->
  (forall a s e s', k a s = Raise e s' -> f s' = f s) ->
  forall s e s', bind m k s = Raise e s' -> f s' = f s.
Proof.
  intros Hm Hk s e s'. unfold bind. specialize (Hm s).
  destruct (m s) as [a s1|e1 s1|s1]; [|by intros [= <- <-]|done].
  intros Hr. apply Hk in Hr. congruence.
Qed.

Section WorkerHelpers.
Context `{Numeric} (cfg : Cfg) (caffe : Caffe).

(** A root worker that raises has put nothing on the queue. *)
Lemma train_net_raise_no_put prototxt roidb outdir uid gpus rk means stds
    pre mx p e p' :
  train_net cfg caffe prototxt roidb outdir uid gpus rk means stds pre mx p
  = Raise e p' ->
  queue_puts p' = queue_puts p.
Proof.
  revert p e p'. unfold train_net, set_solver_count, log_call, getitem.
  repeat first
    [ apply bind_raise_keeps;
        [first [ apply preserves_init | apply preserves_call_method
               | repeat preserves_step ]
        |intros ?] ].
  intros p e p'. destruct (rk =? 0)%nat; discriminate.
Qed.

(** The Caffe calls of a construction that returns. *)
Lemma init_ok_calls prototxt roidb outdir uid rk means stds pre p sw p' :
  SolverWrapper_init cfg caffe prototxt roidb outdir uid rk means stds pre p
  = Ok sw p' ->
  caffe_calls p' =
    (caffe_calls p ++ [call_SGDSolver prototxt] ++
     match pre with Some m => [call_copy_from m] | None => [] end ++
     [call_NCCL uid; call_bcast; call_add_callback; call_after_backward;
      call_set_roidb roidb])%list.
Proof.
  unfold SolverWrapper_init.
  destruct (TRAIN_HAS_RPN cfg && TRAIN_BBOX_REG cfg &&
            TRAIN_BBOX_NORMALIZE_TARGETS cfg);
    [destruct (TRAIN_BBOX_NORMALIZE_TARGETS_PRECOMPUTED cfg)|];
    destruct pre,
      (layer_wise_reduce (read_solver_param caffe prototxt)) eqn:El;
    run_init; try discriminate;
    (destruct (_ =? TRAIN_REAL_BATCH_SIZE cfg); [|discriminate]);
    rewrite ?El; try discriminate;
    intros [= <- <-]; cbn [caffe_calls]; rewrite <- ?app_assoc;
    reflexivity.
Qed.

(** Training assigns only the iteration counter, the live parameters, the
    files and stderr: whatever else a session holds stays as it is,
    however the run ends. *)
Section Untouched.
Context {X : Type} (f : session -> X).
Hypothesis f_iter : forall i s, f (set_iter i s) = f s.
Hypothesis f_params : forall ps s, f (set_params ps s) = f s.
Hypothesis f_disk : forall d s, f (set_disk d s) = f s.
Hypothesis f_stderr : forall e s, f (set_stderr e s) = f s.

Lemma preserves_set_weight name w : preserves f (set_weight name w).
Proof.
  apply preserves_modify. intros s.
  destruct (net_params s !! name); [apply f_params|done].
Qed.

Lemma preserves_set_bias name b : preserves f (set_bias name b).
Proof.
  apply preserves_modify. intros s.
  destruct (net_params s !! name); [apply f_params|done].
Qed.

Lemma preserves_net_save fn : preserves f (net_save fn).
Proof.
  intros s. unfold net_save.
  destruct (fs_writable s fn); [apply f_disk|done].
Qed.

Lemma preserves_snapshot : preserves f (snapshot cfg).
Proof.
  unfold snapshot, py_assert, ndarray_attr, numpy.
  repeat first
    [ apply preserves_set_weight | apply preserves_set_bias
    | apply preserves_net_save | preserves_step ].
Qed.

Lemma preserves_train_body l : preserves f (train_body cfg caffe l).
Proof.
  unfold train_body, solver_step, py_mod, write_stderr.
  repeat first
    [ apply preserves_snapshot
    | apply preserves_modify; intros s; rewrite ?f_iter, ?f_params,
        ?f_stderr; reflexivity
    | preserves_step ].
Qed.

Lemma preserves_while n cond l :
  preserves f (while_ n cond (train_body cfg caffe) l).
Proof.
  revert l. induction n as [|n IH]; intros l s; cbn [while_].
  - by destruct (cond l s).
  - destruct (cond l s); [|done].
    pose proof (preserves_train_body l s) as Hb.
    destruct (train_body cfg caffe l s) as [l1 s1|e s1|s1]; [|done..].
    specialize (IH l1 s1). destruct (while_ n cond _ l1 s1); congruence.
Qed.

Lemma preserves_train_model max_iters :
  preserves f (train_model cfg caffe max_iters).
Proof.
  unfold train_model.
  repeat first
    [ apply preserves_while | apply preserves_snapshot | preserves_step ].
Qed.
End Untouched.
End WorkerHelpers.

(** ** The orchestrator *)

Section OrchestratorFacts.
Context `{Numeric} (cfg : Cfg) (caffe : Caffe).
Variable targets :
  list roidb_entry -> list roidb_entry * (list stat_t * list stat_t).
Variable uid : Z.
Variable child0 : process.
Variable pipe_fits : list string -> bool.

Lemma start_all_run mk ranks par :
  start_all mk ranks par =
  Ok (map mk ranks)
     {| stdout := stdout par;
        events := (events par ++
                   map (fun rank => ev_start (mk rank)) ranks)%list |}.
Proof.
  revert par. induction ranks as [|r ranks IH]; intros par.
  - cbn [start_all map ret]. rewrite app_nil_r. by destruct par.
  - cbn [start_all]. unfold bind at 1, emit, modify.
    unfold bind. rewrite IH. cbn [ret stdout events map].
    by rewrite <- app_assoc.
Qed.

(** Taken alone, a worker always ends. *)
Lemma run_alone_returns args :
  child_returns (run_alone cfg caffe child0 args) = true.
Proof.
  unfold run_alone.
  pose proof (nd_train_net cfg caffe (a_solver_prototxt args)
    (a_roidb args) (a_output_dir args) (a_nccl_uid args) (a_gpus args)
    (a_rank args) (a_bbox_means args) (a_bbox_stds args)
    (a_pretrained_model args) (a_max_iters args) child0) as Hnd.
  destruct (train_net _ _ _ _ _ _ _ _ _ _ _ _ _) as [a p|e p|p];
    [done|done|by destruct (Hnd p)].
Qed.

(** [worker_init] is the start of [train_net]. *)
Lemma run_alone_worker_init args :
  run_alone cfg caffe child0 args =
  match worker_init cfg caffe child0 args with
  | Ok sw p =>
      (r <- call_method (train_model cfg caffe (a_max_iters args)) sw ;;
       if (a_rank args =? 0)%nat then queue_put (fst r) else ret tt) p
  | Raise e p => Raise e p
  | Diverge p => Diverge p
  end.
Proof.
  unfold run_alone, worker_init, train_net.
  cbv [bind log_call set_solver_count modify ret getitem raise].
  destruct (a_gpus args !! a_rank args); [|done].
  by destruct (SolverWrapper_init _ _ _ _ _ _ _ _ _ _ _).
Qed.

Lemma join_all_run group procs par :
  join_all cfg caffe child0 pipe_fits group procs par =
  let par' :=
    {| stdout := stdout par;
       events :=
         (events par ++
          join_trace (child_exits cfg caffe child0 pipe_fits group)
            procs)%list |} in
  if forallb (child_exits cfg caffe child0 pipe_fits group) procs
  then Ok tt par' else Diverge par'.
Proof.
  revert par. induction procs as [|a procs IH]; intros par.
  - cbn [join_all join_trace forallb ret]. rewrite app_nil_r.
    by destruct par.
  - cbn [join_all join_trace forallb]. unfold bind, emit, modify.
    destruct (child_exits cfg caffe child0 pipe_fits group a);
      cbn [andb]; [|done].
    rewrite IH. cbn [stdout events].
    by rewrite <- app_assoc.
Qed.



(** The joins are joins. *)
Lemma join_trace_stats exits procs :
  stats_computations (join_trace exits procs) = 0%nat.
Proof.
  unfold stats_computations.
  induction procs as [|a procs IH]; [done|]. cbn [join_trace List.filter].
  by destruct (exits a).
Qed.

(** A child of rank other than 0 has put nothing on the queue, whether it
    ends or waits. *)
Lemma child_puts_nonroot group args :
  queue_puts child0 = [] -> a_rank args <> 0%nat ->
  child_puts cfg caffe child0 group args = [].
Proof.
  intros Hq Hrk. unfold child_puts.
  destruct (waits_forever _ _ _ _ _); [done|]. unfold run_alone.
  pose proof (train_net_nonroot_queue cfg caffe (a_solver_prototxt args)
    (a_roidb args) (a_output_dir args) (a_nccl_uid args) (a_gpus args)
    (a_rank args) (a_bbox_means args) (a_bbox_stds args)
    (a_pretrained_model args) (a_max_iters args) Hrk child0) as Hp.
  destruct (train_net _ _ _ _ _ _ _ _ _ _ _ _ _); cbn [final_state];
    congruence.
Qed.

(** So the queue holds what the root child has put. *)
Lemma queue_contents group (mk : nat -> spawn_args) n :
  queue_puts child0 = [] -> (forall r, a_rank (mk r) = r) ->
  concat (map (child_puts cfg caffe child0 group) (map mk (seq 0 n))) =
  match n with
  | O => []
  | S _ => child_puts cfg caffe child0 group (mk 0%nat)
  end.
Proof.
  intros Hq Hmk. destruct n as [|n]; [done|].
  cbn [seq map concat].
  assert (Hrest : forall k m,
    concat (map (child_puts cfg caffe child0 group)
              (map mk (seq (S k) m))) = []).
  { intros k m. revert k. induction m as [|m IH]; intros k; [done|].
    cbn [seq map concat]. rewrite IH, app_nil_r.
    apply child_puts_nonroot; [done|]. by rewrite Hmk. }
  by rewrite Hrest, app_nil_r.
Qed.


(** A root child that has raised has put nothing either. *)
Lemma child_puts_root_raised group args e q :
  queue_puts child0 = [] ->
  run_alone cfg caffe child0 args = Raise e q ->
  child_puts cfg caffe child0 group args = [].
Proof.
  intros Hq Hrun. unfold child_puts.
  destruct (waits_forever _ _ _ _ _); [done|]. rewrite Hrun.
  cbn [final_state]. unfold run_alone in Hrun.
  apply train_net_raise_no_put in Hrun. congruence.
Qed.

(** The second half of the orchestrator: start the children, join them,
    read the queue. *)
Lemma fan_in_run (mk : nat -> spawn_args) n par :
  (forall r, a_rank (mk r) = r) ->
  let group := map mk (seq 0 n) in
  let exits := child_exits cfg caffe child0 pipe_fits group in
  let par' :=
    {| stdout :=
         (stdout par ++
          if forallb exits group then ["done solving"] else [])%list;
       events :=
         (events par ++ map (fun rank => ev_start (mk rank)) (seq 0 n) ++
          join_trace exits group ++
          if forallb exits group then [ev_queue_get] else [])%list |} in
  (procs <- start_all mk (seq 0 n) ;;
   join_all cfg caffe child0 pipe_fits procs procs ;;;
   py_print "done solving" ;;;
   queue_get cfg caffe child0 procs) par =
  if forallb exits group then
    match concat (map (child_puts cfg caffe child0 group) group) with
    | v :: _ => Ok v par'
    | [] => Diverge par'
    end
  else Diverge par'.
Proof.
  intros Hmk group exits par'. subst par'.
  unfold bind at 1. rewrite start_all_run. fold group.
  unfold bind at 1. rewrite join_all_run. cbv zeta. fold exits.
  cbn [stdout events].
  destruct (forallb exits group) eqn:Eall.
  - unfold bind at 1, py_print at 1, modify.
    unfold queue_get, bind, emit, modify. cbn [stdout events].
    destruct (concat _); rewrite <- !app_assoc; reflexivity.
  - by rewrite <- !app_assoc, !app_nil_r.
Qed.

(** A run of the orchestrator whose filtering returns: the events, the
    lines printed, and the outcome. *)
Lemma multi_gpus_run prototxt roidb outdir gpus pre mx par roidb_f out :
  filter_roidb cfg roidb (stdout par) = Ok roidb_f out ->
  let mk := worker_args cfg targets uid prototxt roidb_f outdir gpus pre
              mx in
  let group := map mk (seq 0 (length gpus)) in
  let exits := child_exits cfg caffe child0 pipe_fits group in
  exists par',
    events par' =
      (events par ++
       orchestration cfg roidb roidb_f mk (length gpus) exits)%list /\
    stdout par' =
      (out ++ ["Solving..."] ++
       (if TRAIN_BBOX_REG cfg
        then ["Computing bounding-box regression targets..."; "done"]
        else []) ++
       (if forallb exits group then ["done solving"] else []))%list /\
    train_net_multi_gpus cfg caffe targets uid child0 pipe_fits prototxt
      roidb outdir gpus pre mx par =
    if forallb exits group then
      match concat (map (child_puts cfg caffe child0 group) group) with
      | v :: _ => Ok v par'
      | [] => Diverge par'
      end
    else Diverge par'.
Proof.
  intros Hf mk group exits. unfold train_net_multi_gpus.
  unfold bind at 1, emit at 1, modify.
  unfold bind at 1, with_stdout. cbn [stdout events]. rewrite Hf.
  unfold bind at 1, emit at 1, modify.
  unfold bind at 1, py_print at 1, modify. cbn [stdout events].
  subst exits group mk.
  unfold orchestration, fan_out, worker_args, handed_roidb, handed_means,
    handed_stds.
  destruct (TRAIN_BBOX_REG cfg) eqn:Ereg.
  - unfold bind at 1. unfold bind at 1, py_print at 1, modify.
    unfold bind at 1, emit at 1, modify.
    unfold bind at 1, py_print at 1, modify. cbn [ret stdout events].
    rewrite fan_in_run by done. cbv zeta. cbn [stdout events].
    eexists. split; [|split]; [| |reflexivity];
      cbn [events stdout]; rewrite <- ?app_assoc; reflexivity.
  - unfold bind at 1. cbn [ret].
    rewrite fan_in_run by done. cbv zeta. cbn [stdout events].
    eexists. split; [|split]; [| |reflexivity];
      cbn [events stdout]; rewrite <- ?app_assoc; reflexivity.
Qed.
End OrchestratorFacts.

(** ** Healthy groups *)

Section HealthyGroup.
Context `{Numeric} (cfg : Cfg) (caffe : Caffe).
Variable child0 : process.
Variable pipe_fits : list string -> bool.

(** The sync points of a worker whose construction passes its
    assertions: the NCCL handle and the broadcast, then its solver
    steps. *)
Lemma sync_points_init_ok prototxt roidb outdir uid gpus rk dev means stds
    pre mx :
  gpus !! rk = Some dev ->
  (TRAIN_HAS_RPN cfg && TRAIN_BBOX_REG cfg &&
     TRAIN_BBOX_NORMALIZE_TARGETS cfg = true ->
   TRAIN_BBOX_NORMALIZE_TARGETS_PRECOMPUTED cfg = true) ->
  Z.of_nat (length gpus) * TRAIN_IMS_PER_BATCH cfg *
    iter_size (read_solver_param caffe prototxt) =
    TRAIN_REAL_BATCH_SIZE cfg ->
  layer_wise_reduce (read_solver_param caffe prototxt) = true ->
  sync_points cfg caffe child0
    {| a_solver_prototxt := prototxt; a_roidb := roidb;
       a_output_dir := outdir; a_nccl_uid := uid; a_gpus := gpus;
       a_rank := rk; a_bbox_means := means; a_bbox_stds := stds;
       a_pretrained_model := pre; a_max_iters := mx |} =
  (length (List.filter is_collective (caffe_calls child0)) + 2 +
   steps_taken cfg caffe mx
     (initial_session cfg caffe prototxt outdir (Z.of_nat rk) means stds
        pre child0))%nat.
Proof.
  intros Hdev Hrpn Hprod Hlwr. unfold sync_points, worker_init.
  cbn [a_solver_prototxt a_roidb a_output_dir a_nccl_uid a_gpus a_rank
       a_bbox_means a_bbox_stds a_pretrained_model a_max_iters].
  cbv [bind log_call set_solver_count modify ret getitem].
  rewrite Hdev.
  cbn [caffe_calls caffe_solver_count queue_puts p_disk p_writable
       p_stderr].
  match goal with
  | |- context [SolverWrapper_init _ _ _ _ _ _ _ _ _ _ ?q] =>
      destruct (init_ok_run cfg caffe prototxt roidb outdir uid
                  (Z.of_nat rk) means stds pre q Hrpn Hprod Hlwr)
        as (p1 & Hi & _ & Hd1 & He1);
      pose proof (init_ok_calls cfg caffe _ _ _ _ _ _ _ _ _ _ _ Hi)
        as Hcalls
  end.
  rewrite Hi, Hd1, He1, Hcalls.
  cbn [p_disk p_stderr p_writable caffe_calls].
  change (set_stderr _ (set_disk _ (initial_session _ _ _ _ _ _ _ _ _)))
    with (initial_session cfg caffe prototxt outdir (Z.of_nat rk) means
            stds pre child0).
  rewrite !List.filter_app, !length_app.
  destruct pre; cbn [List.filter is_collective length app]; lia.
Qed.

Lemma healthy_sync_points prototxt roidb outdir uid gpus rk dev means stds
    pre mx :
  gpus !! rk = Some dev ->
  (TRAIN_HAS_RPN cfg && TRAIN_BBOX_REG cfg &&
     TRAIN_BBOX_NORMALIZE_TARGETS cfg = true ->
   TRAIN_BBOX_NORMALIZE_TARGETS_PRECOMPUTED cfg = true) ->
  Z.of_nat (length gpus) * TRAIN_IMS_PER_BATCH cfg *
    iter_size (read_solver_param caffe prototxt) =
    TRAIN_REAL_BATCH_SIZE cfg ->
  layer_wise_reduce (read_solver_param caffe prototxt) = true ->
  solver_iter
    (final_state
       (train_model cfg caffe mx
          (initial_session cfg caffe prototxt outdir (Z.of_nat rk) means
             stds pre child0))) = Z.max 0 mx ->
  sync_points cfg caffe child0
    {| a_solver_prototxt := prototxt; a_roidb := roidb;
       a_output_dir := outdir; a_nccl_uid := uid; a_gpus := gpus;
       a_rank := rk; a_bbox_means := means; a_bbox_stds := stds;
       a_pretrained_model := pre; a_max_iters := mx |} =
  (length (List.filter is_collective (caffe_calls child0)) + 2 +
   Z.to_nat (Z.max 0 mx))%nat.
Proof.
  intros Hdev Hrpn Hprod Hlwr Hfin.
  rewrite (sync_points_init_ok _ _ _ _ _ _ dev) by done.
  unfold steps_taken. rewrite Hfin. cbn [solver_iter initial_session].
  lia.
Qed.
End HealthyGroup.

(** ** Claims about the process fan-out *)

Section FanOutClaims.
Context `{Numeric} (cfg : Cfg) (caffe : Caffe).
Variable targets :
  list roidb_entry -> list roidb_entry * (list stat_t * list stat_t).
Variable uid : Z.
Variable child0 : process.
Variable pipe_fits : list string -> bool.

(** In a group whose workers all pass the assertions of [__init__] and
    whose root session is clean, every worker enters the same sync
    points, so that none is left waiting. *)
Lemma healthy_group_runs prototxt roidb_f outdir gpus pre mx :
  (TRAIN_HAS_RPN cfg && TRAIN_BBOX_REG cfg &&
     TRAIN_BBOX_NORMALIZE_TARGETS cfg = true ->
   TRAIN_BBOX_NORMALIZE_TARGETS_PRECOMPUTED cfg = true) ->
  Z.of_nat (length gpus) * TRAIN_IMS_PER_BATCH cfg *
    iter_size (read_solver_param caffe prototxt) =
    TRAIN_REAL_BATCH_SIZE cfg ->
  layer_wise_reduce (read_solver_param caffe prototxt) = true ->
  TRAIN_SNAPSHOT_ITERS cfg <> 0 ->
  (forall i ps, bbox_dims (sgd_update caffe i ps) = bbox_dims ps) ->
  clean cfg
    (initial_session cfg caffe prototxt outdir 0
       (handed_means cfg targets roidb_f) (handed_stds cfg targets roidb_f)
       pre child0) ->
  let mk := worker_args cfg targets uid prototxt roidb_f outdir gpus pre
              mx in
  let group := map mk (seq 0 (length gpus)) in
  forall a, In a group ->
    waits_forever cfg caffe child0 group a = false.
Proof.
  intros Hrpn Hprod Hlwr Hint Hupd Hclean mk group.
  assert (Hsync : forall r, (r < length gpus)%nat ->
    sync_points cfg caffe child0 (mk r) =
    (length (List.filter is_collective (caffe_calls child0)) + 2 +
     Z.to_nat (Z.max 0 mx))%nat).
  { intros r Hr.
    destruct (lookup_lt_is_Some_2 gpus r Hr) as [dev Hdev].
    apply (healthy_sync_points cfg caffe child0 prototxt _ outdir uid gpus
             r dev _ _ pre mx Hdev Hrpn Hprod Hlwr).
    destruct r as [|r].
    - change (Z.of_nat 0) with 0.
      destruct (train_model_clean cfg caffe Hint Hupd mx _ Hclean)
        as (s' & Hrun & _ & Hi & _); [done|].
      rewrite Hrun. cbn [final_state]. by rewrite Hi.
    - destruct Hclean as (_ & Hd & _).
      destruct (train_model_nonroot cfg caffe mx
                  (initial_session cfg caffe prototxt outdir
                     (Z.of_nat (S r)) (handed_means cfg targets roidb_f)
                     (handed_stds cfg targets roidb_f) pre child0))
        as (s' & Hrun & _ & Hi & _);
        [cbn [rank initial_session]; lia|done|].
      rewrite Hrun. cbn [final_state]. by rewrite Hi. }
  intros a Hin. apply not_true_is_false. intros Hw.
  unfold waits_forever in Hw. apply existsb_exists in Hw
    as (peer & Hpeer & Hlt).
  apply in_map_iff in Hin as (r & <- & Hr%in_seq).
  apply in_map_iff in Hpeer as (r' & <- & Hr'%in_seq).
  rewrite !Hsync in Hlt by lia. apply Nat.ltb_lt in Hlt. lia.
Qed.

(** C6. With bounding-box regression enabled and a roidb that the filter
    accepts, the parent computes the statistics exactly once, on the
    filtered roidb, after the filtering and the new NCCL uid and before it
    starts the first child; nothing that follows the starts in its trace
    computes them.  Every child is started with the pair which that one
    computation returned and with the roidb it normalized; the session a
    child constructs holds this pair, and training, however it ends,
    leaves it as it was given: no worker computes the statistics again. *)
Theorem stats_computed_once_when_enabled prototxt roidb outdir gpus pre mx
    par roidb_f out :
  TRAIN_BBOX_REG cfg = true ->
  filter_roidb cfg roidb (stdout par) = Ok roidb_f out ->
  let mk := worker_args cfg targets uid prototxt roidb_f outdir gpus pre
              mx in
  let tr := events (final_state
              (train_net_multi_gpus cfg caffe targets uid child0 pipe_fits
                 prototxt roidb outdir gpus pre mx par)) in
  (exists rest,
     tr = (events par ++
           [ev_filter_roidb roidb; ev_new_uid;
            ev_add_bbox_regression_targets roidb_f] ++
           map (fun rank => ev_start (mk rank)) (seq 0 (length gpus)) ++
           rest)%list /\
     stats_computations rest = 0%nat) /\
  stats_computations tr = (stats_computations (events par) + 1)%nat /\
  (forall rank,
     a_roidb (mk rank) = fst (targets roidb_f) /\
     a_bbox_means (mk rank) = Some (fst (snd (targets roidb_f))) /\
     a_bbox_stds (mk rank) = Some (snd (snd (targets roidb_f)))) /\
  (forall rank p sw p',
     SolverWrapper_init cfg caffe prototxt (a_roidb (mk rank)) outdir uid
       (Z.of_nat rank) (a_bbox_means (mk rank)) (a_bbox_stds (mk rank))
       pre p = Ok sw p' ->
     bbox_means sw = Some (fst (snd (targets roidb_f))) /\
     bbox_stds sw = Some (snd (snd (targets roidb_f)))) /\
  (forall max_iters,
     preserves bbox_means (train_model cfg caffe max_iters) /\
     preserves bbox_stds (train_model cfg caffe max_iters)).
Proof.
  intros Hreg Hf mk tr.
  destruct (multi_gpus_run cfg caffe targets uid child0 pipe_fits prototxt
              roidb outdir gpus pre mx par roidb_f out Hf)
    as (par' & Hev & _ & Hrun).
  cbv zeta in Hev, Hrun. fold mk in Hev, Hrun.
  assert (Htr : tr = events par').
  { subst tr. rewrite Hrun.
    destruct (forallb _ _); [|done]. by destruct (concat _). }
  assert (Hstarts : forall l : list nat,
    stats_computations (map (fun rank => ev_start (mk rank)) l) = 0%nat).
  { unfold stats_computations. induction l as [|r l IH]; [done|].
    cbn [map List.filter]. exact IH. }
  assert (Hrest : forall exits,
    stats_computations
      (join_trace exits (map mk (seq 0 (length gpus))) ++
       (if forallb exits (map mk (seq 0 (length gpus)))
        then [ev_queue_get] else []))%list = 0%nat).
  { intros exits. unfold stats_computations.
    rewrite List.filter_app, length_app.
    fold (stats_computations
            (join_trace exits (map mk (seq 0 (length gpus))))).
    rewrite join_trace_stats. by destruct (forallb exits _). }
  rewrite Htr, Hev. unfold orchestration, fan_out. rewrite Hreg.
  split; [|split; [|split; [|split]]].
  - eexists. split; [|apply Hrest].
    rewrite <- !app_assoc. reflexivity.
  - assert (Happ : forall a b : list event,
      stats_computations (a ++ b) =
      (stats_computations a + stats_computations b)%nat).
    { intros a b. unfold stats_computations.
      by rewrite List.filter_app, length_app. }
    rewrite !Happ, Hstarts, join_trace_stats.
    destruct (forallb _ _); cbn; lia.
  - intros rank. unfold mk, worker_args, handed_roidb, handed_means,
      handed_stds.
    cbn [a_roidb a_bbox_means a_bbox_stds]. by rewrite Hreg.
  - intros rank p sw p' Hi.
    apply init_ok_inv in Hi as (_ & _ & _ & -> & ->).
    unfold mk, worker_args, handed_means, handed_stds.
    cbn [a_bbox_means a_bbox_stds]. by rewrite Hreg.
  - intros max_iters. split; by apply preserves_train_model.
Qed.

End FanOutClaims.

(** * Further properties *)

(** ** [snapshot]: failures, frame, repetition *)

Lemma broadcast_mismatch {A B C} (f : A -> B -> C) xs ys :
  length xs <> length ys -> length xs <> 1%nat -> length ys <> 1%nat ->
  broadcast f xs ys = None.
Proof.
  intros Hne Hx Hy. unfold broadcast.
  rewrite (proj2 (Nat.eqb_neq _ _) Hne).
  destruct xs as [|x [|x2 xs]], ys as [|y [|y2 ys]]; cbn in *; done.
Qed.

Section SnapshotMore.
Context `{Numeric} (cfg : Cfg).

Lemma persisted_params_set_disk d s :
  persisted_params cfg (set_disk d s) = persisted_params cfg s.
Proof. done. Qed.

(** X1. Taking the same snapshot again changes nothing: the file is rewritten
    with the same content. *)
Theorem snapshot_twice s p s' :
  snapshot cfg s = Ok p s' -> snapshot cfg s' = Ok p s'.
Proof.
  intros Hs.
  destruct (snapshot_ok_spec _ _ _ _ Hs)
    as (Hr & -> & Hw & saved & Hp & ->).
  rewrite (snapshot_run cfg _ saved); [| done | done].
  change (snapshot_filename cfg (set_disk _ s))
    with (snapshot_filename cfg s).
  change (fs_writable (set_disk _ s)) with (fs_writable s).
  rewrite Hw. f_equal. unfold set_disk. sess.
  by rewrite insert_insert_eq.
Qed.

(** X2. A returning snapshot writes the persisted view to the returned path
    and touches nothing else: every other file, stderr and the
    attributes of the session stay as they were. *)
Theorem snapshot_frame s p s' :
  snapshot cfg s = Ok p s' ->
  disk s' !! p = persisted_params cfg s /\
  (forall q, q <> p -> disk s' !! q = disk s !! q) /\
  stderr s' = stderr s /\ same_config s s'.
Proof.
  intros Hs.
  destruct (snapshot_ok_spec _ _ _ _ Hs)
    as (Hr & -> & Hw & saved & Hp & ->).
  sess. rewrite lookup_insert_eq, Hp. split; [done|].
  split; [|split; [done|by repeat split]].
  intros q Hq. by rewrite lookup_insert_ne.
Qed.

(** X3. When bounding-box regression or target normalization is off, or the
    net has no 'bbox_pred' group, the checkpoint holds the live parameters
    as they are, whatever the statistics of the session. *)
Theorem snapshot_without_rescaling s :
  TRAIN_BBOX_REG cfg = false \/
  TRAIN_BBOX_NORMALIZE_TARGETS cfg = false \/
  net_params s !! "bbox_pred" = None ->
  rank s = 0 ->
  fs_writable s (snapshot_filename cfg s) = true ->
  exists s',
    snapshot cfg s = Ok (snapshot_filename cfg s) s' /\
    disk s' !! snapshot_filename cfg s = Some (net_params s).
Proof.
  intros Hoff Hr Hw.
  assert (Hsc : scale_bbox_params cfg s = false).
  { unfold scale_bbox_params.
    destruct Hoff as [->|[->|Hnone]]; [done|by rewrite andb_false_r|].
    rewrite Hnone, bool_decide_eq_false_2 by (by intros [? ?]).
    by rewrite andb_false_r. }
  rewrite (snapshot_run cfg s _ Hr (persisted_params_unscaled cfg s Hsc)), Hw.
  eexists. split; [done|]. sess. by rewrite lookup_insert_eq.
Qed.

(** X4. A session without standard deviations cannot rescale: [snapshot]
    raises TypeError before it changes anything. *)
Theorem snapshot_without_stats s l :
  TRAIN_BBOX_REG cfg = true ->
  TRAIN_BBOX_NORMALIZE_TARGETS cfg = true ->
  net_params s !! "bbox_pred" = Some l ->
  bbox_stds s = None ->
  rank s = 0 ->
  snapshot cfg s = Raise TypeError s.
Proof.
  intros Hreg Hnorm Hl Hstds Hr.
  unfold snapshot, bind, get, py_assert, scale_bbox_params.
  rewrite Hr, Hreg, Hnorm, Hl, Hstds.
  rewrite bool_decide_eq_true_2 by eauto. done.
Qed.

(** X5. A bias that numpy cannot broadcast against the standard deviations
    stops [snapshot] with ValueError after the weight has been overwritten:
    the live weight stays un-normalized, the bias and the file system are
    untouched. *)
Theorem snapshot_bias_mismatch s l stds :
  TRAIN_BBOX_REG cfg = true ->
  TRAIN_BBOX_NORMALIZE_TARGETS cfg = true ->
  net_params s !! "bbox_pred" = Some l ->
  bbox_stds s = Some stds ->
  length stds = length (weight l) ->
  length (bias l) <> length stds ->
  length (bias l) <> 1%nat -> length stds <> 1%nat ->
  rank s = 0 ->
  exists s',
    snapshot cfg s = Raise ValueError s' /\
    net_params s' !! "bbox_pred" = Some (weight_rescaled l stds) /\
    (forall name, name <> "bbox_pred" ->
       net_params s' !! name = net_params s !! name) /\
    disk s' = disk s.
Proof.
  intros Hreg Hnorm Hl Hstds Hw Hb Hb1 Hs1 Hr.
  unfold snapshot, bind at 1, get. unfold bind at 1, py_assert.
  rewrite Hr. cbn [Z.eqb ret]. unfold bind at 1, scale_bbox_params.
  rewrite Hreg, Hnorm, Hl, Hstds.
  rewrite bool_decide_eq_true_2 by eauto. cbn [andb].
  unfold bind at 1, ndarray_attr. cbn [ret].
  unfold bind at 1, numpy, scale_weight.
  rewrite (broadcast_same_length _ (weight l) stds) by done. cbn [ret].
  unfold bind at 1.
  rewrite (assign_same_length _ (weight l))
    by (rewrite length_zip_with; lia).
  cbn [ret]. unfold bind at 1. rewrite (set_weight_some _ _ _ _ Hl).
  unfold bind at 1.
  rewrite (broadcast_mismatch _ (bias l) stds) by done.
  unfold raise. eexists. split; [reflexivity|]. sess.
  rewrite lookup_insert_eq. split; [|split; [|done]].
  - unfold weight_rescaled. do 2 f_equal.
    rewrite map_zip_with. apply zip_with_ext; [|done..].
    intros row sd. by rewrite map_map.
  - intros name Hne. by rewrite lookup_insert_ne.
Qed.
End SnapshotMore.

(** ** [train_model]: failures, files and diagnostics *)

Section TrainMore.
Context `{Numeric} (cfg : Cfg) (caffe : Caffe).

(** X6. A display interval of 0 stops training with ZeroDivisionError after
    one solver step, on every rank: no diagnostic line, no snapshot. *)
Theorem train_model_zero_display max_iters s :
  display (solver_param s) = 0 ->
  solver_iter s < max_iters ->
  train_model cfg caffe max_iters s =
  Raise ZeroDivisionError (stepped caffe s).
Proof.
  intros Hd Hlt. unfold train_model, bind at 1, get. unfold bind at 1.
  destruct (Z.to_nat (max_iters - solver_iter s)) as [|n] eqn:En; [lia|].
  cbn [while_]. rewrite (proj2 (Z.ltb_lt _ _) Hlt).
  by rewrite (train_body_zero_display _ _ _ _ Hd).
Qed.

(** X7. A snapshot interval of 0 stops the root with ZeroDivisionError in the
    first pass of the loop, after the step and the diagnostic line: no
    file is written. *)
Theorem train_model_zero_interval max_iters s :
  rank s = 0 ->
  display (solver_param s) <> 0 ->
  TRAIN_SNAPSHOT_ITERS cfg = 0 ->
  solver_iter s < max_iters ->
  train_model cfg caffe max_iters s =
    Raise ZeroDivisionError (after_step caffe s) /\
  disk (after_step caffe s) = disk s.
Proof.
  intros Hr Hd Hi Hlt. split; [|apply after_step_disk].
  unfold train_model, bind at 1, get. unfold bind at 1.
  destruct (Z.to_nat (max_iters - solver_iter s)) as [|n] eqn:En; [lia|].
  cbn [while_]. rewrite (proj2 (Z.ltb_lt _ _) Hlt).
  rewrite (train_body_eq _ _ _ _ Hd), Hr. change (0 =? 0) with true.
  cbv beta iota. unfold bind, py_mod. by rewrite Hi.
Qed.

(** X8. A run that returns has written a file at every path it returns, and
    has left every other file as it was. *)
Theorem train_model_files max_iters s paths s' :
  train_model cfg caffe max_iters s = Ok paths s' ->
  (forall p, p ∈ paths -> is_Some (disk s' !! p)) /\
  (forall q, q ∉ paths -> disk s' !! q = disk s !! q).
Proof.
  intros Hm. apply train_model_ok_inv in Hm as (l & s1 & Hw & Hend).
  pose (I := fun (l : Z * list string) (st : session) =>
    (forall p, p ∈ snd l -> is_Some (disk st !! p)) /\
    (forall q, q ∉ snd l -> disk st !! q = disk s !! q)).
  assert (HI : I l s1 /\ (solver_iter s1 <? max_iters) = false).
  { refine (while_invariant I (fun _ s => solver_iter s <? max_iters)
              (train_body cfg caffe) _ _ _ _ _ _ _ Hw).
    - clear -s. intros l0 st l' st' [Hin Hout] _ Hb.
      apply train_body_ok_state in Hb as
        (_ & [[-> ->]|(_ & saved & _ & -> & ->)]).
      + split; intros p Hp; rewrite after_step_disk; auto.
      + split; sess; rewrite after_step_disk.
        * intros p [Hp| ->%list_elem_of_singleton]%elem_of_app.
          -- destruct (decide (p = snapshot_filename cfg (after_step caffe st)))
               as [->|Hne].
             ++ by rewrite lookup_insert_eq.
             ++ rewrite lookup_insert_ne by done. auto.
          -- by rewrite lookup_insert_eq.
        * intros q Hq. rewrite not_elem_of_app in Hq. destruct Hq as [Hq Hq'].
          rewrite lookup_insert_ne; [auto|].
          intros <-. apply Hq', list_elem_of_singleton. done.
    - split; [by intros p ?%elem_of_nil|done]. }
  destruct HI as [[Hin Hout] _].
  destruct Hend as [(-> & -> & _)|(_ & _ & saved & _ & -> & ->)];
    [done|]. sess. split.
  - intros p [Hp| ->%list_elem_of_singleton]%elem_of_app.
    + destruct (decide (p = snapshot_filename cfg s1)) as [->|Hne].
      * by rewrite lookup_insert_eq.
      * rewrite lookup_insert_ne by done. auto.
    + by rewrite lookup_insert_eq.
  - intros q Hq. rewrite not_elem_of_app in Hq. destruct Hq as [Hq Hq'].
    rewrite lookup_insert_ne; [auto|].
    intros <-. apply Hq', list_elem_of_singleton. done.
Qed.

(** X9. On the root, a run that returns ends at the later of the starting
    iteration and [max_iters], and the last path it returns is the
    checkpoint of that iteration. *)
Theorem train_model_last_path max_iters s paths s' :
  rank s = 0 -> 0 <= solver_iter s ->
  train_model cfg caffe max_iters s = Ok paths s' ->
  solver_iter s' = Z.max (solver_iter s) max_iters /\
  list.last paths = Some (snapshot_filename cfg s').
Proof.
  intros Hr Hpos Hm.
  apply train_model_ok_inv in Hm as (l & s1 & Hw & Hend).
  pose (I := fun (l : Z * list string) (st : session) =>
    same_config s st /\
    solver_iter s <= solver_iter st <= Z.max (solver_iter s) max_iters /\
    (fst l = -1 \/
     list.last (snd l) = Some (checkpoint_path cfg s (fst l)))).
  assert (HI : I l s1 /\ (solver_iter s1 <? max_iters) = false).
  { refine (while_invariant I (fun _ s => solver_iter s <? max_iters)
              (train_body cfg caffe) _ _ _ _ _ _ _ Hw).
    - clear -s. intros l0 st l' st' (Hc & Hi & Hl) Hcond Hb.
      apply Z.ltb_lt in Hcond.
      pose proof (after_step_config caffe st) as Hc'.
      pose proof (after_step_iter caffe st) as Hi'.
      apply train_body_ok_state in Hb as
        (_ & [[-> ->]|(_ & saved & _ & -> & ->)]).
      + split; [by eapply same_config_trans|]. split; [lia|done].
      + split; [by eapply same_config_trans|]. sess. split; [lia|].
        right. rewrite last_snoc. f_equal.
        rewrite <- checkpoint_path_here, Hi'.
        apply checkpoint_path_config. by eapply same_config_trans.
    - split; [apply same_config_refl|]. split; [lia|by left]. }
  destruct HI as [(Hc & Hi & Hl) Hcond]. apply Z.ltb_ge in Hcond.
  destruct Hend as [(-> & -> & E)|(_ & _ & saved & _ & -> & ->)].
  - split; [lia|].
    pose proof Hc as (_ & Hr1 & _). rewrite Hr1, Hr in E.
    change (0 =? 0) with true in E. cbn [andb] in E.
    apply negb_false_iff, Z.eqb_eq in E.
    destruct Hl as [Hl|Hl]; [lia|]. rewrite Hl, E. f_equal.
    rewrite <- checkpoint_path_here. symmetry.
    by apply checkpoint_path_config.
  - sess. split; [lia|]. by rewrite last_snoc.
Qed.

Lemma diagnostic_iters_nil d i0 max_iters :
  max_iters <= i0 -> diagnostic_iters d i0 max_iters = [].
Proof. intros Hle. unfold diagnostic_iters. by rewrite seqZ_nil by lia. Qed.

Lemma diagnostic_iters_cons d i0 max_iters :
  i0 < max_iters ->
  diagnostic_iters d i0 max_iters =
  ((if (i0 + 1) mod (10 * d) =? 0 then [i0 + 1] else []) ++
   diagnostic_iters d (i0 + 1) max_iters)%list.
Proof.
  intros Hlt. unfold diagnostic_iters.
  rewrite (seqZ_cons (i0 + 1)) by lia. cbn [List.filter].
  replace (Z.pred (max_iters - i0)) with (max_iters - (i0 + 1)) by lia.
  replace (Z.succ (i0 + 1)) with (i0 + 1 + 1) by lia.
  by destruct (_ =? 0).
Qed.

Lemma while_stderr max_iters n : forall l s l' s',
  n = Z.to_nat (max_iters - solver_iter s) ->
  while_ n (fun _ s => solver_iter s <? max_iters) (train_body cfg caffe)
    l s = Ok l' s' ->
  stderr s' =
  (stderr s ++
   map (fun i => (rank s, i))
     (diagnostic_iters (display (solver_param s)) (solver_iter s)
        max_iters))%list.
Proof.
  induction n as [|n IH]; intros l s l' s' Hn; cbn [while_];
    destruct (solver_iter s <? max_iters) eqn:E; try done.
  - apply Z.ltb_ge in E. intros [= <- <-].
    by rewrite diagnostic_iters_nil, app_nil_r.
  - apply Z.ltb_lt in E.
    destruct (train_body cfg caffe l s) as [l1 s1| |] eqn:Eb; try done.
    intros Hw.
    pose proof (after_step_config caffe s) as (_ & Hr & _ & _ & Hp & _).
    pose proof (after_step_iter caffe s) as Hi.
    pose proof (after_step_stderr caffe s) as He.
    assert (Hs1 : solver_iter s1 = solver_iter s + 1 /\ rank s1 = rank s /\
                  solver_param s1 = solver_param s /\
                  stderr s1 = stderr (after_step caffe s)).
    { apply train_body_ok_state in Eb as
        (_ & [[_ ->]|(_ & saved & _ & _ & ->)]); sess; by rewrite Hi. }
    destruct Hs1 as (Hi1 & Hr1 & Hp1 & He1).
    rewrite (IH l1 s1 l' s' ltac:(lia) Hw), He1, He, Hi1, Hr1, Hp1.
    rewrite (diagnostic_iters_cons _ (solver_iter s)) by done.
    rewrite map_app, <- app_assoc. do 2 f_equal.
    by destruct (_ =? 0).
  - apply Z.ltb_ge in E. intros [= <- <-].
    by rewrite diagnostic_iters_nil, app_nil_r.
Qed.

(** X10. A run that returns has appended to stderr one diagnostic line for
    every iteration it reached that is a multiple of ten display
    intervals, in order, and nothing else. *)
Theorem train_model_diagnostics max_iters s paths s' :
  train_model cfg caffe max_iters s = Ok paths s' ->
  stderr s' =
  (stderr s ++
   map (fun i => (rank s, i))
     (diagnostic_iters (display (solver_param s)) (solver_iter s)
        max_iters))%list.
Proof.
  intros Hm. apply train_model_ok_inv in Hm as (l & s1 & Hw & Hend).
  apply while_stderr in Hw; [|done].
  by destruct Hend as [(_ & -> & _)|(_ & _ & saved & _ & _ & ->)].
Qed.

Lemma while_params max_iters n : forall l s l' s',
  n = Z.to_nat (max_iters - solver_iter s) ->
  while_ n (fun _ s => solver_iter s <? max_iters) (train_body cfg caffe)
    l s = Ok l' s' ->
  net_params s' = params_after caffe s max_iters /\
  solver_iter s' = Z.max (solver_iter s) max_iters /\
  same_config s s'.
Proof.
  induction n as [|n IH]; intros l s l' s' Hn; cbn [while_];
    destruct (solver_iter s <? max_iters) eqn:E; try done.
  - apply Z.ltb_ge in E. intros [= <- <-]. unfold params_after.
    rewrite seqZ_nil by lia. split; [done|]. split; [lia|].
    apply same_config_refl.
  - apply Z.ltb_lt in E.
    destruct (train_body cfg caffe l s) as [l1 s1| |] eqn:Eb; try done.
    intros Hw.
    pose proof (after_step_config caffe s) as Hc.
    pose proof (after_step_iter caffe s) as Hi.
    assert (Hs1 : solver_iter s1 = solver_iter s + 1 /\
                  net_params s1 = net_params (after_step caffe s) /\
                  same_config s s1).
    { apply train_body_ok_state in Eb as
        (_ & [[_ ->]|(_ & saved & _ & _ & ->)]); sess; by rewrite Hi. }
    destruct Hs1 as (Hi1 & Hp1 & Hc1).
    destruct (IH l1 s1 l' s' ltac:(lia) Hw) as (Hp & Hi' & Hc').
    split; [|split].
    + rewrite Hp. by apply params_after_step.
    + lia.
    + by eapply same_config_trans.
  - apply Z.ltb_ge in E. intros [= <- <-]. unfold params_after.
    rewrite seqZ_nil by lia. split; [done|]. split; [lia|].
    apply same_config_refl.
Qed.

(** X11. A run that returns, on any rank, ends at the later of the starting
    iteration and [max_iters] with the live parameters exactly as the
    solver steps left them: the snapshots taken on the way leave no trace
    in memory. *)
Theorem train_model_live_params max_iters s paths s' :
  train_model cfg caffe max_iters s = Ok paths s' ->
  net_params s' = params_after caffe s max_iters /\
  solver_iter s' = Z.max (solver_iter s) max_iters /\
  same_config s s'.
Proof.
  intros Hm. apply train_model_ok_inv in Hm as (l & s1 & Hw & Hend).
  apply while_params in Hw; [|done].
  by destruct Hend as [(_ & -> & _)|(_ & _ & saved & _ & _ & ->)].
Qed.

(** Without rank 0 a run writes no file, however it ends. *)
Lemma train_model_nonroot_disk max_iters s :
  rank s <> 0 ->
  disk (final_state (train_model cfg caffe max_iters s)) = disk s.
Proof.
  intros Hr.
  destruct (decide (display (solver_param s) = 0)) as [Hd|Hd].
  - destruct (Z.lt_ge_cases (solver_iter s) max_iters) as [Hlt|Hge].
    + unfold train_model, bind at 1, get. unfold bind at 1.
      destruct (Z.to_nat (max_iters - solver_iter s)) as [|n] eqn:En;
        [lia|].
      cbn [while_]. rewrite (proj2 (Z.ltb_lt _ _) Hlt).
      by rewrite (train_body_zero_display _ _ _ _ Hd).
    + unfold train_model, bind at 1, get. unfold bind at 1.
      replace (Z.to_nat (max_iters - solver_iter s)) with 0%nat by lia.
      cbn [while_]. rewrite (proj2 (Z.ltb_ge _ _) Hge).
      unfold bind, get. rewrite (proj2 (Z.eqb_neq _ _) Hr). done.
  - destruct (train_model_nonroot cfg caffe max_iters s Hr Hd)
      as (s' & -> & _ & _ & _ & Hdisk). done.
Qed.
End TrainMore.

(** ** Checkpoint names *)

Section NamesMore.
Context `{Numeric} (cfg : Cfg).

(** X12. Checkpoints of different iterations have different paths: no snapshot
    of a run overwrites an earlier one. *)
Theorem checkpoint_path_distinct s i j :
  i <> j -> checkpoint_path cfg s i <> checkpoint_path cfg s j.
Proof.
  intros Hij E. apply Hij. revert E.
  unfold checkpoint_path, snapshot_filename. sess. intros E.
  apply os_path_join_inj in E.
  - do 3 apply String.app_inj in E.
    by apply string_app_inv_tail, format_d_inj in E.
  - rewrite !startswith_slash_app.
    destruct (snapshot_prefix (solver_param s)); [|done]. cbv beta iota.
    by destruct (snapshot_infix cfg).
Qed.

(** X13. A snapshot prefix that starts with '/' replaces the output directory:
    the checkpoint path is the prefix, the tag, the iteration and the
    extension alone. *)
Theorem snapshot_filename_absolute_prefix s :
  startswith_slash (snapshot_prefix (solver_param s)) = true ->
  snapshot_filename cfg s =
  snapshot_prefix (solver_param s) +:+ snapshot_infix cfg +:+
  "_iter_" +:+ format_d (solver_iter s) +:+ ".caffemodel".
Proof.
  intros Hs. unfold snapshot_filename, os_path_join.
  rewrite startswith_slash_app.
  destruct (snapshot_prefix (solver_param s)); [done|]. by rewrite Hs.
Qed.
End NamesMore.

(** ** [filter_roidb]: failure, repetition, empty entries *)

Lemma filter_filter_same {A} (p : A -> bool) xs :
  List.filter p (List.filter p xs) = List.filter p xs.
Proof.
  induction xs as [|x xs IH]; [done|]. cbn [List.filter].
  destruct (p x) eqn:E; [|done]. cbn [List.filter]. by rewrite E, IH.
Qed.

Section FilterMore.
Context `{Numeric} (cfg : Cfg).

Lemma comprehension_zero_entry {St} roidb (st : St) :
  Exists (fun e => Z.max (height e) (width e) = 0) roidb ->
  comprehension_if (is_valid cfg) roidb st = Raise ZeroDivisionError st.
Proof.
  induction roidb as [|e roidb IH]; intros Hex; [by inversion Hex|].
  cbn [comprehension_if]. unfold bind at 1.
  destruct (decide (Z.max (height e) (width e) = 0)) as [Hz|Hnz].
  - by rewrite is_valid_zero_size.
  - rewrite is_valid_spec by done. unfold bind at 1.
    rewrite IH; [done|]. by inversion Hex.
Qed.

Lemma filter_roidb_run roidb out :
  Forall (fun e => Z.max (height e) (width e) <> 0) roidb ->
  let kept := List.filter (spec_keep cfg) roidb in
  filter_roidb cfg roidb out =
  Ok kept
    (out ++ ["Filtered " +:+
             format_d (Z.of_nat (length roidb) - Z.of_nat (length kept)) +:+
             " roidb entries: " +:+ format_d (Z.of_nat (length roidb)) +:+
             " -> " +:+ format_d (Z.of_nat (length kept))])%list.
Proof.
  intros Hnz kept. unfold filter_roidb, bind at 1.
  by rewrite comprehension_is_valid.
Qed.

(** X14. One entry whose larger side is 0 anywhere in the roidb makes
    [filter_roidb] raise ZeroDivisionError, with nothing printed. *)
Theorem filter_roidb_zero_entry roidb out :
  Exists (fun e => Z.max (height e) (width e) = 0) roidb ->
  filter_roidb cfg roidb out = Raise ZeroDivisionError out.
Proof.
  intros Hex. unfold filter_roidb, bind at 1.
  by rewrite comprehension_zero_entry.
Qed.

(** X15. Filtering a filtered roidb returns it as it is and reports that 0
    entries were removed. *)
Theorem filter_roidb_twice roidb out :
  Forall (fun e => Z.max (height e) (width e) <> 0) roidb ->
  exists kept out1,
    filter_roidb cfg roidb out = Ok kept out1 /\
    filter_roidb cfg kept out1 =
    Ok kept
      (out1 ++ ["Filtered 0 roidb entries: " +:+
                format_d (Z.of_nat (length kept)) +:+ " -> " +:+
                format_d (Z.of_nat (length kept))])%list.
Proof.
  intros Hnz. eexists _, _. split; [by apply filter_roidb_run|].
  rewrite filter_roidb_run.
  - cbv zeta. rewrite filter_filter_same, Z.sub_diag. done.
  - rewrite List.Forall_forall in Hnz |- *. intros e He.
    apply filter_In in He as [He _]. by apply Hnz.
Qed.

(** X16. An entry without any RoI never survives the filter. *)
Theorem filter_roidb_drops_empty roidb out :
  Forall (fun e => Z.max (height e) (width e) <> 0) roidb ->
  exists kept out1,
    filter_roidb cfg roidb out = Ok kept out1 /\
    forall e, In e kept -> max_overlaps e <> [].
Proof.
  intros Hnz. eexists _, _. split; [by apply filter_roidb_run|].
  intros e [_ Hk]%filter_In Hnil. unfold spec_keep in Hk.
  by rewrite Hnil in Hk.
Qed.
End FilterMore.

(** ** [SolverWrapper.__init__] and [train_net]: failures *)

Lemma preserves_final {St A X} (f : St -> X) (m : M St A) s :
  preserves f m -> f (final_state (m s)) = f s.
Proof. intros Hm. specialize (Hm s). by destruct (m s). Qed.

Lemma preserves_bind_ok {St A B X} (f : St -> X) (m : M St A)
    (k : A -> M St B) :
  preserves f m ->
  (forall a s s', m s = Ok a s' -> f (final_state (k a s')) = f s') ->
  preserves f (bind m k).
Proof.
  intros Hm Hk s. unfold bind. specialize (Hm s).
  destruct (m s) as [a s1|e s1|s1] eqn:E; [|done..].
  specialize (Hk a s s1 E). destruct (k a s1); cbn in Hk; congruence.
Qed.

Section WorkerMore.
Context `{Numeric} (cfg : Cfg) (caffe : Caffe).

Lemma preserves_init_disk prototxt roidb outdir uid rk means stds pre :
  preserves p_disk
    (SolverWrapper_init cfg caffe prototxt roidb outdir uid rk means stds
       pre).
Proof.
  unfold SolverWrapper_init, log_call, py_assert. repeat preserves_step.
Qed.

(** A mismatch between the batch product and the configured batch size
    stops [__init__] right after the solver is built. *)
Lemma init_mismatch_run prototxt roidb outdir uid rk means stds pre p :
  (TRAIN_HAS_RPN cfg && TRAIN_BBOX_REG cfg &&
     TRAIN_BBOX_NORMALIZE_TARGETS cfg = true ->
   TRAIN_BBOX_NORMALIZE_TARGETS_PRECOMPUTED cfg = true) ->
  caffe_solver_count p * TRAIN_IMS_PER_BATCH cfg *
    iter_size (read_solver_param caffe prototxt) <>
    TRAIN_REAL_BATCH_SIZE cfg ->
  exists p',
    SolverWrapper_init cfg caffe prototxt roidb outdir uid rk means stds
      pre p =
    Raise (AssertionError
             (Some (format_d (caffe_solver_count p * TRAIN_IMS_PER_BATCH cfg *
                              iter_size (read_solver_param caffe prototxt))
                    +:+ " vs " +:+ format_d (TRAIN_REAL_BATCH_SIZE cfg))))
      p' /\
    queue_puts p' = queue_puts p /\ p_disk p' = p_disk p /\
    p_stderr p' = p_stderr p.
Proof.
  intros Hrpn Hprod. unfold SolverWrapper_init.
  destruct (TRAIN_HAS_RPN cfg && TRAIN_BBOX_REG cfg &&
            TRAIN_BBOX_NORMALIZE_TARGETS cfg);
    [rewrite (Hrpn eq_refl)|];
    run_init; rewrite (proj2 (Z.eqb_neq _ _) Hprod);
    eexists; (split; [reflexivity|]); done.
Qed.

(** X17. RPN training with regression targets that are normalized but not
    precomputed is refused: [__init__] raises the assertion before it
    builds the solver or calls into Caffe at all. *)
Theorem init_rpn_assertion prototxt roidb outdir uid rk means stds pre p :
  rpn_assertion_fails cfg = true ->
  SolverWrapper_init cfg caffe prototxt roidb outdir uid rk means stds pre p
  = Raise (AssertionError None) p.
Proof.
  unfold rpn_assertion_fails. intros [Hf Hpre]%andb_true_iff.
  apply negb_true_iff in Hpre. unfold SolverWrapper_init.
  rewrite Hf, Hpre. by run_init.
Qed.

(** X18. A solver without layer-wise reduce is refused only after the NCCL
    handle has been created, the parameters broadcast and the callback
    added; the roidb is never handed to the data layer. *)
Theorem init_layer_wise_reduce prototxt roidb outdir uid rk means stds pre
    p :
  (TRAIN_HAS_RPN cfg && TRAIN_BBOX_REG cfg &&
     TRAIN_BBOX_NORMALIZE_TARGETS cfg = true ->
   TRAIN_BBOX_NORMALIZE_TARGETS_PRECOMPUTED cfg = true) ->
  caffe_solver_count p * TRAIN_IMS_PER_BATCH cfg *
    iter_size (read_solver_param caffe prototxt) =
    TRAIN_REAL_BATCH_SIZE cfg ->
  layer_wise_reduce (read_solver_param caffe prototxt) = false ->
  exists p',
    SolverWrapper_init cfg caffe prototxt roidb outdir uid rk means stds
      pre p = Raise (AssertionError None) p' /\
    caffe_calls p' =
      (caffe_calls p ++ [call_SGDSolver prototxt] ++
       match pre with Some m => [call_copy_from m] | None => [] end ++
       [call_NCCL uid; call_bcast; call_add_callback])%list.
Proof.
  intros Hrpn Hprod Hlwr. unfold SolverWrapper_init.
  destruct (TRAIN_HAS_RPN cfg && TRAIN_BBOX_REG cfg &&
            TRAIN_BBOX_NORMALIZE_TARGETS cfg);
    [rewrite (Hrpn eq_refl)|];
    destruct pre; run_init;
    rewrite (proj2 (Z.eqb_eq _ _) Hprod), Hlwr;
    eexists; (split; [reflexivity|]);
    cbn [caffe_calls]; rewrite <- ?app_assoc; reflexivity.
Qed.

(** The straight-line start of [train_net], up to the construction of the
    wrapper. *)
Lemma train_net_prefix prototxt roidb outdir uid gpus rk dev means stds pre
    mx p :
  gpus !! rk = Some dev ->
  exists q,
    train_net cfg caffe prototxt roidb outdir uid gpus rk means stds pre mx p
    = (sw <- SolverWrapper_init cfg caffe prototxt roidb outdir uid
               (Z.of_nat rk) means stds pre ;;
       r <- call_method (train_model cfg caffe mx) sw ;;
       if (rk =? 0)%nat then queue_put (fst r) else ret tt) q /\
    caffe_solver_count q = Z.of_nat (length gpus) /\
    queue_puts q = queue_puts p /\ p_disk q = p_disk p /\
    p_stderr q = p_stderr p.
Proof.
  intros Hdev. unfold train_net.
  cbv [bind log_call set_solver_count modify ret getitem].
  rewrite Hdev.
  cbn [caffe_calls caffe_solver_count queue_puts p_disk p_writable
       p_stderr].
  eexists. split; [reflexivity|done].
Qed.

(** X19. With a batch product other than the configured batch size every
    worker, whatever its rank, stops with the batch-size AssertionError: it
    has written no file and no diagnostic line, and has put nothing on the
    queue. *)
Theorem train_net_batch_mismatch prototxt roidb outdir uid gpus rk dev means
    stds pre mx p :
  gpus !! rk = Some dev ->
  (TRAIN_HAS_RPN cfg && TRAIN_BBOX_REG cfg &&
     TRAIN_BBOX_NORMALIZE_TARGETS cfg = true ->
   TRAIN_BBOX_NORMALIZE_TARGETS_PRECOMPUTED cfg = true) ->
  Z.of_nat (length gpus) * TRAIN_IMS_PER_BATCH cfg *
    iter_size (read_solver_param caffe prototxt) <>
    TRAIN_REAL_BATCH_SIZE cfg ->
  exists p',
    train_net cfg caffe prototxt roidb outdir uid gpus rk means stds pre mx p
    = Raise (AssertionError
               (Some (format_d (Z.of_nat (length gpus) *
                                TRAIN_IMS_PER_BATCH cfg *
                                iter_size (read_solver_param caffe prototxt))
                      +:+ " vs " +:+ format_d (TRAIN_REAL_BATCH_SIZE cfg))))
        p' /\
    queue_puts p' = queue_puts p /\ p_disk p' = p_disk p /\
    p_stderr p' = p_stderr p.
Proof.
  intros Hdev Hrpn Hprod.
  destruct (train_net_prefix prototxt roidb outdir uid gpus rk dev means
              stds pre mx p Hdev) as (q & -> & Hc & Hq & Hd & He).
  rewrite <- Hc in Hprod |- *.
  destruct (init_mismatch_run prototxt roidb outdir uid (Z.of_nat rk) means
              stds pre q Hrpn Hprod) as (p' & Hi & Hq' & Hd' & He').
  exists p'. unfold bind at 1. rewrite Hi.
  repeat split; congruence.
Qed.

(** X20. A worker of rank other than 0 writes no checkpoint and puts nothing
    on the queue, however it ends. *)
Theorem train_net_nonroot_no_output prototxt roidb outdir uid gpus rk means
    stds pre mx p :
  rk <> 0%nat ->
  let p' :=
    final_state
      (train_net cfg caffe prototxt roidb outdir uid gpus rk means stds pre
         mx p) in
  p_disk p' = p_disk p /\ queue_puts p' = queue_puts p.
Proof.
  intros Hrk p'. subst p'. split.
  - apply preserves_final. unfold train_net.
    assert (Hrk' : (rk =? 0)%nat = false) by by apply Nat.eqb_neq.
    rewrite Hrk'.
    unfold set_solver_count, log_call, getitem.
    repeat first
      [ apply preserves_bind_ok;
          [apply preserves_init_disk
          |intros sw q q' Hi;
           apply init_ok_inv in Hi as (Hr & _)]
      | preserves_step ].
    apply preserves_final, preserves_bind; [|intros ?; apply preserves_ret].
    intros q0. unfold call_method.
    match goal with
    | |- context [train_model cfg caffe mx ?s0] =>
        pose proof (train_model_nonroot_disk cfg caffe mx s0) as Hd
    end.
    cbn [rank set_stderr set_disk] in Hd. rewrite Hr in Hd.
    specialize (Hd ltac:(lia)).
    destruct (train_model cfg caffe mx _); exact Hd.
  - apply preserves_final. by apply train_net_nonroot_queue.
Qed.

End WorkerMore.

(** ** [train_net_multi_gpus]: failures *)

Section OrchestratorMore.
Context `{Numeric} (cfg : Cfg) (caffe : Caffe).
Variable targets :
  list roidb_entry -> list roidb_entry * (list stat_t * list stat_t).
Variable uid : Z.
Variable child0 : process.
Variable pipe_fits : list string -> bool.

(** X21. A roidb with an entry whose larger side is 0 stops the parent in
    [filter_roidb]: no NCCL uid is requested, no targets are computed and
    no process is started. *)
Theorem multi_gpus_filter_failure prototxt roidb outdir gpus pre mx par :
  Exists (fun e => Z.max (height e) (width e) = 0) roidb ->
  train_net_multi_gpus cfg caffe targets uid child0 pipe_fits prototxt
    roidb outdir gpus pre mx par =
  Raise ZeroDivisionError
    {| stdout := stdout par;
       events := (events par ++ [ev_filter_roidb roidb])%list |}.
Proof.
  intros Hex. unfold train_net_multi_gpus.
  unfold bind at 1, emit at 1, modify.
  unfold bind at 1, with_stdout. cbn [stdout events].
  unfold filter_roidb, bind at 1.
  by rewrite comprehension_zero_entry.
Qed.

(** X22. When the root child raises, the parent never returns, and the
    failure is not propagated: it blocks in the join of the first child
    that never exits, a peer left waiting in a collective, or, when
    every child exits, in [mp_queue.get()], since nothing was put on the
    queue. *)
Theorem multi_gpus_failed_root_blocks prototxt roidb outdir gpus pre mx par
    e q :
  Forall (fun e => Z.max (height e) (width e) <> 0) roidb ->
  queue_puts child0 = [] ->
  let roidb_f := List.filter (spec_keep cfg) roidb in
  let mk := worker_args cfg targets uid prototxt roidb_f outdir gpus pre mx in
  let group := map mk (seq 0 (length gpus)) in
  let exits := child_exits cfg caffe child0 pipe_fits group in
  run_alone cfg caffe child0 (mk 0%nat) = Raise e q ->
  exists par',
    train_net_multi_gpus cfg caffe targets uid child0 pipe_fits prototxt
      roidb outdir gpus pre mx par = Diverge par' /\
    events par' =
      (events par ++ fan_out cfg roidb roidb_f mk (length gpus) ++
       join_trace exits group ++
       if forallb exits group then [ev_queue_get] else [])%list.
Proof.
  intros Hnz Hq0 roidb_f mk group exits Hroot.
  destruct (multi_gpus_run cfg caffe targets uid child0 pipe_fits prototxt
              roidb outdir gpus pre mx par roidb_f _
              (filter_roidb_run cfg roidb (stdout par) Hnz))
    as (par' & Hev & _ & Hrun).
  exists par'. split; [|exact Hev]. rewrite Hrun.
  fold roidb_f mk. fold group. fold exits.
  destruct (forallb exits group); [|done].
  unfold group at 2.
  rewrite (queue_contents cfg caffe child0 group mk) by done.
  destruct (length gpus); [done|].
  by rewrite (child_puts_root_raised cfg caffe child0 group _ e q).
Qed.

(** X23. With an empty list of GPUs the parent starts no process and blocks in
    [mp_queue.get()]. *)
Theorem multi_gpus_no_gpus prototxt roidb outdir pre mx par :
  Forall (fun e => Z.max (height e) (width e) <> 0) roidb ->
  exists par',
    train_net_multi_gpus cfg caffe targets uid child0 pipe_fits prototxt
      roidb outdir [] pre mx par = Diverge par' /\
    events par' =
      (events par ++ [ev_filter_roidb roidb; ev_new_uid] ++
       (if TRAIN_BBOX_REG cfg
        then [ev_add_bbox_regression_targets
                (List.filter (spec_keep cfg) roidb)]
        else []) ++ [ev_queue_get])%list.
Proof.
  intros Hnz.
  destruct (multi_gpus_run cfg caffe targets uid child0 pipe_fits prototxt
              roidb outdir [] pre mx par _ _
              (filter_roidb_run cfg roidb (stdout par) Hnz))
    as (par' & Hev & _ & Hrun).
  exists par'. split; [exact Hrun|]. rewrite Hev.
  unfold orchestration, fan_out. cbn [length seq map join_trace forallb].
  by rewrite <- !app_assoc.
Qed.

(** X24. Whenever the filter returns, the parent prints the filter report,
    'Solving...' and, when bounding-box regression is on, the two lines
    around the computation of the targets; it prints 'done solving'
    exactly when every child exits, so that all the joins return. *)
Theorem multi_gpus_stdout prototxt roidb outdir gpus pre mx par :
  Forall (fun e => Z.max (height e) (width e) <> 0) roidb ->
  let kept := List.filter (spec_keep cfg) roidb in
  let mk := worker_args cfg targets uid prototxt kept outdir gpus pre mx in
  let group := map mk (seq 0 (length gpus)) in
  stdout
    (final_state
       (train_net_multi_gpus cfg caffe targets uid child0 pipe_fits
          prototxt roidb outdir gpus pre mx par)) =
  (stdout par ++
   ["Filtered " +:+
    format_d (Z.of_nat (length roidb) - Z.of_nat (length kept)) +:+
    " roidb entries: " +:+ format_d (Z.of_nat (length roidb)) +:+
    " -> " +:+ format_d (Z.of_nat (length kept));
    "Solving..."] ++
   (if TRAIN_BBOX_REG cfg
    then ["Computing bounding-box regression targets..."; "done"]
    else []) ++
   (if forallb (child_exits cfg caffe child0 pipe_fits group) group
    then ["done solving"] else []))%list.
Proof.
  intros Hnz kept mk group.
  destruct (multi_gpus_run cfg caffe targets uid child0 pipe_fits prototxt
              roidb outdir gpus pre mx par kept _
              (filter_roidb_run cfg roidb (stdout par) Hnz))
    as (par' & _ & Hout & Hrun).
  rewrite Hrun. fold mk. fold group.
  assert (Hfin : forall o : outcome parent (list string),
    (o = Diverge par' \/ exists v, o = Ok v par') ->
    stdout (final_state o) = stdout par').
  { intros o [->|[v ->]]; done. }
  rewrite Hfin, Hout.
  - fold mk. fold group. by rewrite <- !app_assoc.
  - destruct (forallb _ _); [|by left].
    destruct (concat _); [by left|right; eauto].
Qed.

(** In a healthy group the root child has put its list, and nothing
    else. *)
Lemma healthy_root_puts prototxt roidb_f outdir gpus pre mx :
  queue_puts child0 = [] ->
  gpus <> [] ->
  (TRAIN_HAS_RPN cfg && TRAIN_BBOX_REG cfg &&
     TRAIN_BBOX_NORMALIZE_TARGETS cfg = true ->
   TRAIN_BBOX_NORMALIZE_TARGETS_PRECOMPUTED cfg = true) ->
  Z.of_nat (length gpus) * TRAIN_IMS_PER_BATCH cfg *
    iter_size (read_solver_param caffe prototxt) =
    TRAIN_REAL_BATCH_SIZE cfg ->
  layer_wise_reduce (read_solver_param caffe prototxt) = true ->
  TRAIN_SNAPSHOT_ITERS cfg <> 0 ->
  (forall i ps, bbox_dims (sgd_update caffe i ps) = bbox_dims ps) ->
  let root :=
    initial_session cfg caffe prototxt outdir 0
      (handed_means cfg targets roidb_f) (handed_stds cfg targets roidb_f)
      pre child0 in
  clean cfg root ->
  let mk := worker_args cfg targets uid prototxt roidb_f outdir gpus pre
              mx in
  let group := map mk (seq 0 (length gpus)) in
  child_puts cfg caffe child0 group (mk 0%nat) =
  [map (checkpoint_path cfg root) (snapshot_iters cfg 0 mx)].
Proof.
  intros Hq Hg Hrpn Hprod Hlwr Hint Hupd root Hclean mk group.
  destruct (train_net_root_runs cfg caffe prototxt
              (handed_roidb cfg targets roidb_f) outdir uid gpus
              (handed_means cfg targets roidb_f)
              (handed_stds cfg targets roidb_f) pre mx child0
              Hg Hrpn Hprod Hlwr Hint Hupd Hclean)
    as (p' & Hrun & Hput).
  rewrite Hq in Hput. cbn [app] in Hput. fold root in Hput.
  unfold child_puts.
  rewrite (healthy_group_runs cfg caffe targets uid child0 prototxt roidb_f
             outdir gpus pre mx Hrpn Hprod Hlwr Hint Hupd Hclean).
  - unfold run_alone, mk, worker_args.
    cbn [a_solver_prototxt a_roidb a_output_dir a_nccl_uid a_gpus
         a_rank a_bbox_means a_bbox_stds a_pretrained_model a_max_iters].
    by rewrite Hrun.
  - apply in_map_iff. exists 0%nat. split; [done|].
    apply in_seq. destruct gpus; [done|]. cbn [length]. lia.
Qed.

(** X25. A healthy run whose list of checkpoint paths does not fit in the
    pipe of the queue never returns: the root child cannot exit before
    its list is read, and the parent, which reads only after the joins,
    blocks in the join of rank 0. *)
Theorem multi_gpus_large_result_blocks prototxt roidb outdir gpus pre mx
    par :
  Forall (fun e => Z.max (height e) (width e) <> 0) roidb ->
  queue_puts child0 = [] ->
  gpus <> [] ->
  (TRAIN_HAS_RPN cfg && TRAIN_BBOX_REG cfg &&
     TRAIN_BBOX_NORMALIZE_TARGETS cfg = true ->
   TRAIN_BBOX_NORMALIZE_TARGETS_PRECOMPUTED cfg = true) ->
  Z.of_nat (length gpus) * TRAIN_IMS_PER_BATCH cfg *
    iter_size (read_solver_param caffe prototxt) =
    TRAIN_REAL_BATCH_SIZE cfg ->
  layer_wise_reduce (read_solver_param caffe prototxt) = true ->
  TRAIN_SNAPSHOT_ITERS cfg <> 0 ->
  (forall i ps, bbox_dims (sgd_update caffe i ps) = bbox_dims ps) ->
  let roidb_f := List.filter (spec_keep cfg) roidb in
  let root :=
    initial_session cfg caffe prototxt outdir 0
      (handed_means cfg targets roidb_f) (handed_stds cfg targets roidb_f)
      pre child0 in
  clean cfg root ->
  pipe_fits (map (checkpoint_path cfg root) (snapshot_iters cfg 0 mx)) =
    false ->
  let mk := worker_args cfg targets uid prototxt roidb_f outdir gpus pre
              mx in
  exists par',
    train_net_multi_gpus cfg caffe targets uid child0 pipe_fits prototxt
      roidb outdir gpus pre mx par = Diverge par' /\
    events par' =
      (events par ++ fan_out cfg roidb roidb_f mk (length gpus) ++
       [ev_join 0%nat])%list.
Proof.
  intros Hnz Hq Hg Hrpn Hprod Hlwr Hint Hupd roidb_f root Hclean Hfits mk.
  destruct (multi_gpus_run cfg caffe targets uid child0 pipe_fits prototxt
              roidb outdir gpus pre mx par roidb_f _
              (filter_roidb_run cfg roidb (stdout par) Hnz))
    as (par' & Hev & _ & Hrun).
  cbv zeta in Hev, Hrun. fold mk in Hev, Hrun.
  unfold orchestration in Hev. fold mk in Hev.
  pose proof (healthy_root_puts prototxt roidb_f outdir gpus pre mx Hq Hg
                Hrpn Hprod Hlwr Hint Hupd Hclean) as Hputs.
  cbv zeta in Hputs. fold mk root in Hputs.
  set (group := map mk (seq 0 (length gpus))) in *.
  assert (Hexit : child_exits cfg caffe child0 pipe_fits group (mk 0%nat) =
                  false).
  { unfold child_exits. rewrite Hputs. cbn [forallb].
    by rewrite Hfits, andb_false_r. }
  assert (Hgroup : group = mk 0%nat :: map mk (seq 1 (length gpus - 1))).
  { unfold group. destruct gpus as [|g gs]; [done|].
    replace (length (g :: gs) - 1)%nat with (length gs)
      by (cbn [length]; lia).
    reflexivity. }
  assert (Hall : forallb (child_exits cfg caffe child0 pipe_fits group)
                   group = false).
  { apply not_true_is_false. intros Ha.
    rewrite forallb_forall in Ha. rewrite Ha in Hexit; [done|].
    rewrite Hgroup. by left. }
  assert (Hjt : forall ex,
    ex (mk 0%nat) = false -> join_trace ex group = [ev_join 0%nat]).
  { intros ex Hex. rewrite Hgroup. cbn [join_trace]. by rewrite Hex. }
  exists par'. rewrite Hrun, Hev, Hall, (Hjt _ Hexit). split; [done|].
  by rewrite app_nil_r.
Qed.

(** Training on the root with a snapshot interval of 0 stops in its first
    pass. *)
Lemma zero_interval_run max_iters s :
  rank s = 0 -> display (solver_param s) <> 0 ->
  TRAIN_SNAPSHOT_ITERS cfg = 0 -> solver_iter s < max_iters ->
  train_model cfg caffe max_iters s =
  Raise ZeroDivisionError (after_step caffe s).
Proof.
  intros Hr Hd Hi Hlt.
  unfold train_model, bind at 1, get. unfold bind at 1.
  destruct (Z.to_nat (max_iters - solver_iter s)) as [|n] eqn:En; [lia|].
  cbn [while_]. rewrite (proj2 (Z.ltb_lt _ _) Hlt).
  rewrite (train_body_eq _ _ _ _ Hd), Hr. change (0 =? 0) with true.
  cbv beta iota. unfold bind, py_mod. by rewrite Hi.
Qed.

(** X26. With a snapshot interval of 0, at least two devices and at least
    two iterations to run, the root child raises ZeroDivisionError after
    its first solver step while its peers go on: they are left waiting
    in the gradient synchronization of the second step, and the parent
    blocks in the join of rank 1. *)
Theorem multi_gpus_peer_left_waiting prototxt roidb outdir gpus pre mx par :
  Forall (fun e => Z.max (height e) (width e) <> 0) roidb ->
  queue_puts child0 = [] ->
  (2 <= length gpus)%nat ->
  (TRAIN_HAS_RPN cfg && TRAIN_BBOX_REG cfg &&
     TRAIN_BBOX_NORMALIZE_TARGETS cfg = true ->
   TRAIN_BBOX_NORMALIZE_TARGETS_PRECOMPUTED cfg = true) ->
  Z.of_nat (length gpus) * TRAIN_IMS_PER_BATCH cfg *
    iter_size (read_solver_param caffe prototxt) =
    TRAIN_REAL_BATCH_SIZE cfg ->
  layer_wise_reduce (read_solver_param caffe prototxt) = true ->
  display (read_solver_param caffe prototxt) <> 0 ->
  TRAIN_SNAPSHOT_ITERS cfg = 0 ->
  2 <= mx ->
  let roidb_f := List.filter (spec_keep cfg) roidb in
  let mk := worker_args cfg targets uid prototxt roidb_f outdir gpus pre
              mx in
  let group := map mk (seq 0 (length gpus)) in
  (exists q, run_alone cfg caffe child0 (mk 0%nat) =
             Raise ZeroDivisionError q) /\
  waits_forever cfg caffe child0 group (mk 0%nat) = false /\
  waits_forever cfg caffe child0 group (mk 1%nat) = true /\
  exists par',
    train_net_multi_gpus cfg caffe targets uid child0 pipe_fits prototxt
      roidb outdir gpus pre mx par = Diverge par' /\
    events par' =
      (events par ++ fan_out cfg roidb roidb_f mk (length gpus) ++
       [ev_join 0%nat; ev_join 1%nat])%list.
Proof.
  intros Hnz Hq Hlen Hrpn Hprod Hlwr Hd Hint Hmx roidb_f mk group.
  set (base := length (List.filter is_collective (caffe_calls child0))).
  assert (Hs0 : sync_points cfg caffe child0 (mk 0%nat) = (base + 3)%nat).
  { destruct (lookup_lt_is_Some_2 gpus 0 ltac:(lia)) as [dev Hdev].
    unfold mk, worker_args.
    rewrite (sync_points_init_ok cfg caffe child0 _ _ _ _ _ _ dev) by done.
    unfold steps_taken. change (Z.of_nat 0) with 0.
    rewrite zero_interval_run; [|done|done|done|cbn; lia].
    cbn [final_state]. rewrite after_step_iter.
    cbn [solver_iter initial_session]. fold base. lia. }
  assert (Hsr : forall r, (0 < r < length gpus)%nat ->
    sync_points cfg caffe child0 (mk r) =
    (base + 2 + Z.to_nat mx)%nat).
  { intros r Hr.
    destruct (lookup_lt_is_Some_2 gpus r ltac:(lia)) as [dev Hdev].
    assert (Hfin :
      solver_iter
        (final_state
           (train_model cfg caffe mx
              (initial_session cfg caffe prototxt outdir (Z.of_nat r)
                 (handed_means cfg targets roidb_f)
                 (handed_stds cfg targets roidb_f) pre child0))) =
      Z.max 0 mx).
    { destruct (train_model_nonroot cfg caffe mx
                  (initial_session cfg caffe prototxt outdir
                     (Z.of_nat r) (handed_means cfg targets roidb_f)
                     (handed_stds cfg targets roidb_f) pre child0))
        as (s' & Hrun & _ & Hi & _);
        [cbn [rank initial_session]; lia|done|].
      rewrite Hrun. cbn [final_state]. by rewrite Hi. }
    unfold mk, worker_args.
    rewrite (healthy_sync_points cfg caffe child0 _ _ _ _ _ _ dev)
      by done.
    fold base. lia. }
  assert (Hin : forall r, (r < length gpus)%nat -> In (mk r) group).
  { intros r Hr. apply in_map_iff. exists r. split; [done|].
    apply in_seq. lia. }
  assert (Hw0 : waits_forever cfg caffe child0 group (mk 0%nat) = false).
  { apply not_true_is_false. intros Hw. unfold waits_forever in Hw.
    apply existsb_exists in Hw as (peer & Hpeer & Hlt).
    apply in_map_iff in Hpeer as (r & <- & Hr%in_seq).
    apply Nat.ltb_lt in Hlt. rewrite Hs0 in Hlt.
    destruct r as [|r]; [rewrite Hs0 in Hlt; lia|].
    rewrite Hsr in Hlt by lia. lia. }
  assert (Hw1 : waits_forever cfg caffe child0 group (mk 1%nat) = true).
  { unfold waits_forever. apply existsb_exists. exists (mk 0%nat).
    split; [apply Hin; lia|]. apply Nat.ltb_lt.
    rewrite Hs0, Hsr by lia. lia. }
  assert (Hraise : exists q, run_alone cfg caffe child0 (mk 0%nat) =
                             Raise ZeroDivisionError q).
  { destruct (lookup_lt_is_Some_2 gpus 0 ltac:(lia)) as [dev Hdev].
    unfold run_alone, mk, worker_args.
    cbn [a_solver_prototxt a_roidb a_output_dir a_nccl_uid a_gpus a_rank
         a_bbox_means a_bbox_stds a_pretrained_model a_max_iters].
    destruct (train_net_prefix cfg caffe prototxt
                (handed_roidb cfg targets roidb_f) outdir uid gpus 0%nat dev
                (handed_means cfg targets roidb_f)
                (handed_stds cfg targets roidb_f) pre mx child0 Hdev)
      as (q0 & -> & Hc & _ & Hd0 & He0).
    rewrite <- Hc in Hprod.
    destruct (init_ok_run cfg caffe prototxt
                (handed_roidb cfg targets roidb_f) outdir uid (Z.of_nat 0)
                (handed_means cfg targets roidb_f)
                (handed_stds cfg targets roidb_f) pre q0 Hrpn Hprod Hlwr)
      as (p1 & Hi & _ & Hd1 & He1).
    unfold bind at 1. rewrite Hi. unfold bind at 1, call_method.
    rewrite zero_interval_run; [eauto|done|done|done|cbn; lia]. }
  split; [exact Hraise|]. split; [exact Hw0|]. split; [exact Hw1|].
  destruct Hraise as [q Hraise].
  destruct (multi_gpus_run cfg caffe targets uid child0 pipe_fits prototxt
              roidb outdir gpus pre mx par roidb_f _
              (filter_roidb_run cfg roidb (stdout par) Hnz))
    as (par' & Hev & _ & Hrun).
  cbv zeta in Hev, Hrun. fold mk in Hev, Hrun.
  unfold orchestration in Hev. fold mk in Hev.
  fold group in Hev, Hrun.
  assert (Hgroup : group =
            mk 0%nat :: mk 1%nat :: map mk (seq 2 (length gpus - 2))).
  { unfold group. destruct gpus as [|g0 [|g1 gs]]; cbn [length] in Hlen;
      [lia|lia|].
    replace (length (g0 :: g1 :: gs) - 2)%nat with (length gs)
      by (cbn [length]; lia).
    reflexivity. }
  assert (He0 : child_exits cfg caffe child0 pipe_fits group (mk 0%nat) =
                true).
  { unfold child_exits. rewrite Hw0, run_alone_returns.
    by rewrite (child_puts_root_raised cfg caffe child0 group _
                  ZeroDivisionError q). }
  assert (He1 : child_exits cfg caffe child0 pipe_fits group (mk 1%nat) =
                false).
  { unfold child_exits. by rewrite Hw1. }
  assert (Hall : forallb (child_exits cfg caffe child0 pipe_fits group)
                   group = false).
  { apply not_true_is_false. intros Ha.
    rewrite forallb_forall in Ha. rewrite Ha in He1; [done|].
    apply Hin. lia. }
  assert (Hjt : forall ex,
    ex (mk 0%nat) = true -> ex (mk 1%nat) = false ->
    join_trace ex group = [ev_join 0%nat; ev_join 1%nat]).
  { intros ex Hex0 Hex1. rewrite Hgroup. cbn [join_trace].
    by rewrite Hex0, Hex1. }
  exists par'. rewrite Hrun, Hev, Hall, (Hjt _ He0 He1). split; [done|].
  by rewrite app_nil_r.
Qed.
End OrchestratorMore.

(** ** The claims on concrete sessions *)

#[local] Existing Instance exact_numeric.

(** The file names of the specification's naming example, with the
    extension that the code writes. *)
Example checkpoint_name_untagged :
  checkpoint_path Examples.cfg (Examples.fresh 0 true) 5000 =
  "out/model_iter_5000.caffemodel".
Proof. vm_compute. reflexivity. Qed.

Example checkpoint_name_tagged :
  checkpoint_path Examples.cfg_tagged (Examples.fresh 0 true) 5000 =
  "out/model_stage2_iter_5000.caffemodel".
Proof. vm_compute. reflexivity. Qed.

(** An absolute prefix in the solver settings overrides the output
    directory, as [os.path.join] has it. *)
Example os_path_join_absolute :
  os_path_join "out" "/data/model_iter_1.caffemodel" =
  "/data/model_iter_1.caffemodel".
Proof. vm_compute. reflexivity. Qed.

(** An entry of size 0 x 0 stops the filtering. *)
Example filter_roidb_zero_size :
  filter_roidb Examples.cfg [Examples.entry "z" [7 # 10] 0 0] [] =
  Raise ZeroDivisionError [].
Proof. vm_compute. reflexivity. Qed.

(** A display interval of 0, Caffe's default, stops the loop at its first
    pass. *)
Example train_model_display_zero :
  exists s',
    train_model Examples.cfg Examples.caffe_quiet 10 (Examples.quiet 1) =
    Raise ZeroDivisionError s'.
Proof.
  unfold train_model, bind at 1, get. unfold bind at 1.
  cbn [while_ Z.to_nat Z.sub Z.add Z.opp Z.pos_sub Pos.to_nat Pos.iter_op
       Init.Nat.add solver_iter Examples.quiet Z.ltb Z.compare].
  eexists. reflexivity.
Qed.

Lemma sgd_example_keeps_shape i ps :
  bbox_dims (sgd_update Examples.caffe i ps) = bbox_dims ps.
Proof.
  unfold bbox_dims. cbn [sgd_update Examples.caffe].
  rewrite lookup_fmap. destruct (ps !! "bbox_pred"); cbn; [|done].
  by rewrite length_map.
Defined.

(** The persisted view of the example sessions. *)
Lemma example_persisted (s : session) :
  net_params s = Examples.net ->
  bbox_stds s = Some [2; 3] -> bbox_means s = Some [10; 20] ->
  persisted_params Examples.cfg s =
  Some (<["bbox_pred" := Examples.head_unnormalized]> Examples.net).
Proof.
  intros Hn Hs Hm.
  rewrite (persisted_params_matching Examples.cfg s Examples.head
             [2; 3] [10; 20]); try done.
  - by rewrite Hn.
  - rewrite Hn. vm_compute. reflexivity.
Defined.

(** A snapshot of the example session at iteration [i]. *)
Lemma example_snapshot i :
  snapshot Examples.cfg (Examples.at_iter i) =
  Ok (snapshot_filename Examples.cfg (Examples.at_iter i))
     (set_disk
        (<[snapshot_filename Examples.cfg (Examples.at_iter i) :=
             <["bbox_pred" := Examples.head_unnormalized]> Examples.net]>
           (disk (Examples.at_iter i)))
        (Examples.at_iter i)).
Proof.
  exact (snapshot_run Examples.cfg (Examples.at_iter i) _ eq_refl
           (example_persisted (Examples.at_iter i) eq_refl eq_refl eq_refl)).
Defined.

Lemma train_model_snapshot_schedule_witness :
  exists s',
    train_model Examples.cfg Examples.caffe 10 (Examples.fresh 0 true) =
    Ok ["out/model_iter_4.caffemodel"; "out/model_iter_8.caffemodel";
        "out/model_iter_10.caffemodel"] s' /\
    is_Some (disk s' !! "out/model_iter_4.caffemodel") /\
    is_Some (disk s' !! "out/model_iter_8.caffemodel") /\
    is_Some (disk s' !! "out/model_iter_10.caffemodel") /\
    disk s' !! "out/model_iter_7.caffemodel" = None.
Proof.
  destruct (train_model_snapshot_schedule Examples.cfg Examples.caffe 10
              (Examples.fresh 0 true))
    as (paths & s' & Hrun & _ & _ & _ & _ & Hframe & Hpaths).
  - reflexivity.
  - vm_compute. discriminate.
  - discriminate.
  - discriminate.
  - intros p. reflexivity.
  - eexists. by apply example_persisted.
  - exact sgd_example_keeps_shape.
  - destruct (Hpaths eq_refl eq_refl eq_refl) as (Hp & H4 & H8 & H10).
    assert (E4 : checkpoint_path Examples.cfg (Examples.fresh 0 true) 4 =
                 "out/model_iter_4.caffemodel") by (vm_compute; reflexivity).
    assert (E8 : checkpoint_path Examples.cfg (Examples.fresh 0 true) 8 =
                 "out/model_iter_8.caffemodel") by (vm_compute; reflexivity).
    assert (E10 : checkpoint_path Examples.cfg (Examples.fresh 0 true) 10 =
                  "out/model_iter_10.caffemodel") by (vm_compute; reflexivity).
    rewrite E4 in H4. rewrite E8 in H8. rewrite E10 in H10.
    exists s'. rewrite Hrun, Hp, E4, E8, E10.
    split; [reflexivity|]. split; [exact H4|]. split; [exact H8|].
    split; [exact H10|].
    rewrite Hframe; [reflexivity|].
    rewrite Hp, E4, E8, E10. intros Hin.
    repeat (apply elem_of_cons in Hin as [Hin|Hin]; [discriminate Hin|]).
    by apply elem_of_nil in Hin.
Defined.

Lemma snapshot_restores_live_params_witness :
  exists s',
    snapshot Examples.cfg (Examples.at_iter 8) =
      Ok "out/model_iter_8.caffemodel" s' /\
    net_params s' !! "bbox_pred" = Some Examples.head.
Proof.
  pose proof (snapshot_run Examples.cfg (Examples.at_iter 8) _ eq_refl
                (example_persisted (Examples.at_iter 8) eq_refl eq_refl eq_refl)) as Hs.
  change (fs_writable (Examples.at_iter 8) _) with true in Hs.
  cbn match in Hs.
  replace (snapshot_filename Examples.cfg (Examples.at_iter 8))
    with "out/model_iter_8.caffemodel" in Hs by (vm_compute; reflexivity).
  eexists. split; [exact Hs|].
  destruct (snapshot_restores_live_params Examples.cfg _ _ _ Hs)
    as (Hhead & _ & _).
  rewrite Hhead. vm_compute. reflexivity.
Defined.

Lemma snapshot_persists_unnormalized_witness :
  exists s' saved,
    snapshot Examples.cfg (Examples.fresh 0 true) =
      Ok "out/model_iter_0.caffemodel" s' /\
    disk s' !! "out/model_iter_0.caffemodel" = Some saved /\
    saved !! "bbox_pred" = Some Examples.head_unnormalized /\
    saved !! "fc6" = Some Examples.fc.
Proof.
  destruct (snapshot_persists_unnormalized Examples.cfg
              (Examples.fresh 0 true) Examples.head [2; 3] [10; 20])
    as (s' & saved & Hrun & Hdisk & Hhead & Hrest);
    try (vm_compute; reflexivity).
  replace (snapshot_filename Examples.cfg (Examples.fresh 0 true))
    with "out/model_iter_0.caffemodel" in Hrun, Hdisk
    by (vm_compute; reflexivity).
  exists s', saved. split; [exact Hrun|]. split; [exact Hdisk|].
  split; [exact Hhead|]. rewrite Hrest by discriminate.
  vm_compute. reflexivity.
Defined.

(** C4 as stated fails: the write of the checkpoint fails, and [snapshot]
    leaves 'bbox_pred' un-normalized in memory. *)
Lemma snapshot_failed_save_leaves_rescaled :
  exists s',
    snapshot Examples.cfg (Examples.fresh 0 false) =
      Raise (IOError "out/model_iter_0.caffemodel") s' /\
    net_params s' !! "bbox_pred" = Some Examples.head_unnormalized /\
    net_params s' !! "bbox_pred" <>
      net_params (Examples.fresh 0 false) !! "bbox_pred".
Proof.
  pose proof (snapshot_run Examples.cfg (Examples.fresh 0 false) _ eq_refl
                (example_persisted (Examples.fresh 0 false) eq_refl eq_refl eq_refl)) as Hs.
  change (fs_writable (Examples.fresh 0 false) _) with false in Hs.
  cbn match in Hs.
  replace (snapshot_filename Examples.cfg (Examples.fresh 0 false))
    with "out/model_iter_0.caffemodel" in Hs by (vm_compute; reflexivity).
  eexists. split; [exact Hs|].
  cbn [net_params set_params]. rewrite lookup_insert_eq.
  split; [reflexivity|]. vm_compute. discriminate.
Qed.

Lemma snapshot_restores_only_on_return_witness :
  exists s',
    snapshot Examples.cfg (Examples.fresh 0 false) =
      Raise (IOError (snapshot_filename Examples.cfg
                        (Examples.fresh 0 false))) s' /\
    net_params s' =
      <["bbox_pred" := Examples.head_unnormalized]> Examples.net.
Proof.
  destruct (snapshot_restores_only_on_return Examples.cfg
              (Examples.fresh 0 false)
              (<["bbox_pred" := Examples.head_unnormalized]> Examples.net))
    as [_ Hfail].
  - reflexivity.
  - by apply example_persisted.
  - apply Hfail. reflexivity.
Defined.

Lemma snapshot_path_form_witness :
  exists s',
    snapshot Examples.cfg (Examples.at_iter 5000) =
      Ok "out/model_iter_5000.caffemodel" s' /\
    plain_decimal 5000 "5000".
Proof.
  pose proof (example_snapshot 5000) as Hs.
  destruct (snapshot_path_form Examples.cfg _ _ _ Hs)
    as (infix & N & name & -> & _ & _ & -> & Hdec & -> & Hp).
  - discriminate.
  - rewrite Hp in Hs.
    replace (if startswith_slash _ then _ else _)
      with "out/model_iter_5000.caffemodel" in Hs
      by (vm_compute; reflexivity).
    eexists. split; [exact Hs|exact Hdec].
Defined.

Lemma train_model_root_nonempty_witness :
  exists paths s',
    train_model Examples.cfg Examples.caffe 7 (Examples.at_iter 5) =
      Ok paths s' /\
    paths <> [] /\
    solver_iter s' = 7 /\
    list.last paths = Some "out/model_iter_7.caffemodel" /\
    is_Some (disk s' !! "out/model_iter_7.caffemodel").
Proof.
  destruct (train_model_root_nonempty Examples.cfg Examples.caffe 7
              (Examples.at_iter 5)) as (_ & _ & Htotal).
  - reflexivity.
  - vm_compute. discriminate.
  - destruct Htotal as (paths & s' & Hrun & Hne & Hi & Hlast & Hdisk).
    + discriminate.
    + discriminate.
    + intros p. reflexivity.
    + eexists. by apply example_persisted.
    + exact sgd_example_keeps_shape.
    + replace (checkpoint_path Examples.cfg (Examples.at_iter 5)
                 (Z.max (solver_iter (Examples.at_iter 5)) 7))
        with "out/model_iter_7.caffemodel" in Hlast, Hdisk
        by (vm_compute; reflexivity).
      by exists paths, s'.
Defined.

Lemma filter_roidb_keeps_witness :
  exists out',
    filter_roidb Examples.cfg Examples.roidb [] =
      Ok [Examples.entry "a" [7 # 10; 0 # 1] 640 480;
          Examples.entry "b" [3 # 10] 500 500] out'.
Proof.
  destruct (filter_roidb_keeps Examples.cfg Examples.roidb [])
    as (out' & Hrun & _).
  - repeat constructor; vm_compute; discriminate.
  - exists out'. rewrite Hrun. vm_compute. reflexivity.
Defined.

Lemma init_batch_size_check_witness :
  exists p',
    SolverWrapper_init Examples.cfg Examples.caffe "solver.prototxt" []
      "out" 7 0 (Some [10; 20]) (Some [2; 3]) None Examples.child_image =
    Raise (AssertionError (Some "1 vs 3")) p' /\
    caffe_calls p' = [call_SGDSolver "solver.prototxt"].
Proof.
  destruct (init_batch_size_check Examples.cfg Examples.caffe
              "solver.prototxt" [] "out" 7 0 (Some [10; 20]) (Some [2; 3])
              None Examples.child_image) as (_ & Hfail & _).
  - intros _. reflexivity.
  - apply Hfail. vm_compute. discriminate.
Defined.

(** With bounding-box regression switched off the statistics are not
    computed at all. *)
Example stats_not_computed_when_disabled :
  stats_computations
    (events (final_state
       (train_net_multi_gpus Examples.cfg_noreg Examples.caffe
          Examples.targets 7 Examples.child_image
          (MoreExamples.pipe_of 65536) "solver.prototxt" Examples.roidb
          "out" [0; 1; 2] None 10 Examples.parent0))) = 0%nat.
Proof. vm_compute. reflexivity. Qed.

Lemma example_filtered :
  filter_roidb Examples.cfg Examples.roidb (stdout Examples.parent0) =
  Ok [Examples.entry "a" [7 # 10; 0 # 1] 640 480;
      Examples.entry "b" [3 # 10] 500 500]
     ["Filtered 3 roidb entries: 5 -> 2"].
Proof. vm_compute. reflexivity. Defined.

Lemma stats_computed_once_when_enabled_witness :
  stats_computations
    (events (final_state
       (train_net_multi_gpus Examples.cfg Examples.caffe
          Examples.targets 7 Examples.child_image
          (MoreExamples.pipe_of 65536) "solver.prototxt" Examples.roidb
          "out" [0; 1; 2] None 10 Examples.parent0))) = 1%nat /\
  forall rank,
    a_bbox_means
      (worker_args Examples.cfg Examples.targets 7 "solver.prototxt"
         [Examples.entry "a" [7 # 10; 0 # 1] 640 480;
          Examples.entry "b" [3 # 10] 500 500] "out" [0; 1; 2] None 10
         rank) = Some [10; 20] /\
    a_bbox_stds
      (worker_args Examples.cfg Examples.targets 7 "solver.prototxt"
         [Examples.entry "a" [7 # 10; 0 # 1] 640 480;
          Examples.entry "b" [3 # 10] 500 500] "out" [0; 1; 2] None 10
         rank) = Some [2; 3].
Proof.
  destruct (stats_computed_once_when_enabled Examples.cfg Examples.caffe
              Examples.targets 7 Examples.child_image
              (MoreExamples.pipe_of 65536) "solver.prototxt"
              Examples.roidb "out" [0; 1; 2] None 10 Examples.parent0 _ _
              eq_refl example_filtered)
    as (_ & Hcount & Hargs & _).
  split; [exact Hcount|].
  intros rank. destruct (Hargs rank) as (_ & Hm & Hs). by split.
Defined.


(** ** Instances of the further properties *)

(** A run of the example session to iteration 10. *)
Lemma example_run :
  exists s',
    train_model Examples.cfg Examples.caffe 10 (Examples.fresh 0 true) =
    Ok (map (checkpoint_path Examples.cfg (Examples.fresh 0 true))
          (snapshot_iters Examples.cfg 0 10)) s'.
Proof.
  destruct (train_model_clean Examples.cfg Examples.caffe
              ltac:(discriminate) sgd_example_keeps_shape 10
              (Examples.fresh 0 true)) as (s' & Hrun & _).
  - split; [reflexivity|]. split; [discriminate|].
    split; [intros p; reflexivity|].
    eexists. by apply example_persisted.
  - discriminate.
  - exists s'. exact Hrun.
Defined.

Lemma example_nonzero :
  Forall (fun e => Z.max (height e) (width e) <> 0) Examples.roidb.
Proof. repeat constructor; vm_compute; discriminate. Defined.

Lemma snapshot_twice_witness :
  exists s',
    snapshot Examples.cfg (Examples.at_iter 8) =
      Ok (snapshot_filename Examples.cfg (Examples.at_iter 8)) s' /\
    snapshot Examples.cfg s' =
      Ok (snapshot_filename Examples.cfg (Examples.at_iter 8)) s'.
Proof.
  eexists. split; [exact (example_snapshot 8)|].
  exact (snapshot_twice Examples.cfg _ _ _ (example_snapshot 8)).
Defined.

Lemma snapshot_frame_witness :
  exists p s',
    snapshot Examples.cfg (Examples.at_iter 8) = Ok p s' /\
    disk s' !! p = persisted_params Examples.cfg (Examples.at_iter 8) /\
    (forall q, q <> p -> disk s' !! q = disk (Examples.at_iter 8) !! q) /\
    stderr s' = stderr (Examples.at_iter 8) /\
    same_config (Examples.at_iter 8) s'.
Proof.
  eexists _, _. split; [exact (example_snapshot 8)|].
  exact (snapshot_frame Examples.cfg _ _ _ (example_snapshot 8)).
Defined.

Lemma snapshot_without_rescaling_witness :
  exists s',
    snapshot Examples.cfg MoreExamples.headless =
      Ok (snapshot_filename Examples.cfg MoreExamples.headless) s' /\
    disk s' !! snapshot_filename Examples.cfg MoreExamples.headless =
      Some (net_params MoreExamples.headless).
Proof.
  apply (snapshot_without_rescaling Examples.cfg MoreExamples.headless).
  - right. right. vm_compute. reflexivity.
  - reflexivity.
  - reflexivity.
Defined.

Lemma snapshot_without_stats_witness :
  snapshot Examples.cfg MoreExamples.no_stats =
  Raise TypeError MoreExamples.no_stats.
Proof.
  apply (snapshot_without_stats Examples.cfg MoreExamples.no_stats
           Examples.head).
  - reflexivity.
  - reflexivity.
  - vm_compute. reflexivity.
  - reflexivity.
  - reflexivity.
Defined.

Lemma snapshot_bias_mismatch_witness :
  exists s',
    snapshot Examples.cfg MoreExamples.lopsided_session =
      Raise ValueError s' /\
    net_params s' !! "bbox_pred" =
      Some (weight_rescaled MoreExamples.lopsided [2; 3]) /\
    (forall name, name <> "bbox_pred" ->
       net_params s' !! name =
       net_params MoreExamples.lopsided_session !! name) /\
    disk s' = disk MoreExamples.lopsided_session.
Proof.
  apply (snapshot_bias_mismatch Examples.cfg MoreExamples.lopsided_session
           MoreExamples.lopsided [2; 3]).
  - reflexivity.
  - reflexivity.
  - vm_compute. reflexivity.
  - reflexivity.
  - reflexivity.
  - vm_compute. discriminate.
  - vm_compute. discriminate.
  - vm_compute. discriminate.
  - reflexivity.
Defined.

Lemma train_model_zero_display_witness :
  train_model Examples.cfg Examples.caffe_quiet 10 (Examples.quiet 1) =
  Raise ZeroDivisionError (stepped Examples.caffe_quiet (Examples.quiet 1)).
Proof.
  apply (train_model_zero_display Examples.cfg Examples.caffe_quiet 10
           (Examples.quiet 1)).
  - reflexivity.
  - reflexivity.
Defined.

Lemma train_model_zero_interval_witness :
  train_model MoreExamples.cfg_no_interval Examples.caffe 10
    (Examples.fresh 0 true) =
    Raise ZeroDivisionError
      (after_step Examples.caffe (Examples.fresh 0 true)) /\
  disk (after_step Examples.caffe (Examples.fresh 0 true)) =
    disk (Examples.fresh 0 true).
Proof.
  apply (train_model_zero_interval MoreExamples.cfg_no_interval
           Examples.caffe 10 (Examples.fresh 0 true)).
  - reflexivity.
  - vm_compute. discriminate.
  - reflexivity.
  - reflexivity.
Defined.

Lemma train_model_files_witness :
  exists paths s',
    train_model Examples.cfg Examples.caffe 10 (Examples.fresh 0 true) =
      Ok paths s' /\
    (forall p, p ∈ paths -> is_Some (disk s' !! p)) /\
    (forall q, q ∉ paths ->
       disk s' !! q = disk (Examples.fresh 0 true) !! q).
Proof.
  destruct example_run as (s' & Hrun).
  eexists _, s'. split; [exact Hrun|].
  exact (train_model_files Examples.cfg Examples.caffe 10 _ _ _ Hrun).
Defined.

Lemma train_model_last_path_witness :
  exists paths s',
    train_model Examples.cfg Examples.caffe 10 (Examples.fresh 0 true) =
      Ok paths s' /\
    solver_iter s' = 10 /\
    list.last paths = Some (snapshot_filename Examples.cfg s').
Proof.
  destruct example_run as (s' & Hrun).
  eexists _, s'. split; [exact Hrun|].
  apply (train_model_last_path Examples.cfg Examples.caffe 10
           (Examples.fresh 0 true) _ s').
  - reflexivity.
  - discriminate.
  - exact Hrun.
Defined.

(** A run with a display interval of 1, to iteration 10. *)
Lemma example_verbose_run :
  exists paths s',
    train_model Examples.cfg MoreExamples.caffe_verbose 10
      MoreExamples.verbose = Ok paths s'.
Proof.
  destruct (train_model_clean Examples.cfg MoreExamples.caffe_verbose
              ltac:(discriminate) sgd_example_keeps_shape 10
              MoreExamples.verbose) as (s' & Hrun & _).
  - split; [reflexivity|]. split; [discriminate|].
    split; [intros p; reflexivity|].
    eexists. by apply example_persisted.
  - discriminate.
  - eexists _, s'. exact Hrun.
Defined.

Lemma train_model_diagnostics_witness :
  exists paths s',
    train_model Examples.cfg MoreExamples.caffe_verbose 10
      MoreExamples.verbose = Ok paths s' /\
    stderr s' = [(0, 10)].
Proof.
  destruct example_verbose_run as (paths & s' & Hrun).
  exists paths, s'. split; [exact Hrun|].
  rewrite (train_model_diagnostics Examples.cfg MoreExamples.caffe_verbose
             10 _ _ _ Hrun).
  vm_compute. reflexivity.
Defined.

Lemma train_model_live_params_witness :
  exists paths s',
    train_model Examples.cfg Examples.caffe 10 (Examples.fresh 0 true) =
      Ok paths s' /\
    net_params s' =
      params_after Examples.caffe (Examples.fresh 0 true) 10 /\
    solver_iter s' = 10 /\
    same_config (Examples.fresh 0 true) s'.
Proof.
  destruct example_run as (s' & Hrun).
  eexists _, s'. split; [exact Hrun|].
  exact (train_model_live_params Examples.cfg Examples.caffe 10 _ _ _ Hrun).
Defined.

Lemma checkpoint_path_distinct_witness :
  4 <> 8 /\
  checkpoint_path Examples.cfg (Examples.fresh 0 true) 4 <>
  checkpoint_path Examples.cfg (Examples.fresh 0 true) 8.
Proof.
  split; [discriminate|].
  apply (checkpoint_path_distinct Examples.cfg (Examples.fresh 0 true) 4 8).
  discriminate.
Defined.

Lemma snapshot_filename_absolute_prefix_witness :
  snapshot_filename Examples.cfg MoreExamples.absolute_prefix =
  "/data/model_iter_7.caffemodel".
Proof.
  rewrite (snapshot_filename_absolute_prefix Examples.cfg
             MoreExamples.absolute_prefix).
  - vm_compute. reflexivity.
  - reflexivity.
Defined.

Lemma filter_roidb_zero_entry_witness :
  filter_roidb Examples.cfg
    [Examples.entry "a" [7 # 10] 640 480; Examples.entry "z" [7 # 10] 0 0]
    [] =
  Raise ZeroDivisionError [].
Proof.
  apply (filter_roidb_zero_entry Examples.cfg).
  apply Exists_cons_tl, Exists_cons_hd. reflexivity.
Defined.

Lemma filter_roidb_twice_witness :
  exists kept out1,
    filter_roidb Examples.cfg Examples.roidb [] = Ok kept out1 /\
    filter_roidb Examples.cfg kept out1 =
    Ok kept
      (out1 ++ ["Filtered 0 roidb entries: " +:+
                format_d (Z.of_nat (length kept)) +:+ " -> " +:+
                format_d (Z.of_nat (length kept))])%list.
Proof.
  exact (filter_roidb_twice Examples.cfg Examples.roidb [] example_nonzero).
Defined.

Lemma filter_roidb_drops_empty_witness :
  exists kept out1,
    filter_roidb Examples.cfg Examples.roidb [] = Ok kept out1 /\
    forall e, In e kept -> max_overlaps e <> [].
Proof.
  exact (filter_roidb_drops_empty Examples.cfg Examples.roidb []
           example_nonzero).
Defined.

Lemma init_rpn_assertion_witness :
  SolverWrapper_init MoreExamples.cfg_rpn_unprepared Examples.caffe
    "solver.prototxt" [] "out" 7 0 (Some [10; 20]) (Some [2; 3]) None
    Examples.child_image =
  Raise (AssertionError None) Examples.child_image.
Proof.
  apply (init_rpn_assertion MoreExamples.cfg_rpn_unprepared Examples.caffe).
  reflexivity.
Defined.

Lemma init_layer_wise_reduce_witness :
  exists p',
    SolverWrapper_init Examples.cfg MoreExamples.caffe_no_reduce
      "solver.prototxt" [] "out" 7 0 (Some [10; 20]) (Some [2; 3]) None
      MoreExamples.three_solvers = Raise (AssertionError None) p' /\
    caffe_calls p' =
      [call_SGDSolver "solver.prototxt"; call_NCCL 7; call_bcast;
       call_add_callback].
Proof.
  apply (init_layer_wise_reduce Examples.cfg MoreExamples.caffe_no_reduce
           "solver.prototxt" [] "out" 7 0 (Some [10; 20]) (Some [2; 3]) None
           MoreExamples.three_solvers).
  - intros _. reflexivity.
  - reflexivity.
  - reflexivity.
Defined.

Lemma train_net_batch_mismatch_witness :
  exists p',
    train_net Examples.cfg Examples.caffe "solver.prototxt" [] "out" 7
      [0; 1] 1 (Some [10; 20]) (Some [2; 3]) None 10 Examples.child_image =
    Raise (AssertionError (Some "2 vs 3")) p' /\
    queue_puts p' = [] /\ p_disk p' = ∅ /\ p_stderr p' = [].
Proof.
  apply (train_net_batch_mismatch Examples.cfg Examples.caffe
           "solver.prototxt" [] "out" 7 [0; 1] 1%nat 1 (Some [10; 20])
           (Some [2; 3]) None 10 Examples.child_image).
  - reflexivity.
  - intros _. reflexivity.
  - vm_compute. discriminate.
Defined.

Lemma train_net_nonroot_no_output_witness :
  let p' :=
    final_state
      (train_net Examples.cfg Examples.caffe "solver.prototxt" [] "out" 7
         [0; 1; 2] 1 (Some [10; 20]) (Some [2; 3]) None 10
         Examples.child_image) in
  p_disk p' = p_disk Examples.child_image /\
  queue_puts p' = queue_puts Examples.child_image.
Proof.
  apply (train_net_nonroot_no_output Examples.cfg Examples.caffe
           "solver.prototxt" [] "out" 7 [0; 1; 2] 1%nat (Some [10; 20])
           (Some [2; 3]) None 10 Examples.child_image).
  discriminate.
Defined.

Lemma multi_gpus_filter_failure_witness :
  train_net_multi_gpus Examples.cfg Examples.caffe Examples.targets 7
    Examples.child_image (MoreExamples.pipe_of 65536) "solver.prototxt"
    [Examples.entry "a" [7 # 10] 640 480; Examples.entry "z" [7 # 10] 0 0]
    "out" [0; 1; 2] None 10 Examples.parent0 =
  Raise ZeroDivisionError
    {| stdout := [];
       events :=
         [ev_filter_roidb
            [Examples.entry "a" [7 # 10] 640 480;
             Examples.entry "z" [7 # 10] 0 0]] |}.
Proof.
  apply (multi_gpus_filter_failure Examples.cfg Examples.caffe
           Examples.targets 7 Examples.child_image
           (MoreExamples.pipe_of 65536)).
  apply Exists_cons_tl, Exists_cons_hd. reflexivity.
Defined.

(** Two GPUs against a configured batch size of 3: the root child fails
    its batch-size check. *)
Lemma example_root_fails :
  exists e q,
    run_alone Examples.cfg Examples.caffe Examples.child_image
      (worker_args Examples.cfg Examples.targets 7 "solver.prototxt"
         (List.filter (spec_keep Examples.cfg) Examples.roidb) "out" [0; 1]
         None 10 0%nat) = Raise e q.
Proof.
  unfold run_alone, worker_args.
  cbn [a_solver_prototxt a_roidb a_output_dir a_nccl_uid a_gpus a_rank
       a_bbox_means a_bbox_stds a_pretrained_model a_max_iters].
  destruct (train_net_prefix Examples.cfg Examples.caffe "solver.prototxt"
              (handed_roidb Examples.cfg Examples.targets
                 (List.filter (spec_keep Examples.cfg) Examples.roidb))
              "out" 7 [0; 1] 0%nat 0
              (handed_means Examples.cfg Examples.targets
                 (List.filter (spec_keep Examples.cfg) Examples.roidb))
              (handed_stds Examples.cfg Examples.targets
                 (List.filter (spec_keep Examples.cfg) Examples.roidb))
              None 10 Examples.child_image eq_refl)
    as (q & -> & Hc & _).
  destruct (init_mismatch_run Examples.cfg Examples.caffe "solver.prototxt"
              (handed_roidb Examples.cfg Examples.targets
                 (List.filter (spec_keep Examples.cfg) Examples.roidb))
              "out" 7 (Z.of_nat 0)
              (handed_means Examples.cfg Examples.targets
                 (List.filter (spec_keep Examples.cfg) Examples.roidb))
              (handed_stds Examples.cfg Examples.targets
                 (List.filter (spec_keep Examples.cfg) Examples.roidb))
              None q) as (q' & Hi & _).
  - intros _. reflexivity.
  - rewrite Hc. vm_compute. discriminate.
  - eexists _, q'. unfold bind at 1. rewrite Hi. reflexivity.
Defined.

Lemma multi_gpus_failed_root_blocks_witness :
  exists par',
    train_net_multi_gpus Examples.cfg Examples.caffe Examples.targets 7
      Examples.child_image (MoreExamples.pipe_of 65536) "solver.prototxt"
      Examples.roidb "out" [0; 1] None 10 Examples.parent0 =
      Diverge par' /\
    list.last (events par') = Some ev_queue_get.
Proof.
  destruct example_root_fails as (e & q & Hroot).
  destruct (multi_gpus_failed_root_blocks Examples.cfg Examples.caffe
              Examples.targets 7 Examples.child_image
              (MoreExamples.pipe_of 65536) "solver.prototxt"
              Examples.roidb "out" [0; 1] None 10 Examples.parent0 e q
              example_nonzero eq_refl Hroot) as (par' & Hrun & Hev).
  exists par'. split; [exact Hrun|]. rewrite Hev.
  replace (forallb _ _) with true by (vm_compute; reflexivity).
  rewrite !app_assoc. apply last_snoc.
Defined.

Lemma multi_gpus_no_gpus_witness :
  exists par',
    train_net_multi_gpus Examples.cfg Examples.caffe Examples.targets 7
      Examples.child_image (MoreExamples.pipe_of 65536) "solver.prototxt"
      Examples.roidb "out" [] None 10 Examples.parent0 = Diverge par' /\
    events par' =
      [ev_filter_roidb Examples.roidb; ev_new_uid;
       ev_add_bbox_regression_targets
         (List.filter (spec_keep Examples.cfg) Examples.roidb);
       ev_queue_get].
Proof.
  exact (multi_gpus_no_gpus Examples.cfg Examples.caffe Examples.targets 7
           Examples.child_image (MoreExamples.pipe_of 65536)
           "solver.prototxt" Examples.roidb "out" None 10 Examples.parent0
           example_nonzero).
Defined.

Lemma multi_gpus_stdout_witness :
  stdout
    (final_state
       (train_net_multi_gpus Examples.cfg Examples.caffe Examples.targets 7
          Examples.child_image (MoreExamples.pipe_of 65536)
          "solver.prototxt" Examples.roidb "out" [0; 1; 2] None 10
          Examples.parent0)) =
  ["Filtered 3 roidb entries: 5 -> 2"; "Solving...";
   "Computing bounding-box regression targets..."; "done"; "done solving"]
  /\
  stdout
    (final_state
       (train_net_multi_gpus Examples.cfg Examples.caffe Examples.targets 7
          Examples.child_image (MoreExamples.pipe_of 64)
          "solver.prototxt" Examples.roidb "out" [0; 1; 2] None 10
          Examples.parent0)) =
  ["Filtered 3 roidb entries: 5 -> 2"; "Solving...";
   "Computing bounding-box regression targets..."; "done"].
Proof.
  split.
  - rewrite (multi_gpus_stdout Examples.cfg Examples.caffe Examples.targets
               7 Examples.child_image (MoreExamples.pipe_of 65536)
               "solver.prototxt" Examples.roidb "out" [0; 1; 2] None 10
               Examples.parent0 example_nonzero).
    vm_compute. reflexivity.
  - rewrite (multi_gpus_stdout Examples.cfg Examples.caffe Examples.targets
               7 Examples.child_image (MoreExamples.pipe_of 64)
               "solver.prototxt" Examples.roidb "out" [0; 1; 2] None 10
               Examples.parent0 example_nonzero).
    vm_compute. reflexivity.
Defined.

Lemma example_root_clean :
  clean Examples.cfg
    (initial_session Examples.cfg Examples.caffe "solver.prototxt" "out" 0
       (handed_means Examples.cfg Examples.targets
          (List.filter (spec_keep Examples.cfg) Examples.roidb))
       (handed_stds Examples.cfg Examples.targets
          (List.filter (spec_keep Examples.cfg) Examples.roidb))
       None Examples.child_image).
Proof.
  split; [reflexivity|]. split; [discriminate|].
  split; [intros p; reflexivity|].
  eexists. by apply example_persisted.
Defined.

Lemma multi_gpus_large_result_blocks_witness :
  exists par',
    train_net_multi_gpus Examples.cfg Examples.caffe Examples.targets 7
      Examples.child_image (MoreExamples.pipe_of 64) "solver.prototxt"
      Examples.roidb "out" [0; 1; 2] None 10 Examples.parent0 =
      Diverge par' /\
    list.last (events par') = Some (ev_join 0%nat).
Proof.
  destruct (multi_gpus_large_result_blocks Examples.cfg Examples.caffe
              Examples.targets 7 Examples.child_image
              (MoreExamples.pipe_of 64) "solver.prototxt" Examples.roidb
              "out" [0; 1; 2] None 10 Examples.parent0)
    as (par' & Hrun & Hev).
  - exact example_nonzero.
  - reflexivity.
  - discriminate.
  - intros _. reflexivity.
  - vm_compute. reflexivity.
  - reflexivity.
  - discriminate.
  - exact sgd_example_keeps_shape.
  - exact example_root_clean.
  - vm_compute. reflexivity.
  - exists par'. split; [exact Hrun|]. rewrite Hev.
    rewrite !app_assoc. apply last_snoc.
Defined.

Lemma multi_gpus_peer_left_waiting_witness :
  exists par',
    train_net_multi_gpus MoreExamples.cfg_no_interval Examples.caffe
      Examples.targets 7 Examples.child_image (MoreExamples.pipe_of 65536)
      "solver.prototxt" Examples.roidb "out" [0; 1; 2] None 10
      Examples.parent0 = Diverge par' /\
    list.last (events par') = Some (ev_join 1%nat).
Proof.
  destruct (multi_gpus_peer_left_waiting MoreExamples.cfg_no_interval
              Examples.caffe Examples.targets 7 Examples.child_image
              (MoreExamples.pipe_of 65536) "solver.prototxt" Examples.roidb
              "out" [0; 1; 2] None 10 Examples.parent0)
    as (_ & _ & _ & par' & Hrun & Hev).
  - exact example_nonzero.
  - reflexivity.
  - cbn [length]. lia.
  - intros _. reflexivity.
  - vm_compute. reflexivity.
  - reflexivity.
  - vm_compute. discriminate.
  - reflexivity.
  - lia.
  - exists par'. split; [exact Hrun|]. rewrite Hev.
    change [ev_join 0%nat; ev_join 1%nat]
      with ([ev_join 0%nat] ++ [ev_join 1%nat])%list.
    rewrite !app_assoc. apply last_snoc.
Defined.
